(** * Tibber sensor platform (homeassistant/components/tibber/sensor.py)

    A shallow embedding of the sensor platform of the Tibber integration:
    the static table [RT_SENSORS], the platform set-up, the real-time
    sensor entity, the real-time data coordinator and the throttled price
    sensor.

    Python objects that the module mutates (the list objects, the
    coordinators, the real-time sensors) live in an explicit store and are
    addressed by references, so that aliasing is visible.  Every method is
    a computation in a state-and-exception monad over that store; calls
    into the host framework are recorded in the store's call log.

    The payload the vendor client delivers is parsed JSON; it is modelled
    as a dynamically typed Python value, and every operation the module
    applies to such a value raises what Python raises on the wrong type.

    Left out: the [available] property of the real-time sensor, debug
    logging, and the lock that the throttle decorator takes against other
    threads. *)

From Stdlib Require Import ZArith QArith Lia Ascii String Sorted.
From stdpp Require Import gmap strings list.
Close Scope Q_scope.

Set Default Proof Using "Type".

(** ** Exceptions and results *)

Inductive exn :=
| AttributeError
| KeyError
| TypeError
| IndexError
| ValueError
| asyncio_TimeoutError
| aiohttp_ClientError
| PlatformNotReady
| OtherError (name : string)
(* the two ways in which the model, and not Python, can stop: *)
| DanglingReference
| OutOfFuel.

Inductive result (A : Type) :=
| Ok (a : A)
| Raise (e : exn).
Arguments Ok {A} a.
Arguments Raise {A} e.

(** ** Python values

    What [json.loads] produces.  JSON booleans behave as the numbers 1 and
    0 under every operation used by this module, and are numbers here. *)

Class PyNumber (num : Type) := {
  num_ltb : num -> num -> bool;      (* x < y *)
  num_eqb : num -> num -> bool;      (* x == y *)
  num_is_zero : num -> bool;         (* not x *)
  num_mul_100 : num -> num           (* x * 100.0 *)
}.

#[warnings="-register-all"]
Inductive pyval (num : Type) :=
| PNone
| PNum (n : num)
| PStr (s : string)
| PList (l : list (pyval num))
| PDict (d : gmap string (pyval num)).
Arguments PNone {num}.
Arguments PNum {num} n.
Arguments PStr {num} s.
Arguments PList {num} l.
Arguments PDict {num} d.

Module Py.
Section Values.
Context {num : Type} {PN : PyNumber num}.

(** [bool(v)] *)
Definition truthy (v : pyval num) : bool :=
  match v with
  | PNone => false
  | PNum n => negb (num_is_zero n)
  | PStr s => negb (String.eqb s "")
  | PList l => negb (Nat.eqb (length l) 0)
  | PDict d => negb (Nat.eqb (size d) 0)
  end.

(** [v is None] *)
Definition is_none (v : pyval num) : bool :=
  match v with PNone => true | _ => false end.

(** [v.get(k, dflt)]: only a dict has the method. *)
Definition get (v : pyval num) (k : string) (dflt : pyval num)
  : result (pyval num) :=
  match v with
  | PDict d => Ok (default dflt (d !! k))
  | _ => Raise AttributeError
  end.

(** [v[k]] for a string [k]. *)
Definition getitem (v : pyval num) (k : string) : result (pyval num) :=
  match v with
  | PDict d => match d !! k with Some x => Ok x | None => Raise KeyError end
  | _ => Raise TypeError
  end.

(** A string is held as the bytes of its UTF-8 encoding.  The bytes at
    the head of [s] that carry on a character begun before them: those
    from 128 to 191. *)
Fixpoint utf8_tail (s : string) : string :=
  match s with
  | String c s' =>
      let n := Ascii.nat_of_ascii c in
      if Nat.leb 128 n && Nat.ltb n 192 then String c (utf8_tail s') else ""
  | EmptyString => ""
  end.

(** [v[0]].  The keys of a dict that comes from JSON are strings, so the
    integer 0 is never one of them.  Of a string it is the first
    character: its first byte and the bytes that carry it on. *)
Definition getitem_0 (v : pyval num) : result (pyval num) :=
  match v with
  | PList (x :: _) => Ok x
  | PList [] => Raise IndexError
  | PStr (String c s') => Ok (PStr (String c (utf8_tail s')))
  | PStr EmptyString => Raise IndexError
  | PDict _ => Raise KeyError
  | PNone | PNum _ => Raise TypeError
  end.

(** [a == b] *)
Fixpoint eqb (a b : pyval num) {struct a} : bool :=
  match a, b with
  | PNone, PNone => true
  | PNum x, PNum y => num_eqb x y
  | PStr x, PStr y => String.eqb x y
  | PList xs, PList ys =>
      (fix go (xs ys : list (pyval num)) : bool :=
         match xs, ys with
         | [], [] => true
         | x :: xs', y :: ys' => eqb x y && go xs' ys'
         | _, _ => false
         end) xs ys
  | PDict d1, PDict d2 =>
      Nat.eqb (size d1) (size d2) &&
      map_fold (fun k v acc =>
                  acc && match d2 !! k with
                         | Some v' => eqb v v'
                         | None => false
                         end) true d1
  | _, _ => false
  end.

(** [a < b]: numbers with numbers, strings with strings, lists with
    lists (lexicographic on the first pair of unequal items); every other
    pair of types is unorderable. *)
Fixpoint lt (a b : pyval num) {struct a} : result bool :=
  match a, b with
  | PNum x, PNum y => Ok (num_ltb x y)
  | PStr x, PStr y => Ok (String.ltb x y)
  | PList xs, PList ys =>
      (fix go (xs ys : list (pyval num)) : result bool :=
         match xs, ys with
         | [], [] => Ok false
         | [], _ :: _ => Ok true
         | _ :: _, [] => Ok false
         | x :: xs', y :: ys' => if eqb x y then go xs' ys' else lt x y
         end) xs ys
  | _, _ => Raise TypeError
  end.

(** [v * 100.0] *)
Definition mul_100 (v : pyval num) : result (pyval num) :=
  match v with
  | PNum n => Ok (PNum (num_mul_100 n))
  | _ => Raise TypeError
  end.

End Values.
End Py.

(** ** Dates and times

    A [datetime.datetime]: the calendar fields and the offset of its time
    zone from UTC in minutes ([None] for a naive value). *)

Record datetime := {
  year : Z; month : Z; day : Z;
  hour : Z; minute : Z; second : Z; microsecond : Z;
  tzinfo : option Z
}.

(** [dt.replace(hour=0, minute=0, second=0, microsecond=0)] *)
Definition replace_hour_minute_second_microsecond_0 (dt : datetime) : datetime :=
  {| year := year dt; month := month dt; day := day dt;
     hour := 0; minute := 0; second := 0; microsecond := 0;
     tzinfo := tzinfo dt |}.

(** [dt.replace(minute=0, second=0, microsecond=0)] *)
Definition replace_minute_second_microsecond_0 (dt : datetime) : datetime :=
  {| year := year dt; month := month dt; day := day dt;
     hour := hour dt; minute := 0; second := 0; microsecond := 0;
     tzinfo := tzinfo dt |}.

(** The functions of [homeassistant.util.dt] that the module calls on a
    value it has at hand; they are defined outside this file.
    [parse_datetime] returns [None] on a string that it does not
    recognise, and raises on one that has the form of a date and a time
    but names none, such as the 30th of February. *)
Class DtUtil := {
  parse_datetime : string -> result (option datetime);
  as_utc : datetime -> datetime;
  utc_from_timestamp : Z -> datetime
}.

(** ** Constants imported from the host and from [.const] *)

Class HostConst := {
  DEVICE_CLASS_CURRENT : string;
  DEVICE_CLASS_ENERGY : string;
  DEVICE_CLASS_MONETARY : string;
  DEVICE_CLASS_POWER : string;
  DEVICE_CLASS_POWER_FACTOR : string;
  DEVICE_CLASS_SIGNAL_STRENGTH : string;
  DEVICE_CLASS_VOLTAGE : string;
  STATE_CLASS_MEASUREMENT : string;
  ELECTRIC_CURRENT_AMPERE : string;
  ELECTRIC_POTENTIAL_VOLT : string;
  ENERGY_KILO_WATT_HOUR : string;
  EVENT_HOMEASSISTANT_STOP : string;
  PERCENTAGE : string;
  POWER_WATT : string;
  SIGNAL_STRENGTH_DECIBELS : string;
  TIBBER_DOMAIN : string;
  MANUFACTURER : string
}.

Definition ICON : string := "mdi:currency-usd".
(** The state of an entity whose [_attr_state] has not been assigned: the
    default that the host's entity class gives the attribute. *)
Definition STATE_UNKNOWN : string := "unknown".
(** [timedelta(minutes=m)], in microseconds *)
Definition timedelta_minutes (m : Z) : Z := m * 60 * 1000000.
Definition MIN_TIME_BETWEEN_UPDATES : Z := timedelta_minutes 5.

(** ** Sensor metadata *)

Inductive ResetType := HOURLY | DAILY | NEVER.

Record TibberSensorMetadata := {
  key : string;
  name : string;
  device_class : string;
  unit : option string;
  state_class : option string;
  reset_type : option ResetType
}.

#[global] Instance ResetType_eq_dec : EqDecision ResetType.
Proof. solve_decision. Defined.
#[global] Instance TibberSensorMetadata_eq_dec : EqDecision TibberSensorMetadata.
Proof. solve_decision. Defined.

Section Metadata.
Context {HC : HostConst}.

Definition RT_SENSORS : list TibberSensorMetadata := [
  {| key := "averagePower"; name := "average power";
     device_class := DEVICE_CLASS_POWER; unit := Some POWER_WATT;
     state_class := None; reset_type := None |};
  {| key := "power"; name := "power";
     device_class := DEVICE_CLASS_POWER; unit := Some POWER_WATT;
     state_class := None; reset_type := None |};
  {| key := "powerProduction"; name := "power production";
     device_class := DEVICE_CLASS_POWER; unit := Some POWER_WATT;
     state_class := None; reset_type := None |};
  {| key := "minPower"; name := "min power";
     device_class := DEVICE_CLASS_POWER; unit := Some POWER_WATT;
     state_class := None; reset_type := None |};
  {| key := "maxPower"; name := "max power";
     device_class := DEVICE_CLASS_POWER; unit := Some POWER_WATT;
     state_class := None; reset_type := None |};
  {| key := "accumulatedConsumption"; name := "accumulated consumption";
     device_class := DEVICE_CLASS_ENERGY; unit := Some ENERGY_KILO_WATT_HOUR;
     state_class := Some STATE_CLASS_MEASUREMENT; reset_type := Some DAILY |};
  {| key := "accumulatedConsumptionLastHour";
     name := "accumulated consumption current hour";
     device_class := DEVICE_CLASS_ENERGY; unit := Some ENERGY_KILO_WATT_HOUR;
     state_class := Some STATE_CLASS_MEASUREMENT; reset_type := Some HOURLY |};
  {| key := "accumulatedProduction"; name := "accumulated production";
     device_class := DEVICE_CLASS_ENERGY; unit := Some ENERGY_KILO_WATT_HOUR;
     state_class := Some STATE_CLASS_MEASUREMENT; reset_type := Some DAILY |};
  {| key := "accumulatedProductionLastHour";
     name := "accumulated production current hour";
     device_class := DEVICE_CLASS_ENERGY; unit := Some ENERGY_KILO_WATT_HOUR;
     state_class := Some STATE_CLASS_MEASUREMENT; reset_type := Some HOURLY |};
  {| key := "lastMeterConsumption"; name := "last meter consumption";
     device_class := DEVICE_CLASS_ENERGY; unit := Some ENERGY_KILO_WATT_HOUR;
     state_class := Some STATE_CLASS_MEASUREMENT; reset_type := None |};
  {| key := "lastMeterProduction"; name := "last meter production";
     device_class := DEVICE_CLASS_ENERGY; unit := Some ENERGY_KILO_WATT_HOUR;
     state_class := Some STATE_CLASS_MEASUREMENT; reset_type := None |};
  {| key := "voltagePhase1"; name := "voltage phase1";
     device_class := DEVICE_CLASS_VOLTAGE; unit := Some ELECTRIC_POTENTIAL_VOLT;
     state_class := Some STATE_CLASS_MEASUREMENT; reset_type := None |};
  {| key := "voltagePhase2"; name := "voltage phase2";
     device_class := DEVICE_CLASS_VOLTAGE; unit := Some ELECTRIC_POTENTIAL_VOLT;
     state_class := Some STATE_CLASS_MEASUREMENT; reset_type := None |};
  {| key := "voltagePhase3"; name := "voltage phase3";
     device_class := DEVICE_CLASS_VOLTAGE; unit := Some ELECTRIC_POTENTIAL_VOLT;
     state_class := Some STATE_CLASS_MEASUREMENT; reset_type := None |};
  {| key := "currentL1"; name := "current L1";
     device_class := DEVICE_CLASS_CURRENT; unit := Some ELECTRIC_CURRENT_AMPERE;
     state_class := Some STATE_CLASS_MEASUREMENT; reset_type := None |};
  {| key := "currentL2"; name := "current L2";
     device_class := DEVICE_CLASS_CURRENT; unit := Some ELECTRIC_CURRENT_AMPERE;
     state_class := Some STATE_CLASS_MEASUREMENT; reset_type := None |};
  {| key := "currentL3"; name := "current L3";
     device_class := DEVICE_CLASS_CURRENT; unit := Some ELECTRIC_CURRENT_AMPERE;
     state_class := Some STATE_CLASS_MEASUREMENT; reset_type := None |};
  {| key := "signalStrength"; name := "signal strength";
     device_class := DEVICE_CLASS_SIGNAL_STRENGTH;
     unit := Some SIGNAL_STRENGTH_DECIBELS;
     state_class := Some STATE_CLASS_MEASUREMENT; reset_type := None |};
  {| key := "accumulatedReward"; name := "accumulated reward";
     device_class := DEVICE_CLASS_MONETARY; unit := None;
     state_class := Some STATE_CLASS_MEASUREMENT; reset_type := Some DAILY |};
  {| key := "accumulatedCost"; name := "accumulated cost";
     device_class := DEVICE_CLASS_MONETARY; unit := None;
     state_class := Some STATE_CLASS_MEASUREMENT; reset_type := Some DAILY |};
  {| key := "powerFactor"; name := "power factor";
     device_class := DEVICE_CLASS_POWER_FACTOR; unit := Some PERCENTAGE;
     state_class := Some STATE_CLASS_MEASUREMENT; reset_type := None |}
].

End Metadata.

(** ** The vendor client's home object

    A [tibber.TibberHome] as the module reads it once [update_info] has
    been awaited: the attributes, the fields of [info["viewer"]["home"]]
    that the module subscripts, with the values the vendor's query gives
    them, and what awaiting [update_info()] and [rt_subscribe(callback)]
    does. *)

Record TibberHome := {
  home_id : string;
  currency : string;
  info_appNickname : option string;
  info_address : gmap string (option string);
  info_consumptionEan : option string;
  has_active_subscription : bool;
  has_real_time_consumption : bool;
  update_info : result Datatypes.unit;
  rt_subscribe : result Datatypes.unit
}.

(** [f"{x}"] for a string or [None] *)
Definition py_str (x : option string) : string := default "None" x.

(** ** class TibberSensor *)

Record TibberSensor := {
  _tibber_home : TibberHome;
  _home_name : option string;
  _device_name : option string;
  _model : option string
}.

Definition TibberSensor__init__ (tibber_home : TibberHome) : TibberSensor :=
  {| _tibber_home := tibber_home;
     _home_name :=
       match info_appNickname tibber_home with
       | Some nickname => Some nickname
       | None => default (Some "") (info_address tibber_home !! "address1")
       end;
     _device_name := None;
     _model := None |}.

(** [TibberSensor.device_info].  The dict it returns has the keys
    "identifiers", "name" and "manufacturer", and the key "model" when
    [_model] is not [None]: [model] is [None] for a dict without that
    key. *)
Module DeviceInfo.
Record t := {
  identifiers : gset (string * string);
  name : option string;
  manufacturer : string;
  model : option string
}.
End DeviceInfo.

Definition device_info {HC : HostConst} (self : TibberSensor)
  : DeviceInfo.t :=
  {| DeviceInfo.identifiers :=
       {[ (TIBBER_DOMAIN, home_id (_tibber_home self)) ]};
     DeviceInfo.name := _device_name self;
     DeviceInfo.manufacturer := MANUFACTURER;
     DeviceInfo.model := _model self |}.

(** ** class TibberSensorElPrice *)

Module ElPrice.

(** An aware [datetime] together with the instant it denotes, in
    microseconds since the epoch. *)
Record moment := { civil : datetime; instant : Z }.

(** Modelled from the spec: the host's [Throttle] decorator
    ([homeassistant.util.Throttle]), which is outside this file; the module
    only applies it to [_fetch_data].  The wrapper remembers when the
    wrapped method last ran; the method runs when it has never run, or when
    more than [min_time] has passed since then, and is skipped otherwise.
    [utcnow_check] is the clock when the wrapper decides and [utcnow_stamp]
    the clock when it records the run. *)
Definition Throttle (min_time : Z) (last_call : option Z)
  (utcnow_check utcnow_stamp : Z) : bool * option Z :=
  match last_call with
  | None => (true, Some utcnow_stamp)
  | Some t =>
      if (min_time <? utcnow_check - t)%Z then (true, Some utcnow_stamp)
      else (false, last_call)
  end.

Section ElPrice.
Context {num : Type} {PN : PyNumber num}.

(** The part of the vendor's home object that changes between updates. *)
Record vendor_home := {
  last_data_timestamp : option moment;
  current_price_total : pyval num;
  current_price_data : pyval num * pyval num * option datetime;
  current_attributes : gmap string (pyval num);
  price_unit : option string;
  appNickname : pyval num;
  gridCompany : pyval num;
  estimatedAnnualConsumption : pyval num
}.

Record t := {
  sensor : TibberSensor;
  _last_updated : option datetime;
  _spread_load_constant : Z;
  _attr_available : bool;
  _attr_extra_state_attributes : gmap string (pyval num);
  _attr_icon : string;
  _attr_name : string;
  _attr_unique_id : string;
  _attr_state : pyval num;
  _attr_unit_of_measurement : option string;
  (* the wrapper's record of the last run of [_fetch_data] *)
  _throttle : option Z
}.

(** [randrange] is the value that [randrange(5000)] returns.  The
    constructor does not assign [_attr_state]: the new sensor has the
    default of the host's class, [STATE_UNKNOWN]. *)
Definition __init__ (tibber_home : TibberHome) (randrange : Z) : t :=
  let base := TibberSensor__init__ tibber_home in
  let attr_name := "Electricity price " +:+ py_str (_home_name base) in
  {| sensor := {| _tibber_home := tibber_home;
                  _home_name := _home_name base;
                  _device_name := Some attr_name;
                  _model := Some "Price Sensor" |};
     _last_updated := None;
     _spread_load_constant := randrange;
     _attr_available := false;
     _attr_extra_state_attributes :=
       list_to_map [
         ("app_nickname", PNone); ("grid_company", PNone);
         ("estimated_annual_consumption", PNone); ("price_level", PNone);
         ("max_price", PNone); ("avg_price", PNone); ("min_price", PNone);
         ("off_peak_1", PNone); ("peak", PNone); ("off_peak_2", PNone)];
     _attr_icon := ICON;
     _attr_name := attr_name;
     _attr_unique_id := home_id tibber_home;
     _attr_state := PStr STATE_UNKNOWN;
     _attr_unit_of_measurement := None;
     _throttle := None |}.

(** What one call of [async_update] meets: the clock readings, and what
    the vendor's [update_info_and_price_info] would do if awaited now. *)
Record environment := {
  now : moment;
  utcnow_check : Z;
  utcnow_stamp : Z;
  update_info_and_price_info : result Datatypes.unit;
  fetched : vendor_home
}.

(** The sensor, the vendor's home it reads, and the instants at which the
    body of [_fetch_data] has run. *)
Record world := {
  self : t;
  home : vendor_home;
  fetches : list Z
}.

(** The body of [_fetch_data]; it runs at [utcnow_check].  The two
    exceptions of the vendor call that it catches end it early, any other
    one leaves it. *)
Definition _fetch_data_body (env : environment) (w : world)
  : result Datatypes.unit * world :=
  let w := {| self := self w; home := fetched env;
              fetches := fetches w ++ [utcnow_check env] |} in
  match update_info_and_price_info env with
  | Raise asyncio_TimeoutError | Raise aiohttp_ClientError => (Ok tt, w)
  | Raise e => (Raise e, w)
  | Ok _ =>
      let s := self w in
      let attrs :=
        <["estimated_annual_consumption" := estimatedAnnualConsumption (home w)]>
          (<["grid_company" := gridCompany (home w)]>
             (<["app_nickname" := appNickname (home w)]>
                (_attr_extra_state_attributes s))) in
      (Ok tt,
       {| self := {| sensor := sensor s;
                     _last_updated := _last_updated s;
                     _spread_load_constant := _spread_load_constant s;
                     _attr_available := _attr_available s;
                     _attr_extra_state_attributes := attrs;
                     _attr_icon := _attr_icon s;
                     _attr_name := _attr_name s;
                     _attr_unique_id := _attr_unique_id s;
                     _attr_state := _attr_state s;
                     _attr_unit_of_measurement := _attr_unit_of_measurement s;
                     _throttle := _throttle s |};
          home := home w; fetches := fetches w |})
  end.

Definition set_throttle (last_call : option Z) (s : t) : t :=
  {| sensor := sensor s;
     _last_updated := _last_updated s;
     _spread_load_constant := _spread_load_constant s;
     _attr_available := _attr_available s;
     _attr_extra_state_attributes := _attr_extra_state_attributes s;
     _attr_icon := _attr_icon s;
     _attr_name := _attr_name s;
     _attr_unique_id := _attr_unique_id s;
     _attr_state := _attr_state s;
     _attr_unit_of_measurement := _attr_unit_of_measurement s;
     _throttle := last_call |}.

(** [_fetch_data] as decorated: [@Throttle(MIN_TIME_BETWEEN_UPDATES)]. *)
Definition _fetch_data (env : environment) (w : world)
  : result Datatypes.unit * world :=
  match Throttle MIN_TIME_BETWEEN_UPDATES (_throttle (self w))
          (utcnow_check env) (utcnow_stamp env) with
  | (true, last_call) =>
      let '(r, w) := _fetch_data_body env w in
      (r, {| self := set_throttle last_call (self w);
             home := home w; fetches := fetches w |})
  | (false, _) => (Ok tt, w)
  end.

(** The tail of [async_update]: copy the current price into the entity. *)
Definition read_price (w : world) : world :=
  let s := self w in
  let '(state, price_level, last_updated) := current_price_data (home w) in
  {| self := {| sensor := sensor s;
                _last_updated := last_updated;
                _spread_load_constant := _spread_load_constant s;
                _attr_available := negb (Py.is_none state);
                _attr_extra_state_attributes :=
                  current_attributes (home w)
                    ∪ <["price_level" := price_level]>
                        (_attr_extra_state_attributes s);
                _attr_icon := _attr_icon s;
                _attr_name := _attr_name s;
                _attr_unique_id := _attr_unique_id s;
                _attr_state := state;
                _attr_unit_of_measurement := price_unit (home w);
                _throttle := _throttle s |};
     home := home w; fetches := fetches w |}.

Definition async_update (env : environment) (w : world)
  : result Datatypes.unit * world :=
  let s := self w in
  let stale :=
    match last_data_timestamp (home w) with
    | None => true
    | Some ts =>
        (instant ts - instant (now env)
         <? (5 * 3600 + _spread_load_constant s) * 1000000)%Z
    end in
  if stale || negb (_attr_available s) then
    match _fetch_data env w with
    | (Ok _, w) => (Ok tt, read_price w)
    | (Raise e, w) => (Raise e, w)
    end
  else if Py.truthy (current_price_total (home w))
          && match _last_updated s with
             | Some u => (hour u =? hour (civil (now env)))%Z
             | None => false
             end
          && bool_decide (is_Some (last_data_timestamp (home w)))
  then (Ok tt, w)
  else (Ok tt, read_price w).

(** A run of [async_update] calls, one per environment; a call that
    raises does not stop the host from calling again. *)
Fixpoint async_updates (envs : list environment) (w : world) : world :=
  match envs with
  | [] => w
  | env :: envs => async_updates envs (snd (async_update env w))
  end.

(** Two runs, the second more than [MIN_TIME_BETWEEN_UPDATES] after the
    first. *)
Definition apart (x y : Z) : Prop := (x + MIN_TIME_BETWEEN_UPDATES < y)%Z.

(** The clock readings of a run of calls, in the order they are made. *)
Definition clock_readings (envs : list environment) : list Z :=
  envs ≫= fun env => [utcnow_check env; utcnow_stamp env].

(** What a run of calls maintains: the runs of the body so far are
    pairwise apart, none is later than the wrapper's record of the last
    run, and there is such a record as soon as the body has run. *)
Definition throttle_ok (w : world) : Prop :=
  StronglySorted apart (fetches w)
  /\ match _throttle (self w) with
     | Some t => Forall (fun x => (x <= t)%Z) (fetches w)
     | None => fetches w = []
     end.

End ElPrice.
End ElPrice.

(** ** The store *)

(** References to Python objects. *)
Definition loc := nat.

(** The module-level name [RT_SENSORS] is bound to this list object. *)
Definition RT_SENSORS_ref : loc := 0%nat.

(** The attributes of a [TibberRtDataCoordinator] that the module uses;
    [_all_sensors] refers to a list object, [data] is what the host's
    [DataUpdateCoordinator] keeps. *)
Module Coordinator.
Record t (num : Type) := {
  _tibber_home : TibberHome;
  _all_sensors : loc;
  data : pyval num;
  name : option string
}.
Arguments _tibber_home {num} _.
Arguments _all_sensors {num} _.
Arguments data {num} _.
Arguments name {num} _.
End Coordinator.

(** An entry of the host's device registry. *)
Record device_entry := { id : string; config_entries : list string }.

Section Platform.
Context {num : Type} {PN : PyNumber num} {HC : HostConst} {DU : DtUtil}.

Record TibberSensorRT := {
  rt_sensor : TibberSensor;
  coordinator : loc;
  _metadata : TibberSensorMetadata;
  _attr_device_class : string;
  _attr_name : string;
  _attr_state : pyval num;
  _attr_unique_id : string;
  _attr_unit_of_measurement : option string;
  _attr_state_class : option string;
  _attr_last_reset : option datetime
}.

Inductive entity :=
| ElPriceEntity (e : @ElPrice.t num)
| RtEntity (e : loc).

(** The calls the module makes on the host and on the vendor client. *)
Inductive host_call :=
| LOGGER_error (msg : pyval num)
| LOGGER_error_format (msg : string) (err : exn)
| async_write_ha_state (self : loc) (state : pyval num)
    (last_reset : option datetime)
| async_add_entities (new_entities : list entity) (update_before_add : bool)
| home_rt_subscribe (home : string) (callback_of : loc)
| async_add_listener (self : loc)
| async_remove_listener (self : loc)
| async_listen_once (event_type : string) (self : loc)
| async_update_entity (entity_id : string) (new_unique_id : string)
| async_update_device (device_id : string) (new_identifier : string * string).

(** [lists], [coordinators] and [rt_sensors] hold the objects the module
    creates and mutates, and an object once created stays there; [now] is
    what [dt_util.now()] returns; [entropy] gives the successive results of
    [randrange(5000)]; the two registries are the host's, read as they are
    when set-up starts; [calls] is the log, oldest call first. *)
Record hass := {
  lists : gmap loc (list TibberSensorMetadata);
  coordinators : gmap loc (Coordinator.t num);
  rt_sensors : gmap loc TibberSensorRT;
  now : datetime;
  entropy : nat -> Z;
  draws : nat;
  entity_registry : gmap string string;
  device_registry : gmap string device_entry;
  calls : list host_call
}.

Definition with_lists
  (f : gmap loc (list TibberSensorMetadata) ->
       gmap loc (list TibberSensorMetadata)) (h : hass) : hass :=
  {| lists := f (lists h); coordinators := coordinators h;
     rt_sensors := rt_sensors h; now := now h; entropy := entropy h;
     draws := draws h; entity_registry := entity_registry h;
     device_registry := device_registry h; calls := calls h |}.

Definition with_coordinators
  (f : gmap loc (Coordinator.t num) -> gmap loc (Coordinator.t num))
  (h : hass) : hass :=
  {| lists := lists h; coordinators := f (coordinators h);
     rt_sensors := rt_sensors h; now := now h; entropy := entropy h;
     draws := draws h; entity_registry := entity_registry h;
     device_registry := device_registry h; calls := calls h |}.

Definition with_rt_sensors
  (f : gmap loc TibberSensorRT -> gmap loc TibberSensorRT) (h : hass) : hass :=
  {| lists := lists h; coordinators := coordinators h;
     rt_sensors := f (rt_sensors h); now := now h; entropy := entropy h;
     draws := draws h; entity_registry := entity_registry h;
     device_registry := device_registry h; calls := calls h |}.

Definition with_calls (f : list host_call -> list host_call) (h : hass)
  : hass :=
  {| lists := lists h; coordinators := coordinators h;
     rt_sensors := rt_sensors h; now := now h; entropy := entropy h;
     draws := draws h; entity_registry := entity_registry h;
     device_registry := device_registry h; calls := f (calls h) |}.

Definition with_draws (n : nat) (h : hass) : hass :=
  {| lists := lists h; coordinators := coordinators h;
     rt_sensors := rt_sensors h; now := now h; entropy := entropy h;
     draws := n; entity_registry := entity_registry h;
     device_registry := device_registry h; calls := calls h |}.

Definition with_now (t : datetime) (h : hass) : hass :=
  {| lists := lists h; coordinators := coordinators h;
     rt_sensors := rt_sensors h; now := t; entropy := entropy h;
     draws := draws h; entity_registry := entity_registry h;
     device_registry := device_registry h; calls := calls h |}.

(** ** The monad of methods: state and exceptions

    A computation returns a value or raises, and in both cases leaves a
    store: what it has mutated before raising stays mutated. *)

Definition M (A : Type) : Type := hass -> result A * hass.

Definition ret {A} (a : A) : M A := fun h => (Ok a, h).

Definition bind {A B} (f : A -> M B) (m : M A) : M B :=
  fun h => match m h with
           | (Ok a, h') => f a h'
           | (Raise e, h') => (Raise e, h')
           end.

#[global] Instance M_ret : MRet M := @ret.
#[global] Instance M_bind : MBind M := @bind.

Definition raise {A} (e : exn) : M A := fun h => (Raise e, h).

Definition lift {A} (r : result A) : M A := fun h => (r, h).

Definition call (c : host_call) : M Datatypes.unit :=
  fun h => (Ok tt, with_calls (fun cs => cs ++ [c]) h).

Definition deref {A} (field : hass -> gmap loc A) (l : loc) : M A :=
  fun h => match field h !! l with
           | Some x => (Ok x, h)
           | None => (Raise DanglingReference, h)
           end.

Definition get_list : loc -> M (list TibberSensorMetadata) := deref lists.
Definition get_coordinator : loc -> M (Coordinator.t num) := deref coordinators.
Definition get_sensor : loc -> M TibberSensorRT := deref rt_sensors.

Definition set_list (l : loc) (v : list TibberSensorMetadata)
  : M Datatypes.unit :=
  fun h => (Ok tt, with_lists <[l := v]> h).

Definition set_coordinator (l : loc) (c : Coordinator.t num)
  : M Datatypes.unit :=
  fun h => (Ok tt, with_coordinators <[l := c]> h).

Definition set_sensor (l : loc) (s : TibberSensorRT) : M Datatypes.unit :=
  fun h => (Ok tt, with_rt_sensors <[l := s]> h).

(** A new object gets a reference that no object of its kind has. *)
Definition new_list (v : list TibberSensorMetadata) : M loc :=
  fun h => let l := fresh (dom (lists h)) in
           (Ok l, with_lists <[l := v]> h).

Definition new_coordinator (c : Coordinator.t num) : M loc :=
  fun h => let l := fresh (dom (coordinators h)) in
           (Ok l, with_coordinators <[l := c]> h).

Definition new_sensor (s : TibberSensorRT) : M loc :=
  fun h => let l := fresh (dom (rt_sensors h)) in
           (Ok l, with_rt_sensors <[l := s]> h).

(** [dt_util.now()] *)
Definition dt_util_now : M datetime := fun h => (Ok (now h), h).

(** [randrange(5000)] *)
Definition randrange_5000 : M Z :=
  fun h => (Ok (entropy h (draws h)), with_draws (S (draws h)) h).

(** [l.remove(x)]: the first item equal to [x] goes. *)
Fixpoint remove_first (x : TibberSensorMetadata)
  (l : list TibberSensorMetadata) : option (list TibberSensorMetadata) :=
  match l with
  | [] => None
  | y :: l' => if decide (y = x) then Some l'
               else cons y <$> remove_first x l'
  end.

Definition list_remove (l : loc) (x : TibberSensorMetadata)
  : M Datatypes.unit :=
  v ← get_list l;
  match remove_first x v with
  | Some v' => set_list l v'
  | None => raise ValueError
  end.

(** ** class TibberSensorRT *)

(** [TibberSensorRT.__init__] *)
Definition TibberSensorRT__init__ (tibber_home : TibberHome)
  (metadata : TibberSensorMetadata) (initial_state : pyval num)
  (coordinator : loc) : M loc :=
  let base := TibberSensor__init__ tibber_home in
  let model := "Tibber Pulse" in
  now ← dt_util_now;
  new_sensor
    {| rt_sensor := {| _tibber_home := tibber_home;
                       _home_name := _home_name base;
                       _device_name :=
                         Some (model +:+ " " +:+ py_str (_home_name base));
                       _model := Some model |};
       coordinator := coordinator;
       _metadata := metadata;
       _attr_device_class := device_class metadata;
       _attr_name := name metadata +:+ " " +:+ py_str (_home_name base);
       _attr_state := initial_state;
       _attr_unique_id := home_id tibber_home +:+ "_rt_" +:+ name metadata;
       _attr_unit_of_measurement :=
         if String.eqb (key metadata) "accumulatedCost"
            || String.eqb (key metadata) "accumulatedReward"
         then Some (currency tibber_home)
         else unit metadata;
       _attr_state_class := state_class metadata;
       _attr_last_reset :=
         match reset_type metadata with
         | Some NEVER => Some (utc_from_timestamp 0)
         | Some DAILY =>
             Some (as_utc (replace_hour_minute_second_microsecond_0 now))
         | Some HOURLY =>
             Some (as_utc (replace_minute_second_microsecond_0 now))
         | None => None
         end |}.

Definition set_attr_last_reset (v : option datetime) (s : TibberSensorRT)
  : TibberSensorRT :=
  {| rt_sensor := rt_sensor s; coordinator := coordinator s;
     _metadata := _metadata s; _attr_device_class := _attr_device_class s;
     _attr_name := _attr_name s; _attr_state := _attr_state s;
     _attr_unique_id := _attr_unique_id s;
     _attr_unit_of_measurement := _attr_unit_of_measurement s;
     _attr_state_class := _attr_state_class s;
     _attr_last_reset := v |}.

Definition set_attr_state (v : pyval num) (s : TibberSensorRT)
  : TibberSensorRT :=
  {| rt_sensor := rt_sensor s; coordinator := coordinator s;
     _metadata := _metadata s; _attr_device_class := _attr_device_class s;
     _attr_name := _attr_name s; _attr_state := v;
     _attr_unique_id := _attr_unique_id s;
     _attr_unit_of_measurement := _attr_unit_of_measurement s;
     _attr_state_class := _attr_state_class s;
     _attr_last_reset := _attr_last_reset s |}.

(** [TibberRtDataCoordinator.get_live_measurement] *)
Definition get_live_measurement (self : loc) : M (pyval num) :=
  c ← get_coordinator self;
  errors ← lift (Py.get (Coordinator.data c) "errors" PNone);
  if Py.truthy errors then
    error ← lift (Py.getitem_0 errors);
    call (LOGGER_error error);;
    mret PNone
  else
    d ← lift (Py.get (Coordinator.data c) "data" (PDict ∅));
    lift (Py.get d "liveMeasurement" PNone).

(** [dt_util.parse_datetime(v)]: the function takes a string. *)
Definition parse_datetime_arg (v : pyval num) : result (option datetime) :=
  match v with
  | PStr s => parse_datetime s
  | _ => Raise TypeError
  end.

(** [self.async_write_ha_state()] *)
Definition write_ha_state (self : loc) : M Datatypes.unit :=
  s ← get_sensor self;
  call (async_write_ha_state self (_attr_state s) (_attr_last_reset s)).

(** [TibberSensorRT._handle_coordinator_update] *)
Definition _handle_coordinator_update (self : loc) : M Datatypes.unit :=
  s ← get_sensor self;
  live_measurement ← get_live_measurement (coordinator s);
  if negb (Py.truthy live_measurement) then mret tt else
  state ← lift (Py.get live_measurement (key (_metadata s)) PNone);
  if Py.is_none state then mret tt else
  timestamp_str ← lift (Py.getitem live_measurement "timestamp");
  timestamp ← lift (parse_datetime_arg timestamp_str);
  match timestamp with
  | None => mret tt
  | Some timestamp =>
      smaller ← lift (Py.lt state (_attr_state s));
      if smaller : bool then
        match reset_type (_metadata s) with
        | Some DAILY =>
            s ← get_sensor self;
            set_sensor self
              (set_attr_last_reset
                 (Some (as_utc
                          (replace_hour_minute_second_microsecond_0 timestamp)))
                 s)
        | Some HOURLY =>
            s ← get_sensor self;
            set_sensor self
              (set_attr_last_reset
                 (Some (as_utc (replace_minute_second_microsecond_0 timestamp)))
                 s)
        | _ => mret tt
        end
      else mret tt
  end;;
  state ← (if String.eqb (key (_metadata s)) "powerFactor"
           then lift (Py.mul_100 state) else mret state);
  s ← get_sensor self;
  set_sensor self (set_attr_state state s);;
  write_ha_state self.

(** ** class TibberRtDataCoordinator *)

(** [TibberRtDataCoordinator.__init__]: [RT_SENSORS.copy()] makes a new
    list object with the items of the module-level one. *)
Definition TibberRtDataCoordinator__init__ (tibber_home : TibberHome) : M loc :=
  items ← get_list RT_SENSORS_ref;
  all_sensors ← new_list items;
  self ← new_coordinator
    {| Coordinator._tibber_home := tibber_home;
       Coordinator._all_sensors := all_sensors;
       Coordinator.data := PNone;
       Coordinator.name :=
         default (Some "Tibber") (info_address tibber_home !! "address1") |};
  call (async_add_listener self);;
  call (async_listen_once EVENT_HOMEASSISTANT_STOP self);;
  mret self.

(** [TibberRtDataCoordinator._handle_ha_stop] *)
Definition _handle_ha_stop (self : loc) : M Datatypes.unit :=
  call (async_remove_listener self).

(** The [for] loop of [_add_sensors].  A Python [for] over a list keeps an
    index into the list object: each round reads the item at the index from
    the list as it is then, and stops when the index is past the end.
    [fuel] bounds the number of rounds. *)
Fixpoint _add_sensors_loop (fuel : nat) (self : loc)
  (live_measurement : pyval num) (index : nat) (new_entities : list loc)
  : M (list loc) :=
  match fuel with
  | O => raise OutOfFuel
  | S fuel =>
      c ← get_coordinator self;
      all_sensors ← get_list (Coordinator._all_sensors c);
      match all_sensors !! index with
      | None => mret new_entities
      | Some sensor_description =>
          state ← lift (Py.get live_measurement (key sensor_description) PNone);
          if Py.is_none state
          then _add_sensors_loop fuel self live_measurement (S index)
                 new_entities
          else
            entity ← TibberSensorRT__init__ (Coordinator._tibber_home c)
                       sensor_description state self;
            list_remove (Coordinator._all_sensors c) sensor_description;;
            _add_sensors_loop fuel self live_measurement (S index)
              (new_entities ++ [entity])
      end
  end.

(** [TibberRtDataCoordinator._add_sensors]; the loop gets one round more
    than the list has items. *)
Definition _add_sensors (self : loc) : M Datatypes.unit :=
  live_measurement ← get_live_measurement self;
  if negb (Py.truthy live_measurement) then mret tt else
  c ← get_coordinator self;
  all_sensors ← get_list (Coordinator._all_sensors c);
  new_entities ← _add_sensors_loop (S (length all_sensors)) self
                   live_measurement 0 [];
  match new_entities with
  | [] => mret tt
  | _ :: _ => call (async_add_entities (RtEntity <$> new_entities) false)
  end.

(** The host's [async_set_updated_data] stores the payload in the
    coordinator before it calls the listeners. *)
Definition set_data (self : loc) (data : pyval num) : M Datatypes.unit :=
  c ← get_coordinator self;
  set_coordinator self
    {| Coordinator._tibber_home := Coordinator._tibber_home c;
       Coordinator._all_sensors := Coordinator._all_sensors c;
       Coordinator.data := data;
       Coordinator.name := Coordinator.name c |}.

(** ** async_setup_entry *)

(** The body of the loop over
    [tibber_connection.get_homes(only_active=False)]; [continue] ends it. *)
Definition setup_home (entry_id : string) (entities : list entity)
  (home : TibberHome) : M (list entity) :=
  match update_info home with
  | Ok _ => mret tt
  | Raise asyncio_TimeoutError =>
      call (LOGGER_error_format "Timeout connecting to Tibber home: %s "
              asyncio_TimeoutError);;
      raise PlatformNotReady
  | Raise aiohttp_ClientError =>
      call (LOGGER_error_format "Error connecting to Tibber home: %s "
              aiohttp_ClientError);;
      raise PlatformNotReady
  | Raise e => raise e
  end;;
  entities ← (if has_active_subscription home
              then r ← randrange_5000;
                   mret (entities ++ [ElPriceEntity (ElPrice.__init__ home r)])
              else mret entities);
  (if has_real_time_consumption home
   then c ← TibberRtDataCoordinator__init__ home;
        call (home_rt_subscribe (home_id home) c);;
        lift (rt_subscribe home)
   else mret tt);;
  match info_consumptionEan home with
  | None => mret entities
  | Some old_id =>
      old_entity_id ← (fun h => (Ok (entity_registry h !! old_id), h));
      match old_entity_id with
      | Some old_entity_id =>
          call (async_update_entity old_entity_id (home_id home))
      | None => mret tt
      end;;
      device_entry ← (fun h => (Ok (device_registry h !! old_id), h));
      match device_entry with
      | Some device_entry =>
          if bool_decide (entry_id ∈ config_entries device_entry)
          then call (async_update_device (id device_entry)
                       (TIBBER_DOMAIN, home_id home))
          else mret tt
      | None => mret tt
      end;;
      mret entities
  end.

Fixpoint setup_homes (entry_id : string) (homes : list TibberHome)
  (entities : list entity) : M (list entity) :=
  match homes with
  | [] => mret entities
  | home :: homes =>
      entities ← setup_home entry_id entities home;
      setup_homes entry_id homes entities
  end.

Definition async_setup_entry (entry_id : string) (homes : list TibberHome)
  : M Datatypes.unit :=
  entities ← setup_homes entry_id homes [];
  call (async_add_entities entities true).

(** ** What can happen to the store

    The module as imported, and the ways in which the host runs its code:
    a platform set-up, a payload stored in a coordinator, a listener
    called, the clock moving.  An action that raises leaves the store as it
    is at that point. *)

Definition module_init (now : datetime) (entropy : nat -> Z)
  (entity_registry : gmap string string)
  (device_registry : gmap string device_entry) : hass :=
  {| lists := {[ RT_SENSORS_ref := RT_SENSORS ]};
     coordinators := ∅; rt_sensors := ∅;
     now := now; entropy := entropy; draws := 0;
     entity_registry := entity_registry; device_registry := device_registry;
     calls := [] |}.

Inductive action :=
| SetupEntry (entry_id : string) (homes : list TibberHome)
| SetData (coordinator : loc) (data : pyval num)
| AddSensors (coordinator : loc)
| HandleCoordinatorUpdate (sensor : loc)
| HandleHaStop (coordinator : loc)
| Tick (now : datetime).

Definition perform (a : action) (h : hass) : hass :=
  match a with
  | SetupEntry entry_id homes => snd (async_setup_entry entry_id homes h)
  | SetData c data => snd (set_data c data h)
  | AddSensors c => snd (_add_sensors c h)
  | HandleCoordinatorUpdate s => snd (_handle_coordinator_update s h)
  | HandleHaStop c => snd (_handle_ha_stop c h)
  | Tick t => with_now t h
  end.

Definition perform_all (acts : list action) (h : hass) : hass :=
  foldl (fun h a => perform a h) h acts.

(** One update of a coordinator as the host does it: store the payload,
    then call the coordinator's own listener. *)
Definition coordinator_update (self : loc) (data : pyval num) : list action :=
  [SetData self data; AddSensors self].

End Platform.

(** ** Predicates used in the statements *)

Section Observations.
Context {num : Type}.

Definition is_write_ha_state (c : @host_call num) : bool :=
  match c with async_write_ha_state _ _ _ => true | _ => false end.

(** The host states written so far. *)
Definition writes (h : @hass num) : list (@host_call num) :=
  filter (fun c => is_write_ha_state c = true) (calls h).

Definition is_add_entities (c : @host_call num) : bool :=
  match c with async_add_entities _ _ => true | _ => false end.

(** The [async_add_entities] calls made so far. *)
Definition registrations (h : @hass num) : list (@host_call num) :=
  filter (fun c => is_add_entities c = true) (calls h).

(** The real-time sensors that a coordinator has created, and their keys. *)
Definition sensors_of (h : @hass num) (c : loc)
  : gmap loc (@TibberSensorRT num) :=
  filter (fun es => coordinator (snd es) = c) (rt_sensors h).

Definition created_keys (h : @hass num) (c : loc) : list string :=
  (fun es => key (_metadata (snd es))) <$> map_to_list (sensors_of h c).

(** The descriptors a coordinator has still to make a sensor for. *)
Definition pending (h : @hass num) (c : loc) : list TibberSensorMetadata :=
  match coordinators h !! c with
  | Some co => default [] (lists h !! Coordinator._all_sensors co)
  | None => []
  end.

(** The real-time sensors passed to [async_add_entities], in order. *)
Definition rt_entities (c : @host_call num) : list loc :=
  match c with
  | async_add_entities es _ =>
      es ≫= fun e => match e with RtEntity e => [e] | ElPriceEntity _ => [] end
  | _ => []
  end.

Definition registered (h : @hass num) : list loc := calls h ≫= rt_entities.

(** The invariant of the store: the module-level list is as declared;
    every coordinator has a list object of its own, which is not the
    module-level one and holds no key twice; every sensor belongs to a
    coordinator whose list no longer holds the sensor's key; no
    coordinator has two sensors with one key; and what has been registered
    is sensors of the store, each once. *)
Record store_ok {HC : HostConst} (h : @hass num) : Prop := {
  ok_module_list : lists h !! RT_SENSORS_ref = Some RT_SENSORS;
  ok_own_list : forall c co,
    coordinators h !! c = Some co ->
    Coordinator._all_sensors co <> RT_SENSORS_ref /\
    exists l, lists h !! Coordinator._all_sensors co = Some l /\
              NoDup (key <$> l);
  ok_no_alias : forall c1 c2 co1 co2,
    coordinators h !! c1 = Some co1 -> coordinators h !! c2 = Some co2 ->
    Coordinator._all_sensors co1 = Coordinator._all_sensors co2 -> c1 = c2;
  ok_created : forall e s,
    rt_sensors h !! e = Some s ->
    exists co l, coordinators h !! coordinator s = Some co /\
                 lists h !! Coordinator._all_sensors co = Some l /\
                 key (_metadata s) ∉ (key <$> l);
  ok_one_per_key : forall e1 e2 s1 s2,
    rt_sensors h !! e1 = Some s1 -> rt_sensors h !! e2 = Some s2 ->
    coordinator s1 = coordinator s2 ->
    key (_metadata s1) = key (_metadata s2) -> e1 = e2;
  ok_registered_once : NoDup (registered h);
  ok_registered_created : forall e,
    e ∈ registered h -> is_Some (rt_sensors h !! e)
}.

(** What the loop of [_add_sensors] maintains: the invariant, and that the
    entities collected so far are sensors of the store that have not been
    registered. *)
Definition loop_ok {HC : HostConst} (h : @hass num) (new_entities : list loc)
  : Prop :=
  store_ok h /\ NoDup (registered h ++ new_entities)
  /\ forall e, e ∈ new_entities -> is_Some (rt_sensors h !! e).

(** Neither of the two vendor calls that the set-up awaits raises. *)
Definition answers (home : TibberHome) : Prop :=
  update_info home = Ok tt
  /\ (has_real_time_consumption home = true -> rt_subscribe home = Ok tt).

(** An entity is the price sensor of a home. *)
Definition price_sensor_of (e : @entity num) (home : TibberHome) : Prop :=
  exists randrange, e = ElPriceEntity (ElPrice.__init__ home randrange).

(** Two stores with the same sensors and the same registrations. *)
Definition same_entities (h h' : @hass num) : Prop :=
  rt_sensors h' = rt_sensors h /\ registrations h' = registrations h
  /\ registered h' = registered h.

End Observations.

(** ** Predicates used in the further statements *)

Section Changes.
Context {num : Type}.

(** The attributes of a real-time sensor that only its constructor sets. *)
Definition fixed_attributes (s : @TibberSensorRT num) :=
  (rt_sensor s, coordinator s, _metadata s, _attr_device_class s,
   _attr_name s, _attr_unique_id s, _attr_unit_of_measurement s,
   _attr_state_class s).

(** A descriptor has a reading in a live measurement. *)
Definition has_reading (d : gmap string (pyval num))
  (x : TibberSensorMetadata) : bool :=
  negb (Py.is_none (default PNone (d !! key x))).

(** One pass over the descriptors in which a descriptor with a reading is
    taken and the descriptor after it is passed over: the descriptors
    taken, and the ones left. *)
Fixpoint taken (d : gmap string (pyval num)) (l : list TibberSensorMetadata)
  : list TibberSensorMetadata :=
  match l with
  | [] => []
  | x :: l' =>
      if has_reading d x
      then x :: match l' with [] => [] | _ :: l'' => taken d l'' end
      else taken d l'
  end.

Fixpoint left_over (d : gmap string (pyval num))
  (l : list TibberSensorMetadata) : list TibberSensorMetadata :=
  match l with
  | [] => []
  | x :: l' =>
      if has_reading d x
      then match l' with [] => [] | y :: l'' => y :: left_over d l'' end
      else x :: left_over d l'
  end.

(** The attributes that the constructor of a real-time sensor computes
    from the home and the metadata are the sensor's. *)
Definition built (home : TibberHome) (s : @TibberSensorRT num) : Prop :=
  let home_name := py_str (_home_name (TibberSensor__init__ home)) in
  rt_sensor s
  = {| _tibber_home := home;
       _home_name := _home_name (TibberSensor__init__ home);
       _device_name := Some ("Tibber Pulse" +:+ " " +:+ home_name);
       _model := Some "Tibber Pulse" |}
  /\ _attr_device_class s = device_class (_metadata s)
  /\ _attr_name s = name (_metadata s) +:+ " " +:+ home_name
  /\ _attr_unique_id s = home_id home +:+ "_rt_" +:+ name (_metadata s)
  /\ _attr_unit_of_measurement s
     = (if String.eqb (key (_metadata s)) "accumulatedCost"
           || String.eqb (key (_metadata s)) "accumulatedReward"
        then Some (currency home) else unit (_metadata s))
  /\ _attr_state_class s = state_class (_metadata s).

(** A sensor as [_add_sensors] makes it for a descriptor: it belongs to
    the coordinator, and shows the reading under the descriptor's key. *)
Definition made_for (d : gmap string (pyval num)) (self : loc)
  (home : TibberHome) (s : @TibberSensorRT num) (x : TibberSensorMetadata)
  : Prop :=
  coordinator s = self /\ _metadata s = x
  /\ d !! key x = Some (_attr_state s) /\ _attr_state s <> PNone
  /\ built home s.

(** The descriptors that a coordinator has made a sensor for. *)
Definition created_metadata (h : @hass num) (c : loc)
  : list TibberSensorMetadata :=
  (fun es => _metadata (snd es)) <$> map_to_list (sensors_of h c).

(** A second invariant of the store: for every coordinator, the pending
    descriptors and the descriptors of its sensors are together the
    records of [RT_SENSORS], each once; every sensor has the attributes
    its constructor computes from the home of its coordinator and from its
    metadata; no sensor shows [None]; and a sensor has a [last_reset]
    exactly when its metadata has a reset type. *)
Record table_ok {HC : HostConst} (h : @hass num) : Prop := {
  tk_partition : forall c co,
    coordinators h !! c = Some co ->
    pending h c ++ created_metadata h c ≡ₚ RT_SENSORS;
  tk_built : forall e s,
    rt_sensors h !! e = Some s ->
    exists co, coordinators h !! coordinator s = Some co
               /\ built (Coordinator._tibber_home co) s;
  tk_state : forall e s,
    rt_sensors h !! e = Some s -> _attr_state s <> PNone;
  tk_last_reset : forall e s,
    rt_sensors h !! e = Some s ->
    (is_Some (_attr_last_reset s) <-> is_Some (reset_type (_metadata s)))
}.

(** The ways in which the module changes the objects of the store: not at
    all; a payload put in a coordinator; the state or [last_reset] of a
    sensor set; a coordinator made, with a copy of [RT_SENSORS] as its
    list; a sensor made for a descriptor of a coordinator's list, and the
    descriptor removed from the list. *)
Inductive step {HC : HostConst} (h : @hass num) : @hass num -> Prop :=
| step_host h' :
    lists h' = lists h -> coordinators h' = coordinators h ->
    rt_sensors h' = rt_sensors h -> step h h'
| step_data c co data :
    coordinators h !! c = Some co ->
    step h (with_coordinators
              <[c := {| Coordinator._tibber_home := Coordinator._tibber_home co;
                        Coordinator._all_sensors := Coordinator._all_sensors co;
                        Coordinator.data := data;
                        Coordinator.name := Coordinator.name co |}]> h)
| step_sensor e s s' :
    rt_sensors h !! e = Some s ->
    fixed_attributes s' = fixed_attributes s ->
    (_attr_state s <> PNone -> _attr_state s' <> PNone) ->
    _attr_last_reset s' = _attr_last_reset s
    \/ (is_Some (_attr_last_reset s')
        /\ is_Some (reset_type (_metadata s))) ->
    step h (with_rt_sensors <[e := s']> h)
| step_coordinator ref c co :
    lists h !! ref = None -> coordinators h !! c = None ->
    Coordinator._all_sensors co = ref ->
    step h (with_coordinators <[c := co]>
              (with_lists <[ref := RT_SENSORS]> h))
| step_create c co l x l' e s :
    coordinators h !! c = Some co ->
    lists h !! Coordinator._all_sensors co = Some l ->
    x ∈ l -> remove_first x l = Some l' ->
    rt_sensors h !! e = None ->
    coordinator s = c -> _metadata s = x ->
    built (Coordinator._tibber_home co) s -> _attr_state s <> PNone ->
    (is_Some (_attr_last_reset s) <-> is_Some (reset_type x)) ->
    step h (with_lists <[Coordinator._all_sensors co := l']>
              (with_rt_sensors <[e := s]> h)).

(** A run of such changes, each made in a store that satisfies the first
    invariant. *)
Inductive steps {HC : HostConst} (h : @hass num) : @hass num -> Prop :=
| steps_refl : steps h h
| steps_snoc h1 h2 : steps h h1 -> store_ok h1 -> step h1 h2 -> steps h h2.

(** The second store is a later one: every coordinator of the first is
    still there, with its home and its list object, and has no pending
    descriptor that it had not before; every sensor of the first is still
    there, with the attributes that its constructor set. *)
Definition later (h h' : @hass num) : Prop :=
  (forall c co, coordinators h !! c = Some co ->
     exists co', coordinators h' !! c = Some co'
       /\ Coordinator._tibber_home co' = Coordinator._tibber_home co
       /\ Coordinator._all_sensors co' = Coordinator._all_sensors co
       /\ Coordinator.name co' = Coordinator.name co
       /\ pending h' c `sublist_of` pending h c)
  /\ (forall e s, rt_sensors h !! e = Some s ->
        exists s', rt_sensors h' !! e = Some s'
                   /\ fixed_attributes s' = fixed_attributes s).

(** The [rt_subscribe] calls made so far: the id of the home, and the
    coordinator whose [async_set_updated_data] is the callback. *)
Definition subscriptions (h : @hass num) : list (string * loc) :=
  calls h ≫= fun c => match c with
                      | home_rt_subscribe home callback_of =>
                          [(home, callback_of)]
                      | _ => []
                      end.

(** The second store has the coordinators of the first, with the pending
    descriptors they had, and in addition one new coordinator for each of
    [homes], without data and with every record of [RT_SENSORS]
    pending. *)
Definition grew {HC : HostConst} (h h' : @hass num) (homes : list TibberHome)
  (cs : list loc) : Prop :=
  coordinators h ⊆ coordinators h'
  /\ (forall c, is_Some (coordinators h !! c) -> pending h' c = pending h c)
  /\ NoDup cs
  /\ Forall2 (fun home c =>
                coordinators h !! c = None
                /\ exists co, coordinators h' !! c = Some co
                     /\ Coordinator._tibber_home co = home
                     /\ Coordinator.data co = PNone
                     /\ pending h' c = RT_SENSORS) homes cs.

(** What no call of [async_update] changes on a price sensor, and what
    every call keeps true of it. *)
Definition price_sensor_ok (s0 s : @ElPrice.t num) : Prop :=
  ElPrice.sensor s = ElPrice.sensor s0
  /\ ElPrice._spread_load_constant s = ElPrice._spread_load_constant s0
  /\ ElPrice._attr_icon s = ElPrice._attr_icon s0
  /\ ElPrice._attr_name s = ElPrice._attr_name s0
  /\ ElPrice._attr_unique_id s = ElPrice._attr_unique_id s0
  /\ dom (ElPrice._attr_extra_state_attributes s0)
     ⊆ dom (ElPrice._attr_extra_state_attributes s)
  /\ (ElPrice._attr_available s = ElPrice._attr_available s0
      /\ ElPrice._attr_state s = ElPrice._attr_state s0
      \/ ElPrice._attr_available s
         = negb (Py.is_none (ElPrice._attr_state s))).

End Changes.

(** ** Sample instances, for running the definitions *)

Module Sample.

(** Numbers as rationals. *)
#[global] Instance Q_number : PyNumber Q := {|
  num_ltb x y := negb (Qle_bool y x);
  num_eqb x y := Qeq_bool x y;
  num_is_zero x := Qeq_bool x 0%Q;
  num_mul_100 x := Qred (x * 100)%Q
|}.

(** The values these constants have in the host's release. *)
#[global] Instance host_const : HostConst := {|
  DEVICE_CLASS_CURRENT := "current";
  DEVICE_CLASS_ENERGY := "energy";
  DEVICE_CLASS_MONETARY := "monetary";
  DEVICE_CLASS_POWER := "power";
  DEVICE_CLASS_POWER_FACTOR := "power_factor";
  DEVICE_CLASS_SIGNAL_STRENGTH := "signal_strength";
  DEVICE_CLASS_VOLTAGE := "voltage";
  STATE_CLASS_MEASUREMENT := "measurement";
  ELECTRIC_CURRENT_AMPERE := "A";
  ELECTRIC_POTENTIAL_VOLT := "V";
  ENERGY_KILO_WATT_HOUR := "kWh";
  EVENT_HOMEASSISTANT_STOP := "homeassistant_stop";
  PERCENTAGE := "%";
  POWER_WATT := "W";
  SIGNAL_STRENGTH_DECIBELS := "dB";
  TIBBER_DOMAIN := "tibber";
  MANUFACTURER := "Tibber"
|}.

(** Days since 1970-01-01 of a date of the proleptic Gregorian calendar,
    and back. *)
Definition days_from_civil (y m d : Z) : Z :=
  let y := if (m <=? 2)%Z then (y - 1)%Z else y in
  let era := (y / 400)%Z in
  let yoe := (y - era * 400)%Z in
  let mp := if (2 <? m)%Z then (m - 3)%Z else (m + 9)%Z in
  let doy := ((153 * mp + 2) / 5 + d - 1)%Z in
  let doe := (yoe * 365 + yoe / 4 - yoe / 100 + doy)%Z in
  (era * 146097 + doe - 719468)%Z.

Definition civil_from_days (z : Z) : Z * Z * Z :=
  let z := (z + 719468)%Z in
  let era := (z / 146097)%Z in
  let doe := (z - era * 146097)%Z in
  let yoe := ((doe - doe / 1460 + doe / 36524 - doe / 146096) / 365)%Z in
  let doy := (doe - (365 * yoe + yoe / 4 - yoe / 100))%Z in
  let mp := ((5 * doy + 2) / 153)%Z in
  let d := (doy - (153 * mp + 2) / 5 + 1)%Z in
  let m := if (mp <? 10)%Z then (mp + 3)%Z else (mp - 9)%Z in
  let y := (yoe + era * 400)%Z in
  (if (m <=? 2)%Z then (y + 1)%Z else y, m, d).

(** [as_utc] where the default time zone is UTC. *)
Definition sample_as_utc (dt : datetime) : datetime :=
  let off := default 0%Z (tzinfo dt) in
  let minutes :=
    ((days_from_civil (year dt) (month dt) (day dt) * 24 + hour dt) * 60
     + minute dt - off)%Z in
  let '(y, m, d) := civil_from_days (minutes / 1440)%Z in
  {| year := y; month := m; day := d;
     hour := ((minutes mod 1440) / 60)%Z; minute := (minutes mod 60)%Z;
     second := second dt; microsecond := microsecond dt;
     tzinfo := Some 0%Z |}.

Definition digit_at (s : string) (i : nat) : option Z :=
  c ← String.get i s;
  let n := Z.of_nat (Ascii.nat_of_ascii c) in
  if ((48 <=? n) && (n <=? 57))%Z then Some (n - 48)%Z else None.

Fixpoint number_at (s : string) (i len : nat) (acc : Z) : option Z :=
  match len with
  | O => Some acc
  | S len => d ← digit_at s i; number_at s (S i) len (acc * 10 + d)%Z
  end.

(** The fields of [YYYY-MM-DDTHH:MM:SS] with nothing, [Z] or [+HH:MM] /
    [-HH:MM] after it; [None] on anything else. *)
Definition sample_match_datetime (s : string) : option datetime :=
  y ← number_at s 0 4 0; mo ← number_at s 5 2 0; d ← number_at s 8 2 0;
  h ← number_at s 11 2 0; mi ← number_at s 14 2 0; se ← number_at s 17 2 0;
  tz ← match String.length s, String.get 19 s with
       | 19%nat, _ => Some None
       | 20%nat, Some "Z"%char => Some (Some 0%Z)
       | 25%nat, Some sign =>
           oh ← number_at s 20 2 0; om ← number_at s 23 2 0;
           if Ascii.eqb sign "+"%char then Some (Some (oh * 60 + om)%Z)
           else if Ascii.eqb sign "-"%char then Some (Some (- (oh * 60 + om))%Z)
           else None
       | _, _ => None
       end;
  Some {| year := y; month := mo; day := d; hour := h; minute := mi;
          second := se; microsecond := 0; tzinfo := tz |}.

Definition days_in_month (y m : Z) : Z :=
  if (m =? 2)%Z then
    if ((y mod 4 =? 0) && (negb (y mod 100 =? 0) || (y mod 400 =? 0)))%Z
    then 29%Z else 28%Z
  else if ((m =? 4) || (m =? 6) || (m =? 9) || (m =? 11))%Z then 30%Z
  else 31%Z.

(** [datetime(...)] accepts these fields: a day of the calendar, a time
    of the day, and an offset of less than a day. *)
Definition is_datetime (dt : datetime) : bool :=
  ((1 <=? year dt) && (1 <=? month dt) && (month dt <=? 12)
   && (1 <=? day dt) && (day dt <=? days_in_month (year dt) (month dt))
   && (hour dt <=? 23) && (minute dt <=? 59) && (second dt <=? 59)
   && match tzinfo dt with
      | Some offset => (-1440 <? offset) && (offset <? 1440)
      | None => true
      end)%Z.

(** [parse_datetime] on these strings: [None] on a string of another
    form, and [ValueError] on fields that make no date and time. *)
Definition sample_parse_datetime (s : string) : result (option datetime) :=
  match sample_match_datetime s with
  | Some dt => if is_datetime dt then Ok (Some dt) else Raise ValueError
  | None => Ok None
  end.

(** [utc_from_timestamp] of a whole number of seconds. *)
Definition sample_utc_from_timestamp (seconds : Z) : datetime :=
  let '(y, m, d) := civil_from_days (seconds / 86400)%Z in
  let s := (seconds mod 86400)%Z in
  {| year := y; month := m; day := d;
     hour := (s / 3600)%Z; minute := ((s mod 3600) / 60)%Z;
     second := (s mod 60)%Z; microsecond := 0; tzinfo := Some 0%Z |}.

#[global] Instance dt_util : DtUtil := {|
  parse_datetime := sample_parse_datetime;
  as_utc := sample_as_utc;
  utc_from_timestamp := sample_utc_from_timestamp
|}.

Definition home : TibberHome :=
  {| home_id := "c70dcbe5"; currency := "NOK";
     info_appNickname := Some "Hytta";
     info_address := {[ "address1" := Some "Storgata 1" ]};
     info_consumptionEan := None;
     has_active_subscription := true;
     has_real_time_consumption := true;
     update_info := Ok tt; rt_subscribe := Ok tt |}.

Definition clock : datetime :=
  {| year := 2021; month := 7; day := 1; hour := 13; minute := 45;
     second := 10; microsecond := 0; tzinfo := Some 120%Z |}.

(** The module imported, then one coordinator made for [home]: the
    coordinator is object 0 and its list is object 1. *)
Definition imported : @hass Q := module_init clock (fun _ => 1234%Z) ∅ ∅.

Definition subscribed : @hass Q :=
  snd (TibberRtDataCoordinator__init__ home imported).

(** The store once the host has put [data] in the coordinator. *)
Definition delivered (data : pyval Q) (h : @hass Q) : @hass Q :=
  snd (set_data 0%nat data h).

(** The payload of a live measurement with the given fields. *)
Definition measurement (fields : list (string * pyval Q))
  : gmap string (pyval Q) := list_to_map fields.

Definition payload (fields : list (string * pyval Q)) : pyval Q :=
  PDict {[ "data" :=
             PDict {[ "liveMeasurement" := PDict (measurement fields) ]} ]}.

(** A live measurement with a reading for every key of [RT_SENSORS]. *)
Definition full_fields : list (string * pyval Q) :=
  ("timestamp", PStr "2021-07-01T13:45:10+02:00")
  :: ((fun m => (key m, PNum (1 # 2)%Q)) <$> RT_SENSORS).

(** A live measurement with three readings; two updates with it leave a
    coordinator with sensor 0 for "accumulatedConsumption", sensor 1 for
    "powerFactor" and sensor 2 for "accumulatedConsumptionLastHour". *)
Definition first_fields : list (string * pyval Q) :=
  [("timestamp", PStr "2021-07-01T13:45:10+02:00");
   ("accumulatedConsumption", PNum (25 # 2)%Q);
   ("accumulatedConsumptionLastHour", PNum (3 # 4)%Q);
   ("powerFactor", PNum (1 # 2)%Q)].

Definition running : @hass Q :=
  perform_all (coordinator_update 0%nat (payload first_fields)
               ++ coordinator_update 0%nat (payload first_fields))
    subscribed.

(** Just after midnight, local time: the counters have started again. *)
Definition midnight_fields : list (string * pyval Q) :=
  [("timestamp", PStr "2021-07-02T00:00:05+02:00");
   ("accumulatedConsumption", PNum (1 # 100)%Q);
   ("accumulatedConsumptionLastHour", PNum (1 # 100)%Q);
   ("powerFactor", PNum (9 # 10)%Q)].

(** At the turn of the hour: the hourly counter has started again, the
    daily one has grown. *)
Definition next_hour_fields : list (string * pyval Q) :=
  [("timestamp", PStr "2021-07-01T14:00:03+02:00");
   ("accumulatedConsumption", PNum (129 # 10)%Q);
   ("accumulatedConsumptionLastHour", PNum (1 # 100)%Q)].



(** Only the power, which the three sensors do not show. *)
Definition power_fields : list (string * pyval Q) :=
  [("timestamp", PStr "2021-07-02T00:00:05+02:00");
   ("power", PNum 1500%Q)].

(** Three homes: the second has no subscription, the third times out. *)
Definition cabin : TibberHome :=
  {| home_id := "96a14971"; currency := "SEK";
     info_appNickname := None;
     info_address := {[ "address1" := Some "Fjellveien 7" ]};
     info_consumptionEan := Some "707057500100175148";
     has_active_subscription := false;
     has_real_time_consumption := false;
     update_info := Ok tt; rt_subscribe := Ok tt |}.

Definition unreachable : TibberHome :=
  {| home_id := "0371f5a4"; currency := "EUR";
     info_appNickname := Some "Loft";
     info_address := ∅;
     info_consumptionEan := None;
     has_active_subscription := true;
     has_real_time_consumption := false;
     update_info := Raise asyncio_TimeoutError; rt_subscribe := Ok tt |}.

(** Three calls of [async_update]: at 0 s, at 100 s and at 400 s, each
    taking one microsecond from the wrapper's check to its record. *)
Definition vendor : @ElPrice.vendor_home Q :=
  {| ElPrice.last_data_timestamp := None;
     ElPrice.current_price_total := PNone;
     ElPrice.current_price_data := (PNum (3 # 10)%Q, PStr "NORMAL", Some clock);
     ElPrice.current_attributes := ∅;
     ElPrice.price_unit := Some "NOK/kWh";
     ElPrice.appNickname := PStr "Hytta";
     ElPrice.gridCompany := PStr "Elvia";
     ElPrice.estimatedAnnualConsumption := PNum 12000%Q |}.

Definition at_instant (t : Z) : @ElPrice.environment Q :=
  {| ElPrice.now := {| ElPrice.civil := clock; ElPrice.instant := t |};
     ElPrice.utcnow_check := t;
     ElPrice.utcnow_stamp := (t + 1)%Z;
     ElPrice.update_info_and_price_info := Ok tt;
     ElPrice.fetched := vendor |}.

Definition three_calls : list (@ElPrice.environment Q) :=
  [at_instant 0; at_instant 100000000; at_instant 400000000].


(** A power factor below the one that sensor 1 shows. *)
Definition low_power_factor_fields : list (string * pyval Q) :=
  [("timestamp", PStr "2021-07-01T14:00:03+02:00");
   ("powerFactor", PNum (1 # 10)%Q)].



(** A home whose [update_info] fails with an error of the vendor client,
    and one whose [rt_subscribe] times out. *)
Definition locked : TibberHome :=
  {| home_id := "5f1ee0ab"; currency := "NOK";
     info_appNickname := None; info_address := ∅;
     info_consumptionEan := None;
     has_active_subscription := true;
     has_real_time_consumption := false;
     update_info := Raise (OtherError "InvalidLogin");
     rt_subscribe := Ok tt |}.

Definition flaky : TibberHome :=
  {| home_id := "b2d1c7e0"; currency := "NOK";
     info_appNickname := None; info_address := ∅;
     info_consumptionEan := None;
     has_active_subscription := false;
     has_real_time_consumption := true;
     update_info := Ok tt;
     rt_subscribe := Raise asyncio_TimeoutError |}.

(** The platform set up for [home]; then two updates with
    [first_fields], which make sensors 0, 1 and 2 as in [running]. *)
Definition set_up : list (@action Q) := [SetupEntry "entry" [home]].

Definition two_updates : list (@action Q) :=
  set_up ++ coordinator_update 0%nat (payload first_fields)
         ++ coordinator_update 0%nat (payload first_fields).

End Sample.

(** * Facts *)

Section ValueFacts.
Context {num : Type} {PN : PyNumber num}.

Lemma truthy_dict_empty (d : gmap string (pyval num)) :
  Py.truthy (PDict d) = false <-> d = ∅.
Proof.
  simpl. rewrite negb_false_iff, Nat.eqb_eq. apply map_size_empty_iff.
Qed.

Lemma truthy_dict_lookup k (d : gmap string (pyval num)) v :
  d !! k = Some v -> Py.truthy (PDict d) = true.
Proof.
  intros Hk. destruct (Py.truthy (PDict d)) eqn:E; [done|].
  apply truthy_dict_empty in E. subst d. by rewrite lookup_empty in Hk.
Qed.

Lemma is_none_true (v : pyval num) : Py.is_none v = true <-> v = PNone.
Proof. destruct v; simpl; split; congruence. Qed.

Lemma is_none_false (v : pyval num) : v <> PNone -> Py.is_none v = false.
Proof. destruct v; simpl; congruence. Qed.

End ValueFacts.

(** Unfolds the monad down to functions on the store. *)
Ltac unfold_M :=
  unfold mbind, M_bind, bind, mret, M_ret, ret, lift, call, raise,
    get_sensor, get_coordinator, get_list, deref,
    set_sensor, set_coordinator, set_list,
    new_sensor, new_coordinator, new_list, dt_util_now, randrange_5000 in *.

Section CoordinatorFacts.
Context {num : Type} {PN : PyNumber num} {HC : HostConst} {DU : DtUtil}.
Implicit Types (h : @hass num) (d : gmap string (pyval num)).

Lemma get_live_measurement_errors h self c d errors e :
  coordinators h !! self = Some c ->
  Coordinator.data c = PDict d ->
  d !! "errors" = Some errors -> Py.truthy errors = true ->
  Py.getitem_0 errors = Ok e ->
  get_live_measurement self h
  = (Ok PNone, with_calls (fun cs => cs ++ [LOGGER_error e]) h).
Proof.
  intros Hc Hd He Ht H0. unfold get_live_measurement. unfold_M.
  rewrite Hc, Hd. simpl. rewrite He. simpl. rewrite Ht, H0. reflexivity.
Qed.

Lemma get_live_measurement_no_data h self c d :
  coordinators h !! self = Some c ->
  Coordinator.data c = PDict d ->
  Py.truthy (default PNone (d !! "errors")) = false ->
  d !! "data" = None ->
  get_live_measurement self h = (Ok PNone, h).
Proof.
  intros Hc Hd He Hn. unfold get_live_measurement. unfold_M.
  rewrite Hc, Hd. simpl. rewrite He, Hn. simpl.
  rewrite lookup_empty. reflexivity.
Qed.

Lemma get_live_measurement_data h self c d dd :
  coordinators h !! self = Some c ->
  Coordinator.data c = PDict d ->
  Py.truthy (default PNone (d !! "errors")) = false ->
  d !! "data" = Some (PDict dd) ->
  get_live_measurement self h
  = (Ok (default PNone (dd !! "liveMeasurement")), h).
Proof.
  intros Hc Hd He Hn. unfold get_live_measurement. unfold_M.
  rewrite Hc, Hd. simpl. rewrite He, Hn. reflexivity.
Qed.

(** Whatever it returns or raises, [get_live_measurement] leaves every
    object as it is: all it may do to the store is log one error. *)
Lemma get_live_measurement_store h self r h' :
  get_live_measurement self h = (r, h') ->
  h' = h \/ exists e, h' = with_calls (fun cs => cs ++ [LOGGER_error e]) h.
Proof.
  unfold get_live_measurement. unfold_M.
  destruct (coordinators h !! self) as [c|]; [|intros [= <- <-]; by left].
  destruct (Py.get (Coordinator.data c) "errors" PNone) as [errors|];
    [|intros [= <- <-]; by left].
  destruct (Py.truthy errors).
  - destruct (Py.getitem_0 errors) as [e|]; intros [= <- <-]; eauto.
  - destruct (Py.get (Coordinator.data c) "data" (PDict ∅)) as [x|];
      [|intros [= <- <-]; by left].
    intros [= <- <-]; by left.
Qed.

(** C9 (as amended).  When the coordinator's data is a dict:
    [get_live_measurement] returns [None], after logging the first error,
    if the "errors" entry is non-empty and has a first item (a list, or a
    string); if that entry is absent or falsy, it returns [None] when there
    is no "data" entry and the "liveMeasurement" field of the "data" entry
    ([None] when the field is absent) when that entry is a dict.  In these
    cases it does not raise.  On every input, it leaves the coordinators,
    and so their data, as they are. *)
Theorem get_live_measurement_spec h self c d :
  coordinators h !! self = Some c ->
  Coordinator.data c = PDict d ->
  (forall errors e,
     d !! "errors" = Some errors -> Py.truthy errors = true ->
     Py.getitem_0 errors = Ok e ->
     get_live_measurement self h
     = (Ok PNone, with_calls (fun cs => cs ++ [LOGGER_error e]) h))
  /\ (Py.truthy (default PNone (d !! "errors")) = false ->
      (d !! "data" = None -> get_live_measurement self h = (Ok PNone, h))
      /\ (forall dd, d !! "data" = Some (PDict dd) ->
            get_live_measurement self h
            = (Ok (default PNone (dd !! "liveMeasurement")), h)))
  /\ (forall self' h0, coordinators (snd (get_live_measurement self' h0))
                       = coordinators h0).
Proof.
  intros Hc Hd. split; [|split].
  - intros errors e He Ht H0. by eapply get_live_measurement_errors.
  - intros He. split.
    + intros Hn. by eapply get_live_measurement_no_data.
    + intros dd Hn. by eapply get_live_measurement_data.
  - intros self' h0.
    destruct (get_live_measurement self' h0) as [r h'] eqn:E.
    apply get_live_measurement_store in E as [->|[e ->]]; reflexivity.
Qed.

End CoordinatorFacts.


Section SensorFacts.
Context {num : Type} {PN : PyNumber num} {HC : HostConst} {DU : DtUtil}.
Implicit Types (h : @hass num) (d : gmap string (pyval num))
  (s : @TibberSensorRT num).

Lemma get_live_measurement_frame h self r h' :
  get_live_measurement self h = (r, h') ->
  rt_sensors h' = rt_sensors h /\ lists h' = lists h
  /\ coordinators h' = coordinators h /\ writes h' = writes h
  /\ registrations h' = registrations h /\ registered h' = registered h.
Proof.
  intros E. apply get_live_measurement_store in E as [->|[e ->]]; [done|].
  repeat split; unfold writes, registrations, registered; simpl;
    first [ by rewrite filter_app, filter_cons_False, filter_nil, app_nil_r
          | by rewrite bind_app, app_nil_r ].
Qed.

(** C8.  When the coordinator has no live measurement ([None] or an empty
    dict), or has one in which the sensor's key is missing or is [None],
    [_handle_coordinator_update] returns without touching the sensor, so its
    state and [last_reset] stay, and without writing a host state. *)
Theorem handle_update_without_reading h self s lm h1 :
  rt_sensors h !! self = Some s ->
  get_live_measurement (coordinator s) h = (Ok lm, h1) ->
  (Py.truthy lm = false
   \/ exists d, lm = PDict d
        /\ (d !! key (_metadata s) = None
            \/ d !! key (_metadata s) = Some PNone)) ->
  _handle_coordinator_update self h = (Ok tt, h1)
  /\ rt_sensors h1 !! self = Some s
  /\ writes h1 = writes h.
Proof.
  intros Hs Hlm Hcase.
  destruct (get_live_measurement_frame _ _ _ _ Hlm) as (Hrt & _ & _ & Hw & _).
  split; [|by rewrite Hrt].
  unfold _handle_coordinator_update. unfold_M. rewrite Hs, Hlm.
  destruct Hcase as [Hf|(d & -> & Hk)].
  - by rewrite Hf.
  - destruct (Py.truthy (PDict d)); simpl; [|done].
    by destruct Hk as [-> | ->].
Qed.

(** C1.  A live measurement that holds a reading for the sensor's key and
    a timestamp that parses: if the reading is smaller than the sensor's
    state, [last_reset] becomes the start of the timestamp's day, made
    UTC, on a DAILY sensor, and the start of its hour on an HOURLY one;
    if the reading is not smaller, [last_reset] stays. *)
Theorem handle_update_last_reset h self s d h1 reading ts timestamp :
  rt_sensors h !! self = Some s ->
  get_live_measurement (coordinator s) h = (Ok (PDict d), h1) ->
  d !! key (_metadata s) = Some reading -> reading <> PNone ->
  d !! "timestamp" = Some (PStr ts) ->
  parse_datetime ts = Ok (Some timestamp) ->
  exists s', rt_sensors (snd (_handle_coordinator_update self h)) !! self
             = Some s'
    /\ (reset_type (_metadata s) = Some DAILY ->
        Py.lt reading (_attr_state s) = Ok true ->
        _attr_last_reset s'
        = Some (as_utc (replace_hour_minute_second_microsecond_0 timestamp)))
    /\ (reset_type (_metadata s) = Some HOURLY ->
        Py.lt reading (_attr_state s) = Ok true ->
        _attr_last_reset s'
        = Some (as_utc (replace_minute_second_microsecond_0 timestamp)))
    /\ (Py.lt reading (_attr_state s) = Ok false ->
        _attr_last_reset s' = _attr_last_reset s).
Proof.
  intros Hs Hlm Hk Hnn Hts Hp.
  destruct (get_live_measurement_frame _ _ _ _ Hlm) as (Hrt & _).
  rewrite <- Hrt in Hs.
  unfold _handle_coordinator_update. unfold_M.
  rewrite <- Hrt, Hs, Hlm, (truthy_dict_lookup _ _ _ Hk).
  simpl. rewrite Hk, Hts. simpl.
  assert (Py.is_none reading = false) as ->
    by (destruct reading; simpl; congruence).
  simpl. rewrite Hp. unfold write_ha_state. unfold_M.
  destruct (Py.lt reading (_attr_state s)) as [[]|e] eqn:Hlt;
    destruct (reset_type (_metadata s)) as [[]|] eqn:Hr;
    destruct (String.eqb (key (_metadata s)) "powerFactor");
    destruct (Py.mul_100 reading); simpl;
    rewrite ?Hs; simpl; rewrite ?lookup_insert_eq; simpl;
    rewrite ?lookup_insert_eq; simpl; rewrite ?lookup_insert_eq;
    (eexists; split; [first [reflexivity | eassumption]|]);
    repeat split; intros; first [congruence | reflexivity].
Qed.


(** C5.  The constructor always returns a new sensor; its unit of
    measurement is the home's currency when the key is "accumulatedCost" or
    "accumulatedReward", and the unit the metadata declares otherwise. *)
Theorem init_unit_of_measurement h tibber_home metadata initial_state c :
  exists e s,
    TibberSensorRT__init__ tibber_home metadata initial_state c h
    = (Ok e, with_rt_sensors <[e := s]> h)
    /\ rt_sensors h !! e = None
    /\ _metadata s = metadata
    /\ (key metadata = "accumulatedCost" \/ key metadata = "accumulatedReward" ->
        _attr_unit_of_measurement s = Some (currency tibber_home))
    /\ (key metadata <> "accumulatedCost" ->
        key metadata <> "accumulatedReward" ->
        _attr_unit_of_measurement s = unit metadata).
Proof.
  unfold TibberSensorRT__init__. unfold_M. do 2 eexists.
  split; [reflexivity|]. split; [|split; [reflexivity|]].
  - apply not_elem_of_dom, is_fresh.
  - simpl. destruct (String.eqb_spec (key metadata) "accumulatedCost");
      destruct (String.eqb_spec (key metadata) "accumulatedReward"); simpl;
      intuition congruence.
Qed.

End SensorFacts.

(** ** The invariant of the store *)

Section StoreFacts.
Context {num : Type} {PN : PyNumber num} {HC : HostConst} {DU : DtUtil}.
Implicit Types (h : @hass num) (l : list TibberSensorMetadata)
  (x : TibberSensorMetadata) (s : @TibberSensorRT num).

Lemma remove_first_split x l l' :
  remove_first x l = Some l' ->
  exists l1 l2, l = l1 ++ x :: l2 /\ l' = l1 ++ l2.
Proof.
  revert l'. induction l as [|y l IH]; intros l'; simpl; [done|].
  destruct (decide (y = x)) as [->|Hne].
  - intros [= <-]. by exists [], l.
  - destruct (remove_first x l) as [l0|]; simpl; [|done].
    intros [= <-]. destruct (IH l0 eq_refl) as (l1 & l2 & -> & ->).
    by exists (y :: l1), l2.
Qed.

Lemma remove_first_elem x l :
  x ∈ l -> is_Some (remove_first x l).
Proof.
  induction 1 as [|y z l _ IH]; simpl.
  - by rewrite decide_True.
  - destruct (decide (z = y)); [done|]. destruct IH as [l' ->]. by eexists.
Qed.

Lemma remove_first_length x l l' :
  remove_first x l = Some l' -> S (length l') = length l.
Proof.
  intros H. apply remove_first_split in H as (l1 & l2 & -> & ->).
  rewrite !length_app. simpl. lia.
Qed.

Lemma remove_first_keys x l l' :
  NoDup (key <$> l) -> remove_first x l = Some l' ->
  NoDup (key <$> l') /\ (key x ∉ (key <$> l'))
  /\ (forall k, k ∉ (key <$> l) -> k ∉ (key <$> l')).
Proof.
  intros Hnd H. apply remove_first_split in H as (l1 & l2 & -> & ->).
  rewrite fmap_app, fmap_cons in Hnd.
  apply NoDup_app in Hnd as (Hnd1 & Hdisj & Hnd2).
  apply NoDup_cons in Hnd2 as (Hx2 & Hnd2).
  rewrite !fmap_app. split; [|split].
  - apply NoDup_app. split; [done|]. split; [|done].
    intros k Hk1 Hk2. apply (Hdisj k Hk1). by right.
  - rewrite elem_of_app. intros [H1|H2]; [|done].
    apply (Hdisj _ H1). by left.
  - intros k Hk. rewrite fmap_cons in Hk.
    rewrite !elem_of_app, elem_of_cons in Hk. rewrite elem_of_app. tauto.
Qed.

(** The invariant looks at the three kinds of objects and at what has
    been registered, and at nothing else. *)
Lemma store_ok_frame h h' :
  lists h' = lists h -> coordinators h' = coordinators h ->
  rt_sensors h' = rt_sensors h -> registered h' = registered h ->
  store_ok h -> store_ok h'.
Proof.
  intros Hl Hc Hs Hr [H1 H2 H3 H4 H5 H6 H7].
  split; rewrite ?Hl, ?Hc, ?Hs, ?Hr; done.
Qed.

Lemma registered_call h (c : @host_call num) :
  registered (with_calls (fun cs => cs ++ [c]) h)
  = registered h ++ rt_entities c.
Proof.
  unfold registered. simpl. rewrite bind_app. simpl.
  by rewrite app_nil_r.
Qed.

Lemma store_ok_call h (c : @host_call num) :
  rt_entities c = [] -> store_ok h ->
  store_ok (with_calls (fun cs => cs ++ [c]) h).
Proof.
  intros Hc. apply store_ok_frame; try done.
  by rewrite registered_call, Hc, app_nil_r.
Qed.

Lemma store_ok_module_init now entropy er dr :
  store_ok (@module_init num HC now entropy er dr).
Proof.
  split; simpl.
  - apply lookup_singleton_eq.
  - intros ??; by rewrite lookup_empty.
  - intros ????; by rewrite lookup_empty.
  - intros ??; by rewrite lookup_empty.
  - intros ????; by rewrite lookup_empty.
  - constructor.
  - intros e H. by apply elem_of_nil in H.
Qed.


(** Changing attributes of a sensor other than its coordinator and its
    metadata keeps the invariant. *)
Lemma store_ok_update_sensor h e s s' :
  store_ok h -> rt_sensors h !! e = Some s ->
  coordinator s' = coordinator s -> _metadata s' = _metadata s ->
  store_ok (with_rt_sensors <[e := s']> h).
Proof.
  intros [H1 H2 H3 H4 H5 H6 H7] He Hco Hmd. split; simpl; try done.
  - intros e0 s0. destruct (decide (e = e0)) as [<-|Hne].
    + rewrite lookup_insert_eq. intros [= <-]. rewrite Hco, Hmd. eauto.
    + rewrite lookup_insert_ne by done. eauto.
  - intros e1 e2 s1 s2.
    destruct (decide (e = e1)) as [<-|Hne1];
      destruct (decide (e = e2)) as [<-|Hne2]; try done;
      rewrite ?lookup_insert_eq, ?lookup_insert_ne by done;
      intros E1 E2; simplify_eq; rewrite ?Hco, ?Hmd; eauto.
  - intros e0 He0. destruct (decide (e = e0)) as [<-|Hne].
    + rewrite lookup_insert_eq. eauto.
    + rewrite lookup_insert_ne by done. eauto.
Qed.

(** Storing a payload in a coordinator keeps the invariant. *)
Lemma store_ok_set_data h c data r h' :
  store_ok h -> set_data c data h = (r, h') -> store_ok h'.
Proof.
  intros Hok. unfold set_data. unfold_M.
  destruct (coordinators h !! c) as [co|] eqn:Hc; intros [= <- <-]; [|done].
  destruct Hok as [H1 H2 H3 H4 H5 H6 H7]. split; simpl; try done.
  - intros c0 co0. destruct (decide (c = c0)) as [<-|Hne].
    + rewrite lookup_insert_eq. intros [= <-]. simpl. eauto.
    + rewrite lookup_insert_ne by done. eauto.
  - intros c1 c2 co1 co2.
    destruct (decide (c = c1)) as [<-|Hne1];
      destruct (decide (c = c2)) as [<-|Hne2]; try done;
      rewrite ?lookup_insert_eq, ?lookup_insert_ne by done;
      intros E1 E2; simplify_eq; simpl; eauto.
  - intros e s Hs. destruct (H4 e s Hs) as (co0 & l & Hc0 & Hl & Hk).
    destruct (decide (c = coordinator s)) as [->|Hne].
    + rewrite lookup_insert_eq. simplify_eq. eauto.
    + rewrite lookup_insert_ne by done. eauto.
Qed.


Lemma RT_SENSORS_keys_NoDup : NoDup (key <$> RT_SENSORS).
Proof. apply (bool_decide_unpack _). vm_compute. exact I. Qed.

(** A new coordinator with a new list object keeps the invariant. *)
Lemma store_ok_new_coordinator h ref items c co :
  store_ok h ->
  lists h !! ref = None -> coordinators h !! c = None ->
  NoDup (key <$> items) -> Coordinator._all_sensors co = ref ->
  store_ok (with_coordinators <[c := co]> (with_lists <[ref := items]> h)).
Proof.
  intros [H1 H2 H3 H4 H5 H6 H7] Href Hc Hnd Hco.
  assert (Hother : forall c0 co0, coordinators h !! c0 = Some co0 ->
                     Coordinator._all_sensors co0 <> ref).
  { intros c0 co0 Hc0 E. destruct (H2 _ _ Hc0) as (_ & l & Hl & _).
    rewrite E in Hl. congruence. }
  split; simpl; try done.
  - rewrite lookup_insert_ne; [done|]. intros E. rewrite E in Href.
    congruence.
  - intros c0 co0. destruct (decide (c = c0)) as [<-|Hne].
    + rewrite lookup_insert_eq. intros [= <-]. rewrite Hco. split.
      * intros E. rewrite E in Href. congruence.
      * exists items. by rewrite lookup_insert_eq.
    + rewrite lookup_insert_ne by done. intros Hc0.
      destruct (H2 _ _ Hc0) as (Hrt & l & Hl & Hndl). split; [done|].
      exists l. rewrite lookup_insert_ne; [done|].
      intros E. by apply (Hother _ _ Hc0).
  - intros c1 c2 co1 co2.
    destruct (decide (c = c1)) as [<-|Hne1];
      destruct (decide (c = c2)) as [<-|Hne2]; try done;
      rewrite ?lookup_insert_eq, ?lookup_insert_ne by done;
      intros E1 E2 E; simplify_eq.
    + exfalso. by apply (Hother _ _ E2).
    + exfalso. by apply (Hother _ _ E1).
    + eauto.
  - intros e s Hs. destruct (H4 e s Hs) as (co0 & l & Hc0 & Hl & Hk).
    exists co0, l. split; [|split; [|done]].
    + rewrite lookup_insert_ne; [done|]. intros E. rewrite <- E in Hc0.
      congruence.
    + rewrite lookup_insert_ne; [done|].
      intros E. by apply (Hother _ _ Hc0).
Qed.

(** A new sensor for a descriptor of the coordinator's list, with the
    descriptor removed from that list, keeps the invariant. *)
Lemma store_ok_new_sensor h c co l l' x e s :
  store_ok h ->
  coordinators h !! c = Some co ->
  lists h !! Coordinator._all_sensors co = Some l ->
  x ∈ l -> remove_first x l = Some l' ->
  rt_sensors h !! e = None -> coordinator s = c -> _metadata s = x ->
  store_ok (with_lists <[Coordinator._all_sensors co := l']>
              (with_rt_sensors <[e := s]> h)).
Proof.
  intros [H1 H2 H3 H4 H5 H6 H7] Hc Hl Hx Hrm He Hsc Hsm.
  destruct (H2 _ _ Hc) as (Hrt & l0 & Hl0 & Hnd). simplify_eq.
  destruct (remove_first_keys _ _ _ Hnd Hrm) as (Hnd' & Hx' & Hsub).
  split; simpl; try done.
  - by rewrite lookup_insert_ne.
  - intros c0 co0 Hc0. destruct (H2 _ _ Hc0) as (Hrt0 & l1 & Hl1 & Hnd1).
    split; [done|].
    destruct (decide (Coordinator._all_sensors co
                      = Coordinator._all_sensors co0)) as [E|E].
    + rewrite E, lookup_insert_eq. eauto.
    + rewrite lookup_insert_ne by done. eauto.
  - intros e0 s0. destruct (decide (e = e0)) as [<-|Hne].
    + rewrite lookup_insert_eq. intros [= <-].
      exists co, l'. by rewrite lookup_insert_eq.
    + rewrite lookup_insert_ne by done. intros Hs0.
      destruct (H4 _ _ Hs0) as (co0 & l1 & Hc0 & Hl1 & Hk).
      exists co0.
      destruct (decide (Coordinator._all_sensors co
                        = Coordinator._all_sensors co0)) as [E|E].
      * exists l'. rewrite E, lookup_insert_eq. rewrite <- E in Hl1.
        simplify_eq. eauto.
      * exists l1. by rewrite lookup_insert_ne.
  - assert (Hfresh : forall e0 s0, rt_sensors h !! e0 = Some s0 ->
              coordinator s0 = coordinator s ->
              key (_metadata s0) = key (_metadata s) -> False).
    { intros e0 s0 Hs0 Ec Ek.
      destruct (H4 _ _ Hs0) as (co0 & l1 & Hc0 & Hl1 & Hk).
      rewrite Ec in Hc0. simplify_eq. apply Hk. rewrite Ek.
      by apply list_elem_of_fmap_2. }
    intros e1 e2 s1 s2.
    destruct (decide (e = e1)) as [<-|Hne1];
      destruct (decide (e = e2)) as [<-|Hne2]; try done;
      rewrite ?lookup_insert_eq, ?lookup_insert_ne by done;
      intros E1 E2 Ec Ek; simplify_eq.
    + exfalso. eapply Hfresh; eauto.
    + exfalso. eapply Hfresh; eauto.
    + eauto.
  - intros e0 He0. destruct (decide (e = e0)) as [<-|Hne].
    + rewrite lookup_insert_eq. eauto.
    + rewrite lookup_insert_ne by done. eauto.
Qed.


Lemma store_ok_get_live_measurement h self r h' :
  store_ok h -> get_live_measurement self h = (r, h') -> store_ok h'.
Proof.
  intros Hok E.
  destruct (get_live_measurement_frame _ _ _ _ E) as (?&?&?&?&?&?).
  by eapply store_ok_frame.
Qed.

(** Closes a goal on a store that differs from an invariant one by
    attribute updates of sensors and by calls that register nothing. *)
Ltac store_ok_tac :=
  repeat first
    [ assumption
    | apply store_ok_call; [reflexivity|]
    | eapply store_ok_update_sensor;
      [ | simpl; rewrite ?lookup_insert_eq; first [eassumption|reflexivity]
        | reflexivity | reflexivity ] ].

Lemma store_ok_handle_coordinator_update h self :
  store_ok h -> store_ok (snd (_handle_coordinator_update self h)).
Proof.
  intros Hok. unfold _handle_coordinator_update, write_ha_state. unfold_M.
  destruct (rt_sensors h !! self) as [s|] eqn:Hs; [|done].
  destruct (get_live_measurement (coordinator s) h) as [[lm|e] h1] eqn:Hlm;
    pose proof (store_ok_get_live_measurement _ _ _ _ Hok Hlm) as Hok1;
    [|done].
  destruct (get_live_measurement_frame _ _ _ _ Hlm) as (Hrt & _).
  rewrite <- Hrt in Hs.
  destruct (Py.truthy lm); simpl; [|done].
  destruct (Py.get lm (key (_metadata s)) PNone) as [state|]; [|done].
  destruct (Py.is_none state); [done|].
  destruct (Py.getitem lm "timestamp") as [tsv|]; [|done].
  destruct (parse_datetime_arg tsv) as [[timestamp|]|]; [| |done].
  - destruct (Py.lt state (_attr_state s)) as [[]|]; [| |done];
      destruct (reset_type (_metadata s)) as [[]|];
      destruct (String.eqb (key (_metadata s)) "powerFactor");
      destruct (Py.mul_100 state); simpl;
      rewrite ?Hs; simpl; rewrite ?lookup_insert_eq; simpl;
      rewrite ?lookup_insert_eq; simpl; store_ok_tac.
  - destruct (String.eqb (key (_metadata s)) "powerFactor");
      destruct (Py.mul_100 state); simpl;
      rewrite ?Hs; simpl; rewrite ?lookup_insert_eq; simpl; store_ok_tac.
Qed.


Lemma same_entities_call h (c : @host_call num) :
  is_add_entities c = false ->
  same_entities h (with_calls (fun cs => cs ++ [c]) h).
Proof.
  intros Hc. repeat split; unfold registrations, registered; simpl.
  - rewrite filter_app, filter_cons_False, filter_nil, app_nil_r;
      [done|by rewrite Hc].
  - rewrite bind_app. simpl.
    destruct c; simpl in *; rewrite ?app_nil_r; first [done|congruence].
Qed.

Lemma same_entities_trans h1 h2 h3 :
  same_entities h1 h2 -> same_entities h2 h3 -> same_entities h1 h3.
Proof. intros (?&?&?) (?&?&?). repeat split; congruence. Qed.

(** In an invariant store the coordinator's constructor returns, with a
    coordinator that is new, and the store stays invariant. *)
Lemma coordinator_init_ok h tibber_home :
  store_ok h ->
  exists c h', TibberRtDataCoordinator__init__ tibber_home h = (Ok c, h')
    /\ store_ok h' /\ coordinators h !! c = None /\ same_entities h h'
    /\ entropy h' = entropy h /\ draws h' = draws h
    /\ entity_registry h' = entity_registry h
    /\ device_registry h' = device_registry h.
Proof.
  intros Hok. unfold TibberRtDataCoordinator__init__. unfold_M.
  rewrite (ok_module_list _ Hok). simpl. do 2 eexists.
  split; [reflexivity|].
  assert (Hc : coordinators h !! fresh (dom (coordinators h)) = None)
    by apply not_elem_of_dom, is_fresh.
  split; [|split; [done|split; [|done]]].
  - do 2 (apply store_ok_call; [reflexivity|]).
    apply store_ok_new_coordinator; try done.
    + apply not_elem_of_dom, is_fresh.
    + apply RT_SENSORS_keys_NoDup.
  - eapply same_entities_trans; [|by apply same_entities_call].
    eapply same_entities_trans; [|by apply same_entities_call]. done.
Qed.

Lemma add_sensors_loop_ok fuel self lm index new_entities h r h' :
  loop_ok h new_entities ->
  _add_sensors_loop fuel self lm index new_entities h = (r, h') ->
  store_ok h' /\ forall new, r = Ok new -> loop_ok h' new.
Proof.
  revert index new_entities h.
  induction fuel as [|fuel IH]; intros index acc h Hinv; simpl.
  { intros [= <- <-]. split; [apply Hinv|done]. }
  unfold_M. destruct Hinv as (Hok & Hnd & Hacc).
  destruct (coordinators h !! self) as [co|] eqn:Hco;
    [|intros [= <- <-]; by split].
  destruct (lists h !! Coordinator._all_sensors co) as [l|] eqn:Hl;
    [|intros [= <- <-]; by split].
  destruct (l !! index) as [x|] eqn:Hx.
  2:{ intros [= <- <-]. split; [done|]. by intros new [= <-]. }
  destruct (Py.get lm (key x) PNone) as [state|];
    [|intros [= <- <-]; by split].
  destruct (Py.is_none state).
  { apply IH. by split. }
  unfold TibberSensorRT__init__, list_remove. unfold_M. simpl. rewrite Hl.
  assert (Hin : x ∈ l) by (eapply list_elem_of_lookup_2; eauto).
  destruct (remove_first_elem _ _ Hin) as [l' Hrm]. rewrite Hrm.
  set (e := fresh (dom (rt_sensors h))).
  assert (He : rt_sensors h !! e = None) by apply not_elem_of_dom, is_fresh.
  apply IH. split; [|split].
  - eapply store_ok_new_sensor; eauto.
  - change (NoDup (registered h ++ acc ++ [e])).
    rewrite app_assoc. apply NoDup_app. split; [done|]. split.
    + intros e0 He0 ->%list_elem_of_singleton.
      apply elem_of_app in He0 as [He0|He0].
      * apply (ok_registered_created _ Hok) in He0 as [? ?]. congruence.
      * apply Hacc in He0 as [? ?]. congruence.
    + apply NoDup_singleton.
  - intros e0 [He0| ->%list_elem_of_singleton]%elem_of_app; simpl.
    + destruct (decide (e = e0)) as [<-|Hne];
        [rewrite lookup_insert_eq | rewrite lookup_insert_ne by done]; eauto.
    + rewrite lookup_insert_eq. eauto.
Qed.

Lemma rt_entities_add (new : list loc) b :
  rt_entities (@async_add_entities num (RtEntity <$> new) b) = new.
Proof.
  unfold rt_entities. induction new as [|e new IH]; [done|].
  rewrite fmap_cons, bind_cons. simpl. by rewrite IH.
Qed.

Lemma store_ok_add_sensors h self r h' :
  store_ok h -> _add_sensors self h = (r, h') -> store_ok h'.
Proof.
  intros Hok. unfold _add_sensors. unfold_M.
  destruct (get_live_measurement self h) as [[lm|e] h1] eqn:Hlm;
    pose proof (store_ok_get_live_measurement _ _ _ _ Hok Hlm) as Hok1;
    [|intros [= <- <-]; done].
  destruct (Py.truthy lm); cbn [negb]; [|intros [= <- <-]; done].
  destruct (coordinators h1 !! self) as [co|]; [|intros [= <- <-]; done].
  destruct (lists h1 !! Coordinator._all_sensors co) as [l|];
    [|intros [= <- <-]; done].
  destruct (_add_sensors_loop (S (length l)) self lm 0 [] h1)
    as [[new|e] h2] eqn:Hloop;
    (eapply add_sensors_loop_ok in Hloop as (Hok2 & Hnew);
     [|split; [done|split; [rewrite app_nil_r; apply (ok_registered_once _ Hok1)
                           |by intros ? ?%elem_of_nil]]]);
    [|intros [= <- <-]; done].
  assert (Hfin : store_ok
            (with_calls
               (fun cs => cs ++ [async_add_entities (RtEntity <$> new) false])
               h2)).
  { destruct (Hnew _ eq_refl) as ([H1 H2 H3 H4 H5 H6 H7] & Hnd & Hcr).
    split; [exact H1|exact H2|exact H3|exact H4|exact H5| |].
    - by rewrite registered_call, rt_entities_add.
    - intros e0. rewrite registered_call, rt_entities_add.
      intros [?|?]%elem_of_app; eauto. }
  destruct new as [|e new]; intros [= <- <-]; [done|exact Hfin].
Qed.


End StoreFacts.

Section SetupFacts.
Context {num : Type} {PN : PyNumber num} {HC : HostConst} {DU : DtUtil}.
Implicit Types (h : @hass num) (home : TibberHome)
  (entities : list (@entity num)).

Lemma store_ok_with_draws h n : store_ok h -> store_ok (with_draws n h).
Proof. by apply store_ok_frame. Qed.

(** Subscribing a home with real-time consumption makes a coordinator,
    and ends as the vendor's [rt_subscribe] does. *)
Lemma subscribe_ok home h :
  store_ok h ->
  exists h1,
    (if has_real_time_consumption home
     then c ← TibberRtDataCoordinator__init__ home;
          call (home_rt_subscribe (home_id home) c);;
          lift (rt_subscribe home)
     else mret tt) h
    = (if has_real_time_consumption home then rt_subscribe home else Ok tt, h1)
    /\ store_ok h1 /\ same_entities h h1.
Proof.
  intros Hok. destruct (has_real_time_consumption home); [|by exists h].
  destruct (coordinator_init_ok h home Hok)
    as (c & h' & E & Hok' & _ & Hsame' & _).
  unfold_M. rewrite E. eexists. split; [reflexivity|]. split.
  - by apply store_ok_call.
  - eapply same_entities_trans; [exact Hsame'|].
    by apply same_entities_call.
Qed.

(** The rest of the loop body once [update_info] has returned: it ends as
    [rt_subscribe] does, if that is awaited. *)
Lemma setup_home_after_update_info entry_id entities home h u :
  store_ok h -> update_info home = Ok u ->
  exists h',
    setup_home entry_id entities home h
    = (match (if has_real_time_consumption home
              then rt_subscribe home else Ok tt) with
       | Ok _ =>
           Ok (if has_active_subscription home
               then entities
                    ++ [ElPriceEntity
                          (ElPrice.__init__ home (entropy h (draws h)))]
               else entities)
       | Raise e => Raise e
       end, h')
    /\ store_ok h' /\ same_entities h h'.
Proof.
  intros Hok Hu. unfold setup_home. rewrite Hu.
  set (h0 := if has_active_subscription home
             then with_draws (S (draws h)) h else h).
  assert (Hok0 : store_ok h0).
  { unfold h0. destruct (has_active_subscription home); [|done].
    by apply store_ok_with_draws. }
  assert (Hsame0 : same_entities h h0).
  { unfold h0. by destruct (has_active_subscription home). }
  destruct (subscribe_ok home h0 Hok0) as (h1 & E1 & Hok1 & Hsame1).
  pose proof (same_entities_trans _ _ _ Hsame0 Hsame1) as Hsame.
  unfold h0 in E1. clear Hok0 Hsame0 Hsame1. clearbody h0. unfold_M.
  destruct (has_active_subscription home); rewrite E1;
    (destruct (if has_real_time_consumption home
               then rt_subscribe home else Ok tt) as [[]|e];
     [|by exists h1]);
    (destruct (info_consumptionEan home) as [old_id|];
     [destruct (entity_registry h1 !! old_id);
      (destruct (device_registry _ !! old_id) as [dev|];
       [destruct (bool_decide (entry_id ∈ config_entries dev))|])|]);
    (eexists; split; [reflexivity|]; split;
     [ repeat (apply store_ok_call; [reflexivity|]); assumption
     | repeat (eapply same_entities_trans;
               [|apply same_entities_call; reflexivity]); assumption ]).
Qed.

Lemma setup_home_returns entry_id entities home h :
  store_ok h -> answers home ->
  exists h',
    setup_home entry_id entities home h
    = (Ok (if has_active_subscription home
           then entities
                ++ [ElPriceEntity (ElPrice.__init__ home (entropy h (draws h)))]
           else entities), h')
    /\ store_ok h' /\ same_entities h h'.
Proof.
  intros Hok (Hu & Hrt).
  destruct (setup_home_after_update_info entry_id entities home h _ Hok Hu)
    as (h' & E & Hok' & Hsame).
  exists h'. split; [|done]. rewrite E.
  destruct (has_real_time_consumption home); [|done]. by rewrite Hrt.
Qed.

(** [update_info] raising ends the set-up: with [PlatformNotReady] on a
    time-out or a client error, with the exception itself otherwise. *)
Lemma setup_home_raises entry_id entities home h e :
  store_ok h -> update_info home = Raise e ->
  exists h',
    setup_home entry_id entities home h
    = (Raise (match e with
              | asyncio_TimeoutError | aiohttp_ClientError => PlatformNotReady
              | _ => e
              end), h')
    /\ store_ok h' /\ same_entities h h'.
Proof.
  intros Hok Hu. unfold setup_home. rewrite Hu. unfold_M.
  destruct e; (eexists; split; [reflexivity|]; split;
     [ repeat (apply store_ok_call; [reflexivity|]); assumption
     | first [ done | by apply same_entities_call ] ]).
Qed.

Lemma setup_home_ok entry_id entities home h r h' :
  store_ok h -> setup_home entry_id entities home h = (r, h') ->
  store_ok h' /\ same_entities h h'.
Proof.
  intros Hok E. destruct (update_info home) as [u|e] eqn:Hu.
  - destruct (setup_home_after_update_info entry_id entities home h u Hok Hu)
      as (h1 & E1 & ? & ?). rewrite E1 in E. by simplify_eq.
  - destruct (setup_home_raises entry_id entities home h e Hok Hu)
      as (h1 & E1 & ? & ?). rewrite E1 in E. by simplify_eq.
Qed.

(** What a loop body that returns returns: the entities it was given, and
    after them the home's price sensor if the home has a subscription. *)
Lemma setup_home_entities entry_id entities home h es h' :
  store_ok h -> setup_home entry_id entities home h = (Ok es, h') ->
  es = (if has_active_subscription home
        then entities
             ++ [ElPriceEntity (ElPrice.__init__ home (entropy h (draws h)))]
        else entities).
Proof.
  intros Hok E. destruct (update_info home) as [u|e] eqn:Hu.
  - destruct (setup_home_after_update_info entry_id entities home h u Hok Hu)
      as (h1 & E1 & _). rewrite E1 in E.
    destruct (if has_real_time_consumption home
              then rt_subscribe home else Ok tt); by simplify_eq.
  - destruct (setup_home_raises entry_id entities home h e Hok Hu)
      as (h1 & E1 & _). rewrite E1 in E. by simplify_eq.
Qed.

Lemma setup_homes_ok entry_id homes entities h r h' :
  store_ok h -> setup_homes entry_id homes entities h = (r, h') ->
  store_ok h' /\ same_entities h h'.
Proof.
  revert entities h. induction homes as [|home homes IH]; intros entities h Hok.
  - intros [= <- <-]. by split.
  - simpl. unfold_M.
    destruct (setup_home entry_id entities home h) as [[es|e] h1] eqn:E1;
      destruct (setup_home_ok _ _ _ _ _ _ Hok E1) as (Hok1 & Hsame1).
    + intros E. destruct (IH _ _ Hok1 E) as (? & ?). split; [done|].
      by eapply same_entities_trans.
    + by intros [= <- <-].
Qed.


Lemma setup_homes_returns entry_id homes entities h :
  store_ok h -> Forall answers homes ->
  exists h' extra,
    setup_homes entry_id homes entities h = (Ok (entities ++ extra), h')
    /\ Forall2 price_sensor_of extra
         (filter (fun home => has_active_subscription home = true) homes)
    /\ store_ok h' /\ same_entities h h'.
Proof.
  revert entities h.
  induction homes as [|home homes IH]; intros entities h Hok Hall.
  - exists h, []. rewrite app_nil_r. split; [done|]. split; [constructor|].
    by split.
  - apply Forall_cons in Hall as (Hu & Hall). simpl. unfold_M.
    destruct (setup_home_returns entry_id entities home h Hok Hu)
      as (h1 & E1 & Hok1 & Hsame1). rewrite E1.
    destruct (IH (if has_active_subscription home
                  then entities
                       ++ [ElPriceEntity
                             (ElPrice.__init__ home (entropy h (draws h)))]
                  else entities) h1 Hok1 Hall)
      as (h' & extra & E & Hextra & Hok' & Hsame').
    rewrite E. exists h'.
    destruct (has_active_subscription home) eqn:Hactive.
    + eexists (_ :: extra). rewrite <- app_assoc. split; [reflexivity|].
      rewrite filter_cons_True by done. split; [|split; [done|]].
      * constructor; [by eexists|done].
      * by eapply same_entities_trans.
    + exists extra. split; [reflexivity|].
      rewrite filter_cons_False by congruence. split; [done|]. split; [done|].
      by eapply same_entities_trans.
Qed.

Lemma setup_homes_not_ready entry_id pre home post entities h :
  store_ok h -> Forall answers pre ->
  update_info home = Raise asyncio_TimeoutError
  \/ update_info home = Raise aiohttp_ClientError ->
  exists h',
    setup_homes entry_id (pre ++ home :: post) entities h
    = (Raise PlatformNotReady, h')
    /\ store_ok h' /\ same_entities h h'.
Proof.
  revert entities h.
  induction pre as [|home0 pre IH]; intros entities h Hok Hpre Hraise.
  - simpl. unfold_M.
    destruct Hraise as [Hu|Hu];
      destruct (setup_home_raises entry_id entities home h _ Hok Hu)
        as (h1 & E1 & Hok1 & Hsame1); rewrite E1; by exists h1.
  - apply Forall_cons in Hpre as (Hu & Hpre). simpl. unfold_M.
    destruct (setup_home_returns entry_id entities home0 h Hok Hu)
      as (h1 & E1 & Hok1 & Hsame1). rewrite E1.
    destruct (IH (if has_active_subscription home0
                  then entities
                       ++ [ElPriceEntity
                             (ElPrice.__init__ home0 (entropy h (draws h)))]
                  else entities) h1 Hok1 Hpre Hraise)
      as (h' & E & Hok' & Hsame').
    rewrite E. exists h'. split; [done|]. split; [done|].
    by eapply same_entities_trans.
Qed.

(** Whatever [setup_homes] returns is what it was given followed by price
    sensors. *)
Lemma setup_homes_entities entry_id homes entities h es h' :
  store_ok h -> setup_homes entry_id homes entities h = (Ok es, h') ->
  exists extra, es = entities ++ extra
    /\ extra ≫= (fun e => match e with
                           | RtEntity e => [e]
                           | ElPriceEntity _ => []
                           end) = [].
Proof.
  revert entities h. induction homes as [|home homes IH]; intros entities h Hok.
  - intros [= <- <-]. exists []. by rewrite app_nil_r.
  - simpl. unfold_M.
    destruct (setup_home entry_id entities home h) as [[es1|e] h1] eqn:E1;
      [|done].
    destruct (setup_home_ok _ _ _ _ _ _ Hok E1) as (Hok1 & _).
    apply setup_home_entities in E1 as ->; [|done]. intros E.
    apply IH in E as (extra & -> & Hextra); [|done].
    destruct (has_active_subscription home).
    + eexists (_ :: extra). by rewrite <- app_assoc.
    + by exists extra.
Qed.

Lemma store_ok_async_setup_entry entry_id homes h r h' :
  store_ok h -> async_setup_entry entry_id homes h = (r, h') -> store_ok h'.
Proof.
  intros Hok. unfold async_setup_entry. unfold_M.
  destruct (setup_homes entry_id homes [] h) as [[es|e] h1] eqn:E;
    destruct (setup_homes_ok _ _ _ _ _ _ Hok E) as (Hok1 & _);
    intros [= <- <-]; [|done].
  apply store_ok_call; [|done].
  apply setup_homes_entities in E as (extra & -> & Hextra); done.
Qed.

(** Every action of the host keeps the invariant, so every store that can
    be reached after the module is imported is invariant. *)
Lemma store_ok_perform a h : store_ok h -> store_ok (perform a h).
Proof.
  intros Hok. destruct a as [entry_id homes|c data|c|e|c|t]; simpl.
  - destruct (async_setup_entry entry_id homes h) eqn:E.
    by eapply store_ok_async_setup_entry.
  - destruct (set_data c data h) eqn:E. by eapply store_ok_set_data.
  - destruct (_add_sensors c h) eqn:E. by eapply store_ok_add_sensors.
  - by apply store_ok_handle_coordinator_update.
  - by apply store_ok_call.
  - by apply (store_ok_frame h).
Qed.

Lemma store_ok_perform_all acts h :
  store_ok h -> store_ok (perform_all acts h).
Proof.
  revert h. induction acts as [|a acts IH]; intros h Hok; [done|].
  simpl. by apply IH, store_ok_perform.
Qed.

Lemma store_ok_reachable acts now entropy er dr :
  store_ok (perform_all acts (@module_init num HC now entropy er dr)).
Proof. apply store_ok_perform_all, store_ok_module_init. Qed.

End SetupFacts.

(** ** The loop of [_add_sensors] ends *)

Section LoopFacts.
Context {num : Type} {PN : PyNumber num} {HC : HostConst} {DU : DtUtil}.
Implicit Types (h : @hass num) (d : gmap string (pyval num)).

(** With one round more than the items the index has ahead of it, the loop
    over a dict of readings returns. *)
Lemma add_sensors_loop_returns fuel self d index new_entities h co l :
  store_ok h -> coordinators h !! self = Some co ->
  lists h !! Coordinator._all_sensors co = Some l ->
  length l - index < fuel ->
  exists new h',
    _add_sensors_loop fuel self (PDict d) index new_entities h = (Ok new, h').
Proof.
  revert index new_entities h l.
  induction fuel as [|fuel IH]; intros index acc h l Hok Hco Hl Hfuel; [lia|].
  simpl. unfold_M. rewrite Hco, Hl.
  destruct (l !! index) as [x|] eqn:Hx; [|by eauto].
  assert (index < length l) by (eapply lookup_lt_Some; eauto).
  destruct (Py.is_none (default PNone (d !! key x))).
  { eapply IH; eauto. lia. }
  unfold TibberSensorRT__init__, list_remove. unfold_M. simpl. rewrite Hl.
  assert (Hin : x ∈ l) by (eapply list_elem_of_lookup_2; eauto).
  destruct (remove_first_elem _ _ Hin) as [l' Hrm]. rewrite Hrm.
  eapply (IH _ _ _ l').
  - eapply store_ok_new_sensor; eauto. apply not_elem_of_dom, is_fresh.
  - exact Hco.
  - simpl. by rewrite lookup_insert_eq.
  - apply remove_first_length in Hrm. lia.
Qed.

(** [_add_sensors] returns whenever the coordinator has no live
    measurement or has a dict as live measurement. *)
Lemma add_sensors_returns self h lm h1 :
  store_ok h -> get_live_measurement self h = (Ok lm, h1) ->
  Py.truthy lm = false \/ (exists d, lm = PDict d) ->
  exists h', _add_sensors self h = (Ok tt, h').
Proof.
  intros Hok Hlm Hcase.
  pose proof (store_ok_get_live_measurement _ _ _ _ Hok Hlm) as Hok1.
  destruct (get_live_measurement_frame _ _ _ _ Hlm) as (_ & _ & Hc & _).
  unfold _add_sensors. unfold_M. rewrite Hlm.
  destruct (Py.truthy lm) eqn:Ht; cbn [negb]; [|by eauto].
  destruct Hcase as [?|[d ->]]; [done|].
  destruct (coordinators h1 !! self) as [co|] eqn:Hco.
  2:{ rewrite Hc in Hco. unfold get_live_measurement in Hlm. unfold_M.
      by rewrite Hco in Hlm. }
  destruct (ok_own_list _ Hok1 _ _ Hco) as (_ & l & Hl & _). rewrite Hl.
  destruct (add_sensors_loop_returns (S (length l)) self d 0 [] h1 co l)
    as (new & h2 & E); try done; [lia|].
  rewrite E. destruct new; eauto.
Qed.

(** Once the index is past the head of the list, the loop never looks at
    the head again, and no [remove] takes it away. *)
Lemma add_sensors_loop_keeps_head fuel self d index new_entities h co x l r h' :
  coordinators h !! self = Some co ->
  lists h !! Coordinator._all_sensors co = Some (x :: l) ->
  x ∉ l -> 0 < index ->
  _add_sensors_loop fuel self (PDict d) index new_entities h = (r, h') ->
  exists l', lists h' !! Coordinator._all_sensors co = Some (x :: l')
    /\ coordinators h' !! self = Some co.
Proof.
  revert index new_entities h l.
  induction fuel as [|fuel IH]; intros index acc h l Hco Hl Hx Hindex; simpl.
  { intros [= <- <-]. eauto. }
  unfold_M. rewrite Hco, Hl.
  destruct index as [|index]; [lia|]. simpl.
  destruct (l !! index) as [y|] eqn:Hy; [|intros [= <- <-]; eauto].
  destruct (Py.is_none (default PNone (d !! key y))).
  { eapply IH; eauto; lia. }
  unfold TibberSensorRT__init__, list_remove. unfold_M. simpl. rewrite Hl.
  assert (Hin : y ∈ l) by (eapply list_elem_of_lookup_2; eauto).
  simpl. rewrite decide_False by (intros ->; done).
  destruct (remove_first_elem _ _ Hin) as [l' Hrm]. rewrite Hrm. simpl.
  eapply (IH _ _ _ l'); [exact Hco| |  |lia].
  - simpl. by rewrite lookup_insert_eq.
  - apply remove_first_split in Hrm as (l1 & l2 & -> & ->).
    rewrite !elem_of_app, elem_of_cons in *. tauto.
Qed.

(** When the first descriptor of a coordinator's list has a reading, the
    second one is still in the list after [_add_sensors], whether it has a
    reading or not: the round that removes the first descriptor moves the
    second one under the index that has just been used. *)
Lemma add_sensors_skips_next self h co x1 x2 l d h1 v :
  store_ok h -> coordinators h !! self = Some co ->
  lists h !! Coordinator._all_sensors co = Some (x1 :: x2 :: l) ->
  get_live_measurement self h = (Ok (PDict d), h1) ->
  d !! key x1 = Some v -> v <> PNone ->
  exists l', pending (snd (_add_sensors self h)) self = x2 :: l'.
Proof.
  intros Hok Hco Hl Hlm Hv Hnn.
  destruct (get_live_measurement_frame _ _ _ _ Hlm) as (_ & Hl1 & Hc1 & _).
  rewrite <- Hc1 in Hco. rewrite <- Hl1 in Hl.
  destruct (ok_own_list _ Hok _ _ (eq_ind _ (fun m => m !! self = Some co)
                                      Hco _ Hc1))
    as (_ & l0 & Hl0 & Hnd).
  rewrite <- Hl1, Hl in Hl0. injection Hl0 as <-.
  apply NoDup_fmap_1 in Hnd. apply NoDup_cons in Hnd as (_ & Hnd).
  apply NoDup_cons in Hnd as (Hx2 & _).
  unfold _add_sensors. unfold_M.
  rewrite Hlm, (truthy_dict_lookup _ _ _ Hv). cbn [negb]. rewrite Hco, Hl.
  generalize (length (x1 :: x2 :: l)). intros fuel.
  simpl. unfold_M. rewrite Hco, Hl. simpl. rewrite Hv.
  change (default PNone (Some v)) with v. rewrite (is_none_false _ Hnn).
  unfold TibberSensorRT__init__, list_remove. unfold_M. simpl. rewrite Hl.
  simpl. rewrite decide_True by done.
  match goal with
  | |- context [_add_sensors_loop ?f self (PDict d) 1 ?acc ?h2] =>
      destruct (_add_sensors_loop f self (PDict d) 1 acc h2)
        as [r h3] eqn:Hloop
  end.
  eapply add_sensors_loop_keeps_head in Hloop as (l' & Hl3 & Hc3);
    [| exact Hco | simpl; by rewrite lookup_insert_eq | exact Hx2 | lia].
  exists l'. unfold pending.
  destruct r as [[|e new]|e]; simpl; by rewrite Hc3, Hl3.
Qed.

End LoopFacts.

(** ** The set-up, the module-level list and the sensors of a coordinator *)

Section PlatformTheorems.
Context {num : Type} {PN : PyNumber num} {HC : HostConst} {DU : DtUtil}.
Implicit Types (h : @hass num).

(** C4.  In any store the module can be in: if [update_info] raises a
    time-out or a client error for a home, the homes before it having been
    set up, [async_setup_entry] raises [PlatformNotReady] and makes no
    [async_add_entities] call; if no home raises, that is, the vendor calls
    awaited for it return, [async_setup_entry] returns and its one
    [async_add_entities] call, the last thing it does, has [True] as second
    argument and, as entities, one price sensor for each home with an
    active subscription, in order. *)
Theorem async_setup_entry_spec acts now entropy er dr entry_id homes :
  let h := perform_all acts (@module_init num HC now entropy er dr) in
  (forall pre home post,
     homes = pre ++ home :: post -> Forall answers pre ->
     update_info home = Raise asyncio_TimeoutError
     \/ update_info home = Raise aiohttp_ClientError ->
     exists h', async_setup_entry entry_id homes h = (Raise PlatformNotReady, h')
       /\ registrations h' = registrations h)
  /\ (Forall answers homes ->
      exists h1 entities,
        async_setup_entry entry_id homes h
        = (Ok tt, with_calls
                    (fun cs => cs ++ [async_add_entities entities true]) h1)
        /\ registrations h1 = registrations h
        /\ Forall2 price_sensor_of entities
             (filter (fun home => has_active_subscription home = true) homes)).
Proof.
  intros h. pose proof (store_ok_reachable acts now entropy er dr) as Hok.
  fold h in Hok. split.
  - intros pre home post -> Hpre Hraise.
    destruct (setup_homes_not_ready entry_id pre home post [] h Hok Hpre Hraise)
      as (h' & E & _ & _ & Hreg & _).
    exists h'. unfold async_setup_entry. unfold_M. by rewrite E.
  - intros Hall.
    destruct (setup_homes_returns entry_id homes [] h Hok Hall)
      as (h1 & entities & E & Hent & _ & _ & Hreg & _).
    exists h1, entities. unfold async_setup_entry. unfold_M. by rewrite E.
Qed.

Lemma RT_SENSORS_names_NoDup : NoDup (name <$> RT_SENSORS).
Proof. apply (bool_decide_unpack _). vm_compute. exact I. Qed.

(** C7.  [RT_SENSORS] has 21 records, with pairwise distinct keys and
    pairwise distinct names.  Whatever set-ups, updates and other actions
    the host has run since the module was imported, the list object that
    [RT_SENSORS] names holds exactly these records, and the list object of
    every coordinator is another one. *)
Theorem RT_SENSORS_invariant :
  length RT_SENSORS = 21
  /\ NoDup (key <$> RT_SENSORS)
  /\ NoDup (name <$> RT_SENSORS)
  /\ forall acts now entropy er dr,
       let h := perform_all acts (@module_init num HC now entropy er dr) in
       lists h !! RT_SENSORS_ref = Some RT_SENSORS
       /\ forall c co, coordinators h !! c = Some co ->
                       Coordinator._all_sensors co <> RT_SENSORS_ref.
Proof.
  split; [reflexivity|]. split; [apply RT_SENSORS_keys_NoDup|].
  split; [apply RT_SENSORS_names_NoDup|].
  intros acts now entropy er dr h.
  pose proof (store_ok_reachable acts now entropy er dr) as Hok. fold h in Hok.
  split; [apply (ok_module_list _ Hok)|].
  intros c co Hc. by destruct (ok_own_list _ Hok _ _ Hc).
Qed.

(** C10.  Whatever set-ups, updates and other actions the host has run
    since the module was imported, for every coordinator: the sensors it
    has created have pairwise distinct keys; none of their keys is still in
    its list of descriptors; and no sensor has been registered twice, all
    registered sensors being created ones. *)
Theorem one_sensor_per_key acts now entropy er dr c :
  let h := perform_all acts (@module_init num HC now entropy er dr) in
  NoDup (created_keys h c)
  /\ (forall k, k ∈ created_keys h c -> k ∉ (key <$> pending h c))
  /\ NoDup (registered h)
  /\ (forall e, e ∈ registered h -> is_Some (rt_sensors h !! e)).
Proof.
  intros h. pose proof (store_ok_reachable acts now entropy er dr) as Hok.
  fold h in Hok. split; [|split; [|split]].
  - unfold created_keys, sensors_of.
    apply NoDup_fmap_2_strong; [|apply NoDup_map_to_list].
    intros [e1 s1] [e2 s2] H1 H2 Hk. simpl in Hk.
    apply elem_of_map_to_list, map_lookup_filter_Some in H1 as (H1 & Hc1).
    apply elem_of_map_to_list, map_lookup_filter_Some in H2 as (H2 & Hc2).
    simpl in *. subst c.
    assert (e1 = e2) as -> by (eapply (ok_one_per_key _ Hok); eauto).
    congruence.
  - intros k Hk. unfold created_keys, sensors_of in Hk.
    apply list_elem_of_fmap in Hk as ([e s] & -> & Hes). simpl.
    apply elem_of_map_to_list, map_lookup_filter_Some in Hes as (Hs & Hc).
    simpl in Hc. destruct (ok_created _ Hok _ _ Hs) as (co & l & Hco & Hl & Hnot).
    unfold pending. rewrite <- Hc, Hco, Hl. exact Hnot.
  - apply (ok_registered_once _ Hok).
  - apply (ok_registered_created _ Hok).
Qed.

End PlatformTheorems.

(** ** The throttled fetch of the price sensor *)

Section ElPriceFacts.
Context {num : Type} {PN : PyNumber num}.
Implicit Types (w : @ElPrice.world num) (env : @ElPrice.environment num).

Lemma read_price_throttle w :
  ElPrice.fetches (ElPrice.read_price w) = ElPrice.fetches w
  /\ ElPrice._throttle (ElPrice.self (ElPrice.read_price w))
     = ElPrice._throttle (ElPrice.self w).
Proof.
  unfold ElPrice.read_price.
  by destruct (ElPrice.current_price_data (ElPrice.home w)) as [[? ?] ?].
Qed.

(** A call of [_fetch_data] either skips the body, or runs it once, at
    [utcnow_check], when it has never run or last ran more than
    [MIN_TIME_BETWEEN_UPDATES] before. *)
Lemma fetch_data_throttle env w :
  let w' := snd (ElPrice._fetch_data env w) in
  (ElPrice.fetches w' = ElPrice.fetches w
   /\ ElPrice._throttle (ElPrice.self w') = ElPrice._throttle (ElPrice.self w))
  \/ (ElPrice.fetches w' = ElPrice.fetches w ++ [ElPrice.utcnow_check env]
      /\ ElPrice._throttle (ElPrice.self w') = Some (ElPrice.utcnow_stamp env)
      /\ forall t, ElPrice._throttle (ElPrice.self w) = Some t ->
                   ElPrice.apart t (ElPrice.utcnow_check env)).
Proof.
  unfold ElPrice._fetch_data, ElPrice.Throttle, ElPrice.apart.
  destruct (ElPrice._throttle (ElPrice.self w)) as [t|] eqn:Ht.
  - destruct (Z.ltb_spec MIN_TIME_BETWEEN_UPDATES (ElPrice.utcnow_check env - t));
      [|by left].
    right. unfold ElPrice._fetch_data_body.
    destruct (ElPrice.update_info_and_price_info env) as [|[]]; simpl;
      (split; [done|split; [done|]]); intros ? [= <-]; lia.
  - right. unfold ElPrice._fetch_data_body.
    destruct (ElPrice.update_info_and_price_info env) as [|[]]; simpl;
      (split; [done|split; [done|]]); intros ? [=].
Qed.

Lemma async_update_throttle env w :
  let w' := snd (ElPrice.async_update env w) in
  (ElPrice.fetches w' = ElPrice.fetches w
   /\ ElPrice._throttle (ElPrice.self w') = ElPrice._throttle (ElPrice.self w))
  \/ (ElPrice.fetches w' = ElPrice.fetches w ++ [ElPrice.utcnow_check env]
      /\ ElPrice._throttle (ElPrice.self w') = Some (ElPrice.utcnow_stamp env)
      /\ forall t, ElPrice._throttle (ElPrice.self w) = Some t ->
                   ElPrice.apart t (ElPrice.utcnow_check env)).
Proof.
  pose proof (fetch_data_throttle env w) as Hf.
  unfold ElPrice.async_update.
  destruct (_ || _).
  - destruct (ElPrice._fetch_data env w) as [[u|e] w1]; simpl in *; [|done].
    destruct (read_price_throttle w1) as (-> & ->). done.
  - destruct (_ && _); simpl; [by left|].
    destruct (read_price_throttle w) as (-> & ->). by left.
Qed.

Lemma StronglySorted_snoc {A} (R : A -> A -> Prop) l x :
  StronglySorted R l -> Forall (fun y => R y x) l ->
  StronglySorted R (l ++ [x]).
Proof.
  induction 1 as [|y l Hl IH Hy]; intros Hx; simpl.
  - by repeat constructor.
  - apply Forall_cons in Hx as (Hyx & Hx). constructor; [by apply IH|].
    apply Forall_app. split; [done|]. by constructor.
Qed.

Lemma async_updates_throttle_ok envs w :
  ElPrice.throttle_ok w ->
  StronglySorted Z.le (ElPrice.clock_readings envs) ->
  (forall t, ElPrice._throttle (ElPrice.self w) = Some t ->
             Forall (fun x => (t <= x)%Z) (ElPrice.clock_readings envs)) ->
  ElPrice.throttle_ok (ElPrice.async_updates envs w).
Proof.
  revert w. induction envs as [|env envs IH]; intros w Hok Hclock Hlast; [done|].
  simpl. unfold ElPrice.clock_readings in Hclock, Hlast.
  rewrite bind_cons in Hclock, Hlast.
  simpl in Hclock, Hlast.
  apply StronglySorted_inv in Hclock as (Hclock & Hcheck).
  apply StronglySorted_inv in Hclock as (Hclock & Hstamp).
  apply Forall_cons in Hcheck as (Hcs & Hcheck).
  destruct Hok as (Hsorted & Hrec).
  destruct (async_update_throttle env w) as [(Hf & Ht)|(Hf & Ht & Hgap)];
    apply IH; try done.
  - split; rewrite ?Hf, ?Ht; done.
  - intros t. rewrite Ht. intros Ht'.
    specialize (Hlast t Ht'). by do 2 apply Forall_cons in Hlast as (_ & Hlast).
  - split; rewrite Hf, ?Ht.
    + apply StronglySorted_snoc; [done|].
      destruct (ElPrice._throttle (ElPrice.self w)) as [t|]; [|by rewrite Hrec].
      specialize (Hgap t eq_refl). eapply Forall_impl; [exact Hrec|].
      unfold ElPrice.apart in *. simpl. intros. lia.
    + apply Forall_app. split; [|by repeat constructor].
      destruct (ElPrice._throttle (ElPrice.self w)) as [t|]; [|by rewrite Hrec].
      specialize (Hlast t eq_refl). apply Forall_cons in Hlast as (Hlast & _).
      eapply Forall_impl; [exact Hrec|]. simpl. intros. lia.
  - intros t. rewrite Ht. intros [= <-]. exact Hstamp.
Qed.

(** Among instants that are pairwise apart, at most one lies in a window
    of length [MIN_TIME_BETWEEN_UPDATES]. *)
Lemma apart_window (l : list Z) (t : Z) :
  StronglySorted ElPrice.apart l ->
  length (filter (fun x => (t <= x <= t + MIN_TIME_BETWEEN_UPDATES)%Z) l) <= 1.
Proof.
  induction 1 as [|x l Hl IH Hx]; [simpl; lia|].
  rewrite filter_cons. case_decide as Hin; [|done]. simpl.
  enough (filter (fun x => (t <= x <= t + MIN_TIME_BETWEEN_UPDATES)%Z) l = [])
    as -> by (simpl; lia).
  clear IH Hl. induction Hx as [|y l Hy Hx IH]; [done|].
  rewrite filter_cons_False; [done|]. unfold ElPrice.apart in Hy. lia.
Qed.

(** C6.  A price sensor, from its construction on, under any run of
    [async_update] calls made while the clock does not go back: in every
    window of [MIN_TIME_BETWEEN_UPDATES] (5 minutes), the body of
    [_fetch_data] has run at most once. *)
Theorem fetch_data_throttled tibber_home randrange home envs t :
  StronglySorted Z.le (ElPrice.clock_readings envs) ->
  let w := ElPrice.async_updates envs
             {| ElPrice.self := ElPrice.__init__ tibber_home randrange;
                ElPrice.home := home; ElPrice.fetches := [] |} in
  length (filter (fun x => (t <= x <= t + timedelta_minutes 5)%Z)
            (ElPrice.fetches w)) <= 1.
Proof.
  intros Hclock w. apply apart_window.
  apply async_updates_throttle_ok; [|done|done].
  split; [constructor|done].
Qed.

End ElPriceFacts.

(** * Further facts *)

(** ** One update of a sensor *)

Section UpdateFacts.
Context {num : Type} {PN : PyNumber num} {HC : HostConst} {DU : DtUtil}.
Implicit Types (h : @hass num) (d : gmap string (pyval num))
  (s : @TibberSensorRT num).

Lemma set_attr_last_reset_same s :
  set_attr_last_reset (_attr_last_reset s) s = s.
Proof. by destruct s. Qed.

Lemma handle_update_shape h self s r h' :
  rt_sensors h !! self = Some s ->
  _handle_coordinator_update self h = (r, h') ->
  exists h1,
    (h1 = h \/ exists e, h1 = with_calls (fun cs => cs ++ [LOGGER_error e]) h)
    /\ (h' = h1
        \/ (exists lr e,
              r = Raise e
              /\ h' = with_rt_sensors <[self := set_attr_last_reset lr s]> h1
              /\ is_Some lr
              /\ (reset_type (_metadata s) = Some DAILY
                  \/ reset_type (_metadata s) = Some HOURLY))
        \/ (exists lr st,
              r = Ok tt /\ st <> PNone
              /\ h' = with_calls
                        (fun cs => cs ++ [async_write_ha_state self st lr])
                        (with_rt_sensors
                           <[self := set_attr_state st
                                       (set_attr_last_reset lr s)]> h1)
              /\ (lr = _attr_last_reset s
                  \/ (is_Some lr
                      /\ (reset_type (_metadata s) = Some DAILY
                          \/ reset_type (_metadata s) = Some HOURLY))))).
Proof.
  intros Hs. unfold _handle_coordinator_update, write_ha_state. unfold_M.
  rewrite Hs.
  destruct (get_live_measurement (coordinator s) h) as [[lm|e] h1] eqn:Hlm;
    pose proof (get_live_measurement_store _ _ _ _ Hlm) as Hh1;
    intros E; exists h1; (split; [done|]); revert E;
    [|intros [= <- <-]; by left].
  destruct (get_live_measurement_frame _ _ _ _ Hlm) as (Hrt & _).
  rewrite <- Hrt in Hs.
  destruct (Py.truthy lm); simpl; [|intros [= <- <-]; by left].
  destruct (Py.get lm (key (_metadata s)) PNone) as [state|];
    [|intros [= <- <-]; by left].
  destruct (Py.is_none state) eqn:Hnone; [intros [= <- <-]; by left|].
  assert (Hst : state <> PNone) by (intros ->; done).
  destruct (Py.getitem lm "timestamp") as [tsv|]; [|intros [= <- <-]; by left].
  destruct (parse_datetime_arg tsv) as [[timestamp|]|];
    [| |intros [= <- <-]; by left].
  - destruct (Py.lt state (_attr_state s)) as [[]|];
      [| |intros [= <- <-]; by left];
      destruct (reset_type (_metadata s)) as [[]|] eqn:Hreset;
      destruct (String.eqb (key (_metadata s)) "powerFactor");
      [destruct state; simpl in *; try done .. ]; simpl;
      rewrite ?Hs; simpl; rewrite ?lookup_insert_eq; simpl;
      rewrite ?lookup_insert_eq; simpl.
    all: intros [= <- <-].
    all: try (left; reflexivity).
    all: try (right; left; do 2 eexists; split; [reflexivity|];
              split; [reflexivity|]; split; [by eexists|eauto]; fail).
    all: right; right.
    all: first
      [ eexists (_attr_last_reset s), _; rewrite set_attr_last_reset_same;
        (split; [reflexivity|]); (split; [|split; [reflexivity|]]);
        [first [assumption|discriminate] | by left]
      | do 2 eexists; (split; [reflexivity|]); (split; [|split]); cycle 1;
        [ unfold with_rt_sensors; simpl; rewrite insert_insert_eq; reflexivity
        | right; split; [by eexists|by eauto]
        | first [assumption|discriminate] ] ].
  - destruct (String.eqb (key (_metadata s)) "powerFactor");
      [destruct state; simpl in *; try done .. ]; simpl;
      rewrite ?Hs; simpl; rewrite ?lookup_insert_eq; simpl.
    all: intros [= <- <-].
    all: try (left; reflexivity).
    all: right; right.
    all: eexists (_attr_last_reset s), _; rewrite set_attr_last_reset_same;
        (split; [reflexivity|]); (split; [|split; [reflexivity|]]);
        [first [assumption|discriminate] | by left].
Qed.


Lemma writes_call h (c : @host_call num) :
  writes (with_calls (fun cs => cs ++ [c]) h)
  = writes h ++ (if is_write_ha_state c then [c] else []).
Proof.
  unfold writes. simpl. rewrite filter_app. f_equal.
  destruct (is_write_ha_state c) eqn:E.
  - by rewrite filter_cons_True.
  - rewrite filter_cons_False; [done|]. by rewrite E.
Qed.

(** A live measurement that is not [None] was returned without logging. *)
Lemma get_live_measurement_quiet h self lm h1 :
  get_live_measurement self h = (Ok lm, h1) -> lm <> PNone -> h1 = h.
Proof.
  unfold get_live_measurement. unfold_M.
  destruct (coordinators h !! self) as [c|]; [|done].
  destruct (Py.get (Coordinator.data c) "errors" PNone) as [errors|]; [|done].
  destruct (Py.truthy errors).
  - destruct (Py.getitem_0 errors); [|done]. by intros [= <- <-].
  - destruct (Py.get (Coordinator.data c) "data" (PDict ∅)); [|done].
    simpl. destruct (Py.get _ _ _); [|done]. by intros [= <- <-].
Qed.

(** What [get_live_measurement] returns depends on the coordinators
    only. *)
Lemma get_live_measurement_coordinators h h2 self lm h1 :
  get_live_measurement self h = (Ok lm, h1) -> lm <> PNone ->
  coordinators h2 = coordinators h ->
  get_live_measurement self h2 = (Ok lm, h2).
Proof.
  unfold get_live_measurement. unfold_M. intros E Hlm ->. revert E.
  destruct (coordinators h !! self) as [c|]; [|done].
  destruct (Py.get (Coordinator.data c) "errors" PNone) as [errors|]; [|done].
  destruct (Py.truthy errors).
  - destruct (Py.getitem_0 errors); [|done]. by intros [= <- <-].
  - destruct (Py.get (Coordinator.data c) "data" (PDict ∅)); [|done].
    simpl. destruct (Py.get _ _ _); [|done]. by intros [= <- <-].
Qed.

(** The update run on a number, for a key other than "powerFactor", on a
    sensor that shows a number, with a timestamp on which
    [parse_datetime] returns. *)
Lemma handle_update_number h self s d v cur ts p :
  rt_sensors h !! self = Some s ->
  get_live_measurement (coordinator s) h = (Ok (PDict d), h) ->
  d !! key (_metadata s) = Some (PNum v) ->
  d !! "timestamp" = Some (PStr ts) ->
  parse_datetime ts = Ok p ->
  _attr_state s = PNum cur ->
  key (_metadata s) <> "powerFactor" ->
  let lr :=
    match p, num_ltb v cur, reset_type (_metadata s) with
    | Some timestamp, true, Some DAILY =>
        Some (as_utc (replace_hour_minute_second_microsecond_0 timestamp))
    | Some timestamp, true, Some HOURLY =>
        Some (as_utc (replace_minute_second_microsecond_0 timestamp))
    | _, _, _ => _attr_last_reset s
    end in
  _handle_coordinator_update self h
  = (Ok tt,
     with_calls (fun cs => cs ++ [async_write_ha_state self (PNum v) lr])
       (with_rt_sensors
          <[self := set_attr_state (PNum v) (set_attr_last_reset lr s)]> h)).
Proof.
  intros Hs Hlm Hk Hts Hp Hcur Hpf.
  unfold _handle_coordinator_update, write_ha_state. unfold_M.
  rewrite Hs, Hlm, (truthy_dict_lookup _ _ _ Hk).
  simpl. rewrite Hk, Hts, Hcur. simpl. rewrite Hp.
  apply String.eqb_neq in Hpf. rewrite Hpf.
  destruct p as [timestamp|];
    [destruct (num_ltb v cur), (reset_type (_metadata s)) as [[]|] |];
    simpl; rewrite ?Hs; simpl; rewrite ?lookup_insert_eq; simpl;
    rewrite ?lookup_insert_eq; simpl; rewrite ?set_attr_last_reset_same;
    try reflexivity;
    unfold with_rt_sensors; simpl; rewrite insert_insert_eq; reflexivity.
Qed.

(** X1.  One call of [_handle_coordinator_update] leaves every list, every
    coordinator and every other sensor as it is, registers nothing, and on
    its own sensor changes at most the state and [last_reset]: the home,
    the coordinator, the metadata, the device class, the name, the unique
    id, the unit and the state class stay. *)
Theorem handle_update_touches_one_sensor h self :
  let h' := snd (_handle_coordinator_update self h) in
  lists h' = lists h /\ coordinators h' = coordinators h
  /\ registered h' = registered h
  /\ (forall e, e <> self -> rt_sensors h' !! e = rt_sensors h !! e)
  /\ fixed_attributes <$> rt_sensors h' !! self
     = fixed_attributes <$> rt_sensors h !! self.
Proof.
  intros h'. subst h'.
  destruct (rt_sensors h !! self) as [s|] eqn:Hs.
  2:{ unfold _handle_coordinator_update. unfold_M. rewrite Hs. simpl.
      by rewrite Hs. }
  destruct (_handle_coordinator_update self h) as [r h'] eqn:E. simpl.
  destruct (handle_update_shape _ _ _ _ _ Hs E) as (h1 & Hh1 & Hcase).
  assert (H1 : lists h1 = lists h /\ coordinators h1 = coordinators h
               /\ registered h1 = registered h
               /\ rt_sensors h1 = rt_sensors h).
  { destruct Hh1 as [->|[e ->]]; [done|].
    by rewrite registered_call, app_nil_r. }
  destruct H1 as (Hl & Hc & Hr & Hrt).
  destruct Hcase as [->|[(lr & e & _ & -> & _)|(lr & st & _ & _ & -> & _)]];
    simpl; rewrite ?registered_call, ?app_nil_r, ?Hrt, ?Hs.
  - done.
  - repeat split; try done.
    + intros e0 Hne. by rewrite lookup_insert_ne.
    + by rewrite lookup_insert_eq.
  - repeat split; try done.
    + intros e0 Hne. by rewrite lookup_insert_ne.
    + by rewrite lookup_insert_eq.
Qed.

(** X2.  [_handle_coordinator_update] writes the host state at most once,
    and only when it returns: what it writes is then the state the sensor
    has got, which is not [None], with the sensor's [last_reset].  In every
    other case, and so whenever it raises, nothing is written and the
    sensor's state is as before. *)
Theorem handle_update_writes h self :
  let r := fst (_handle_coordinator_update self h) in
  let h' := snd (_handle_coordinator_update self h) in
  (writes h' = writes h
   /\ _attr_state <$> rt_sensors h' !! self
      = _attr_state <$> rt_sensors h !! self)
  \/ (r = Ok tt
      /\ exists s', rt_sensors h' !! self = Some s'
           /\ _attr_state s' <> PNone
           /\ writes h'
              = writes h ++ [async_write_ha_state self (_attr_state s')
                               (_attr_last_reset s')]).
Proof.
  intros r h'. subst r h'.
  destruct (rt_sensors h !! self) as [s|] eqn:Hs.
  2:{ left. unfold _handle_coordinator_update. unfold_M. rewrite Hs. simpl.
      by rewrite Hs. }
  destruct (_handle_coordinator_update self h) as [r h'] eqn:E. simpl.
  destruct (handle_update_shape _ _ _ _ _ Hs E) as (h1 & Hh1 & Hcase).
  assert (H1 : writes h1 = writes h /\ rt_sensors h1 = rt_sensors h).
  { destruct Hh1 as [->|[e ->]]; [done|].
    by rewrite writes_call, app_nil_r. }
  destruct H1 as (Hw & Hrt).
  destruct Hcase as [->|[(lr & e & _ & -> & _)|(lr & st & -> & Hst & -> & _)]].
  - left. by rewrite Hw, Hrt, Hs.
  - left. split; [exact Hw|]. simpl. by rewrite lookup_insert_eq.
  - right. split; [done|]. eexists. simpl. rewrite lookup_insert_eq.
    split; [reflexivity|]. split; [done|]. rewrite writes_call. simpl.
    f_equal. exact Hw.
Qed.

(** X3.  On a sensor whose metadata has no reset type, or has NEVER, no
    update ever changes [last_reset], whatever the coordinator holds. *)
Theorem handle_update_keeps_last_reset h self s :
  rt_sensors h !! self = Some s ->
  reset_type (_metadata s) <> Some DAILY ->
  reset_type (_metadata s) <> Some HOURLY ->
  _attr_last_reset <$> rt_sensors (snd (_handle_coordinator_update self h))
                         !! self
  = Some (_attr_last_reset s).
Proof.
  intros Hs Hd Hh.
  destruct (_handle_coordinator_update self h) as [r h'] eqn:E. simpl.
  destruct (handle_update_shape _ _ _ _ _ Hs E) as (h1 & Hh1 & Hcase).
  assert (Hrt : rt_sensors h1 = rt_sensors h)
    by (by destruct Hh1 as [->|[e ->]]).
  destruct Hcase as [->|[(lr & e & _ & -> & Hr)|(lr & st & _ & _ & -> & Hr)]];
    simpl; rewrite ?lookup_insert_eq, ?Hrt, ?Hs; simpl.
  - done.
  - by destruct Hr as (_ & [?|?]).
  - by destruct Hr as [->|(_ & [?|?])].
Qed.


(** X5.  The same measurement delivered again to a sensor whose state
    is a number: the measurement holds a number for the sensor's key, which
    is not "powerFactor", and under "timestamp" a string on which
    [parse_datetime] returns (a datetime or [None]) and does not raise;
    the number is not smaller than itself.  Then the second update returns
    and leaves every sensor as the first update left it. *)
Theorem handle_update_twice h self s d h1 v cur ts p :
  rt_sensors h !! self = Some s ->
  get_live_measurement (coordinator s) h = (Ok (PDict d), h1) ->
  d !! key (_metadata s) = Some (PNum v) ->
  d !! "timestamp" = Some (PStr ts) ->
  parse_datetime ts = Ok p ->
  _attr_state s = PNum cur ->
  key (_metadata s) <> "powerFactor" ->
  num_ltb v v = false ->
  let h' := snd (_handle_coordinator_update self h) in
  exists h'', _handle_coordinator_update self h' = (Ok tt, h'')
    /\ rt_sensors h'' = rt_sensors h'.
Proof.
  intros Hs Hlm Hk Hts Hp Hcur Hpf Hirr h'. subst h'.
  assert (h1 = h) as -> by (by eapply get_live_measurement_quiet).
  rewrite (handle_update_number h self s d v cur ts p) by done. simpl.
  match goal with
  | |- context [with_calls ?f (with_rt_sensors <[self := ?s1]> h)] =>
      set (s' := s1);
      set (h' := with_calls f (with_rt_sensors <[self := s']> h))
  end.
  assert (Hs' : rt_sensors h' !! self = Some s')
    by (simpl; by rewrite lookup_insert_eq).
  rewrite (handle_update_number h' self s' d v v ts p); try done.
  - eexists. split; [reflexivity|].
    cbn [snd rt_sensors with_calls with_rt_sensors]. rewrite Hirr.
    replace (match p with
             | Some _ | _ => _attr_last_reset s'
             end) with (_attr_last_reset s')
      by (by destruct p).
    rewrite set_attr_last_reset_same.
    replace (set_attr_state (PNum v) s') with s' by done.
    subst h'. cbn [rt_sensors with_calls with_rt_sensors].
    by rewrite insert_insert_eq.
  - eapply get_live_measurement_coordinators; [exact Hlm|done|done].
Qed.

End UpdateFacts.

(** ** One pass of [_add_sensors] *)

Section ScanFacts.
Context {num : Type} {PN : PyNumber num} {HC : HostConst} {DU : DtUtil}.
Implicit Types (h : @hass num) (d : gmap string (pyval num))
  (l cur : list TibberSensorMetadata) (x : TibberSensorMetadata).

Lemma taken_cons d x l :
  taken d (x :: l)
  = if has_reading d x then x :: taken d (drop 1 l) else taken d l.
Proof. simpl. by destruct l. Qed.

Lemma left_over_cons d x l :
  left_over d (x :: l)
  = if has_reading d x then take 1 l ++ left_over d (drop 1 l)
    else x :: left_over d l.
Proof. simpl. by destruct l. Qed.

(** In a list without duplicates, [remove] of the item at an index takes
    that very item away. *)
Lemma remove_first_delete x l i :
  NoDup l -> l !! i = Some x -> remove_first x l = Some (delete i l).
Proof.
  revert i. induction l as [|y l IH]; intros i Hnd Hi; [done|].
  apply NoDup_cons in Hnd as (Hy & Hnd). simpl.
  destruct i as [|i]; simpl in *.
  - injection Hi as ->. by rewrite decide_True.
  - rewrite decide_False.
    + by rewrite (IH i).
    + intros ->. apply Hy. by eapply list_elem_of_lookup_2.
Qed.

Lemma add_sensors_loop_scan fuel self d i acc h co cur :
  coordinators h !! self = Some co ->
  lists h !! Coordinator._all_sensors co = Some cur ->
  NoDup cur -> length cur - i < fuel ->
  exists new h',
    _add_sensors_loop fuel self (PDict d) i acc h = (Ok (acc ++ new), h')
    /\ lists h'
       = <[Coordinator._all_sensors co
           := take i cur ++ left_over d (drop i cur)]> (lists h)
    /\ coordinators h' = coordinators h /\ calls h' = calls h
    /\ rt_sensors h ⊆ rt_sensors h'
    /\ (forall e, is_Some (rt_sensors h' !! e) ->
                  is_Some (rt_sensors h !! e) \/ e ∈ new)
    /\ Forall2 (fun e x =>
                  rt_sensors h !! e = None
                  /\ exists s, rt_sensors h' !! e = Some s
                       /\ made_for d self (Coordinator._tibber_home co) s x)
         new (taken d (drop i cur)).
Proof.
  revert i acc h cur.
  induction fuel as [|fuel IH]; intros i acc h cur Hco Hl Hnd Hfuel; [lia|].
  simpl. unfold_M. rewrite Hco, Hl.
  destruct (cur !! i) as [x|] eqn:Hx.
  2:{ apply lookup_ge_None in Hx. exists [], h.
      rewrite app_nil_r, drop_ge, take_ge by done. simpl.
      rewrite app_nil_r, insert_id by done.
      split; [done|]. split; [done|]. split; [done|]. split; [done|].
      split; [done|]. split; [by left|constructor]. }
  assert (Hi : i < length cur) by (eapply lookup_lt_Some; eauto).
  rewrite (drop_S _ _ _ Hx), taken_cons, left_over_cons.
  unfold has_reading.
  destruct (Py.is_none (default PNone (d !! key x))) eqn:Hnone; simpl.
  - destruct (IH (S i) acc h cur Hco Hl Hnd ltac:(lia))
      as (new & h' & E & Hl' & Hrest).
    exists new, h'. split; [exact E|]. split; [|exact Hrest].
    rewrite Hl'. f_equal. rewrite (take_S_r _ _ _ Hx), <- app_assoc. done.
  - unfold TibberSensorRT__init__, list_remove. unfold_M. simpl. rewrite Hl.
    rewrite (remove_first_delete _ _ _ Hnd Hx).
    set (e := fresh (dom (rt_sensors h))).
    assert (He : rt_sensors h !! e = None) by apply not_elem_of_dom, is_fresh.
    match goal with
    | |- context [_add_sensors_loop fuel self (PDict d) (S i) _ ?hh] =>
        set (h2 := hh)
    end.
    destruct (IH (S i) (acc ++ [e]) h2 (delete i cur)) as
      (new & h' & E & Hl' & Hc' & Hcalls' & Hsub & Honly & Hnew).
    + exact Hco.
    + simpl. by rewrite lookup_insert_eq.
    + rewrite delete_take_drop. rewrite <- (take_drop i cur) in Hnd at 1.
      rewrite (drop_S _ _ _ Hx) in Hnd.
      apply NoDup_app in Hnd as (Hn1 & Hdisj & Hn2).
      apply NoDup_cons in Hn2 as (_ & Hn2). apply NoDup_app.
      split; [done|]. split; [|done]. intros y Hy1 Hy2.
      apply (Hdisj y Hy1). by right.
    + rewrite length_delete by eauto. lia.
    + exists (e :: new), h'. rewrite E, <- app_assoc. split; [done|].
      assert (Hlen : length (take i cur) = i) by (rewrite length_take; lia).
      assert (Htake : take (S i) (delete i cur)
                      = take i cur ++ take 1 (drop (S i) cur)).
      { rewrite delete_take_drop.
        replace (S i) with (length (take i cur) + 1) at 1 by lia.
        by rewrite take_app_add'. }
      assert (Hdrop : drop (S i) (delete i cur) = drop 1 (drop (S i) cur)).
      { rewrite delete_take_drop.
        replace (S i) with (length (take i cur) + 1) at 1 by lia.
        by rewrite drop_app_add'. }
      rewrite Htake, Hdrop in Hl'. rewrite Hdrop in Hnew.
      assert (Hsub2 : rt_sensors h ⊆ rt_sensors h2)
        by (by apply insert_subseteq).
      split; [|split; [done|split; [done|split; [|split]]]].
      * rewrite Hl'. unfold h2. simpl. rewrite insert_insert_eq.
        by rewrite <- app_assoc.
      * by etrans.
      * intros e0 He0. destruct (Honly e0 He0) as [H2|H2].
        -- unfold h2 in H2. simpl in H2.
           destruct (decide (e = e0)) as [<-|Hne]; [right; by left|].
           rewrite lookup_insert_ne in H2 by done. by left.
        -- right. by right.
      * constructor.
        -- split; [done|]. eexists. split.
           ++ eapply lookup_weaken; [|exact Hsub]. unfold h2. simpl.
              by rewrite lookup_insert_eq.
           ++ split; [done|]. split; [done|]. simpl.
              destruct (d !! key x) as [v|]; [|done]. simpl in *.
              split; [done|]. split; [by intros ->|]. by repeat split.
        -- eapply Forall2_impl; [exact Hnew|]. simpl.
           intros e0 x0 (He0 & Hs0). split; [|done].
           by eapply lookup_weaken_None.
Qed.


Lemma no_reading_scan d l :
  Forall (fun x => has_reading d x = false) l ->
  taken d l = [] /\ left_over d l = l.
Proof.
  induction 1 as [|x l Hx _ [IH1 IH2]]; [done|]. simpl.
  by rewrite Hx, IH1, IH2.
Qed.

Lemma has_reading_empty x : has_reading (∅ : gmap string (pyval num)) x = false.
Proof. unfold has_reading. by rewrite lookup_empty. Qed.

Lemma pending_lookup h c co l :
  coordinators h !! c = Some co ->
  lists h !! Coordinator._all_sensors co = Some l -> pending h c = l.
Proof. intros Hc Hl. unfold pending. by rewrite Hc, Hl. Qed.

(** What [_add_sensors] does in an invariant store when the live
    measurement is a dict. *)
Lemma add_sensors_effect h self d h1 :
  store_ok h -> get_live_measurement self h = (Ok (PDict d), h1) ->
  exists co new h',
    coordinators h !! self = Some co
    /\ _add_sensors self h = (Ok tt, h')
    /\ lists h' = <[Coordinator._all_sensors co
                    := left_over d (pending h self)]> (lists h)
    /\ coordinators h' = coordinators h
    /\ rt_sensors h ⊆ rt_sensors h'
    /\ (forall e, is_Some (rt_sensors h' !! e) ->
                  is_Some (rt_sensors h !! e) \/ e ∈ new)
    /\ registered h' = registered h ++ new
    /\ writes h' = writes h
    /\ Forall2 (fun e x =>
                  rt_sensors h !! e = None
                  /\ exists s, rt_sensors h' !! e = Some s
                       /\ made_for d self (Coordinator._tibber_home co) s x)
         new (taken d (pending h self)).
Proof.
  intros Hok Hlm.
  assert (h1 = h) as -> by (by eapply get_live_measurement_quiet).
  destruct (coordinators h !! self) as [co|] eqn:Hco.
  2:{ unfold get_live_measurement in Hlm. unfold_M. by rewrite Hco in Hlm. }
  destruct (ok_own_list _ Hok _ _ Hco) as (_ & l & Hl & Hnd).
  apply NoDup_fmap_1 in Hnd.
  rewrite (pending_lookup _ _ _ _ Hco Hl).
  exists co. unfold _add_sensors. unfold_M. rewrite Hlm.
  destruct (Py.truthy (PDict d)) eqn:Ht; cbn [negb].
  - rewrite Hco, Hl.
    destruct (add_sensors_loop_scan (S (length l)) self d 0 [] h co l)
      as (new & h' & E & Hl' & Hc' & Hcalls' & Hsub & Honly & Hnew);
      [done|done|done|lia|].
    change ([] ++ new) with new in E.
    rewrite E. rewrite take_0, drop_0 in *. simpl in Hl'.
    assert (Hreg : registered h' = registered h)
      by (unfold registered; by rewrite Hcalls').
    assert (Hwr : writes h' = writes h)
      by (unfold writes; by rewrite Hcalls').
    assert (Hfin : registered
              (with_calls
                 (fun cs => cs ++ [async_add_entities (RtEntity <$> new) false])
                 h') = registered h ++ new)
      by (by rewrite registered_call, Hreg, rt_entities_add).
    destruct new as [|e new].
    + exists [], h'. rewrite app_nil_r. split; [done|]. split; [reflexivity|].
      split; [done|]. split; [done|]. split; [done|]. split; [done|].
      split; [exact Hreg|]. split; [exact Hwr|done].
    + eexists (e :: new), _. split; [done|]. split; [reflexivity|].
      split; [done|]. split; [done|]. split; [done|]. split; [done|].
      split; [exact Hfin|]. split; [|done].
      by rewrite writes_call, app_nil_r.
  - apply truthy_dict_empty in Ht as ->.
    destruct (no_reading_scan ∅ l) as (-> & ->).
    { apply Forall_forall. intros. apply has_reading_empty. }
    exists [], h. rewrite app_nil_r, insert_id by done.
    split; [done|]. split; [reflexivity|]. split; [done|]. split; [done|].
    split; [done|]. split; [by left|]. split; [done|]. split; [done|].
    constructor.
Qed.

(** The same when the live measurement is anything else: the loop stops
    in its first round. *)
Lemma add_sensors_not_dict h self lm h1 r h' :
  get_live_measurement self h = (Ok lm, h1) ->
  (forall d, lm <> PDict d) ->
  _add_sensors self h = (r, h') -> h' = h1.
Proof.
  intros Hlm Hnd. unfold _add_sensors. unfold_M. rewrite Hlm.
  destruct (Py.truthy lm); cbn [negb]; [|by intros [= <- <-]].
  destruct (coordinators h1 !! self) as [co|] eqn:Hco; [|by intros [= <- <-]].
  destruct (lists h1 !! Coordinator._all_sensors co) as [l|] eqn:Hl;
    [|by intros [= <- <-]].
  cbn [_add_sensors_loop]. unfold_M. rewrite Hco, Hl.
  destruct (l !! 0) as [x|]; [|by intros [= <- <-]].
  destruct lm; simpl; try (by intros [= <- <-]). by destruct (Hnd d).
Qed.


(** ** The pass as a function on lists *)

Lemma scan_partition d l : l ≡ₚ left_over d l ++ taken d l.
Proof.
  enough (l ≡ₚ left_over d l ++ taken d l
          /\ drop 1 l ≡ₚ left_over d (drop 1 l) ++ taken d (drop 1 l))
    by tauto.
  induction l as [|x l [IH1 IH2]]; [done|].
  split; [|exact IH1].
  rewrite taken_cons, left_over_cons. destruct (has_reading d x).
  - rewrite <- Permutation_middle. apply Permutation_skip.
    rewrite <- app_assoc, <- IH2. by rewrite take_drop.
  - simpl. by apply Permutation_skip.
Qed.

Lemma taken_has_reading d l :
  Forall (fun x => has_reading d x = true) (taken d l).
Proof.
  enough (Forall (fun x => has_reading d x = true) (taken d l)
          /\ Forall (fun x => has_reading d x = true) (taken d (drop 1 l)))
    by tauto.
  induction l as [|x l [IH1 IH2]]; [by split; constructor|].
  split; [|exact IH1].
  rewrite taken_cons. destruct (has_reading d x) eqn:Hx; [|done].
  by constructor.
Qed.

Lemma taken_nil d l :
  taken d l = [] -> Forall (fun x => has_reading d x = false) l.
Proof.
  induction l as [|x l IH]; [constructor|]. simpl.
  destruct (has_reading d x) eqn:Hx; [done|]. intros H. constructor; auto.
Qed.

(** Each pass takes as many descriptors with a reading out of the list
    as it makes sensors. *)
Lemma left_over_fewer d l :
  length (filter (fun x => has_reading d x = true) l)
  = length (filter (fun x => has_reading d x = true) (left_over d l))
    + length (taken d l).
Proof.
  rewrite (scan_partition d l) at 1. rewrite filter_app, length_app. f_equal.
  f_equal. pose proof (taken_has_reading d l) as H.
  induction H as [|x l' Hx _ IH]; [done|].
  by rewrite filter_cons_True, IH.
Qed.

End ScanFacts.

Section AddSensorsTheorems.
Context {num : Type} {PN : PyNumber num} {HC : HostConst} {DU : DtUtil}.
Implicit Types (h : @hass num) (d : gmap string (pyval num))
  (l : list TibberSensorMetadata) (x : TibberSensorMetadata).

(** One update of a coordinator with a payload that holds a live
    measurement. *)
Lemma coordinator_update_effect h c co top dd d :
  store_ok h -> coordinators h !! c = Some co ->
  Py.truthy (default PNone (top !! "errors")) = false ->
  top !! "data" = Some (PDict dd) ->
  dd !! "liveMeasurement" = Some (PDict d) ->
  let h' := perform_all (coordinator_update c (PDict top)) h in
  store_ok h' /\ is_Some (coordinators h' !! c)
  /\ pending h' c = left_over d (pending h c)
  /\ rt_sensors h ⊆ rt_sensors h'
  /\ Forall (fun x => exists e s,
               rt_sensors h' !! e = Some s /\ coordinator s = c
               /\ _metadata s = x)
       (taken d (pending h c)).
Proof.
  intros Hok Hco He Hd Hlm h'. subst h'.
  change (perform_all (coordinator_update c (PDict top)) h)
    with (snd (_add_sensors c (snd (set_data c (PDict top) h)))).
  assert (Hset : exists co1, set_data c (PDict top) h
            = (Ok tt, with_coordinators <[c := co1]> h)
            /\ Coordinator.data co1 = PDict top
            /\ Coordinator._all_sensors co1 = Coordinator._all_sensors co).
  { unfold set_data. unfold_M. rewrite Hco. by eexists. }
  destruct Hset as (co0 & Hset & Hdata & Hall). rewrite Hset. cbn [snd].
  set (h1 := with_coordinators <[c := co0]> h).
  assert (Hok1 : store_ok h1).
  { by eapply (store_ok_set_data h c (PDict top)). }
  assert (Hp1 : pending h1 c = pending h c).
  { unfold pending, h1. simpl. by rewrite lookup_insert_eq, Hco, Hall. }
  assert (Hlm1 : get_live_measurement c h1 = (Ok (PDict d), h1)).
  { erewrite get_live_measurement_data;
      [by rewrite Hlm| by apply lookup_insert_eq | done..]. }
  destruct (add_sensors_effect h1 c d h1 Hok1 Hlm1)
    as (co1 & new & h2 & Hco1 & E & Hl2 & Hc2 & Hsub & _ & _ & _ & Hnew).
  rewrite E. cbn [snd]. split; [by eapply store_ok_add_sensors|].
  split; [by rewrite Hc2, Hco1|]. split; [|split; [done|]].
  - destruct (ok_own_list _ Hok1 _ _ Hco1) as (_ & l & Hl & _).
    rewrite <- Hp1. unfold pending at 1. rewrite Hc2, Hco1, Hl2.
    by rewrite lookup_insert_eq.
  - rewrite Hp1 in Hnew. clear -Hnew.
    induction Hnew as [|e x new l (_ & s & Hs & Hc & Hm & _) _ IH];
      constructor; eauto.
Qed.

Lemma filter_length_0 {A} (P : A -> Prop) `{forall a, Decision (P a)}
  (k : list A) :
  length (filter P k) = 0 -> Forall (fun a => ~ P a) k.
Proof.
  intros Hl. apply Forall_forall. intros a Ha HP.
  assert (Hin : a ∈ filter P k) by (by apply list_elem_of_filter).
  destruct (filter P k); [by apply elem_of_nil in Hin|done].
Qed.

(** Updates with one payload, repeated: each update that finds pending
    descriptors with a reading makes a sensor for at least one of them, so
    as many updates as there are such descriptors leave none of them
    pending. *)
Lemma updates_create h c co top dd d n :
  store_ok h -> coordinators h !! c = Some co ->
  Py.truthy (default PNone (top !! "errors")) = false ->
  top !! "data" = Some (PDict dd) ->
  dd !! "liveMeasurement" = Some (PDict d) ->
  length (filter (fun x => has_reading d x = true) (pending h c)) <= n ->
  let h' := perform_all
              (mjoin (replicate n (coordinator_update c (PDict top)))) h in
  Forall (fun x => has_reading d x = false) (pending h' c)
  /\ rt_sensors h ⊆ rt_sensors h'
  /\ forall x, x ∈ pending h c -> has_reading d x = true ->
       exists e s, rt_sensors h' !! e = Some s /\ coordinator s = c
                   /\ _metadata s = x.
Proof.
  intros Hok Hco He Hd Hlm. revert h co Hok Hco.
  induction n as [|n IH]; intros h co Hok Hco Hn h'; subst h'.
  - assert (Hnone : Forall (fun x => has_reading d x = false) (pending h c)).
    { eapply Forall_impl;
        [apply (filter_length_0 (fun x => has_reading d x = true)); lia|].
      simpl. intros x. by destruct (has_reading d x). }
    split; [done|]. split; [done|]. intros x Hx Hr.
    rewrite Forall_forall in Hnone. rewrite (Hnone x Hx) in Hr. done.
  - change (mjoin (replicate (S n) (coordinator_update c (PDict top))))
      with (coordinator_update c (PDict top)
            ++ mjoin (replicate n (coordinator_update c (PDict top)))).
    unfold perform_all at 1. rewrite foldl_app.
    fold (perform_all (coordinator_update c (PDict top)) h).
    destruct (coordinator_update_effect h c co top dd d Hok Hco He Hd Hlm)
      as (Hok1 & [co1 Hco1] & Hp1 & Hsub1 & Htaken).
    set (h1 := perform_all (coordinator_update c (PDict top)) h) in *.
    fold (perform_all (mjoin (replicate n (coordinator_update c (PDict top))))
            h1).
    destruct (IH h1 co1 Hok1 Hco1) as (Hnone & Hsub & Hall).
    { rewrite Hp1. pose proof (left_over_fewer d (pending h c)) as Hf.
      destruct (taken d (pending h c)) as [|y t] eqn:Ht.
      - apply taken_nil in Ht.
        destruct (no_reading_scan d (pending h c) Ht) as (_ & ->).
        clear -Ht. induction Ht as [|x l Hx _ IHl]; [simpl; lia|].
        rewrite filter_cons_False; [done|]. by rewrite Hx.
      - simpl in Hf. lia. }
    split; [done|]. split; [by etrans|]. intros x Hx Hr.
    rewrite (scan_partition d (pending h c)) in Hx.
    apply elem_of_app in Hx as [Hx|Hx].
    + apply Hall; [by rewrite Hp1|done].
    + rewrite Forall_forall in Htaken.
      destruct (Htaken x Hx) as (e & s & Hs & Hc & Hm).
      exists e, s. split; [|done]. by eapply lookup_weaken.
Qed.

(** X6.  In any store the module can be in, [_add_sensors] with a dict as
    live measurement returns, and is one pass over the coordinator's
    pending descriptors in which a descriptor with a reading is taken and
    the descriptor after a taken one is passed over: the descriptors left
    pending are the ones not taken, in order, and the sensors registered
    by the call are new sensors, one for each descriptor taken, in order,
    each belonging to the coordinator, showing the reading under its key
    as it was delivered, and having the attributes the constructor
    computes. *)
Theorem add_sensors_scan acts now entropy er dr self d h1 :
  let h := perform_all acts (@module_init num HC now entropy er dr) in
  get_live_measurement self h = (Ok (PDict d), h1) ->
  exists co new h',
    coordinators h !! self = Some co
    /\ _add_sensors self h = (Ok tt, h')
    /\ pending h' self = left_over d (pending h self)
    /\ registered h' = registered h ++ new
    /\ Forall2 (fun e x =>
                  rt_sensors h !! e = None
                  /\ exists s, rt_sensors h' !! e = Some s
                       /\ made_for d self (Coordinator._tibber_home co) s x)
         new (taken d (pending h self)).
Proof.
  intros h Hlm.
  pose proof (store_ok_reachable acts now entropy er dr) as Hok. fold h in Hok.
  destruct (add_sensors_effect h self d h1 Hok Hlm)
    as (co & new & h' & Hco & E & Hl' & Hc' & _ & _ & Hreg & _ & Hnew).
  exists co, new, h'. split; [done|]. split; [done|]. split; [|done].
  unfold pending at 1. by rewrite Hc', Hco, Hl', lookup_insert_eq.
Qed.

(** X7.  In any store the module can be in, whatever a coordinator holds
    and whether the call returns or raises, [_add_sensors] leaves every
    coordinator and every existing sensor as it is, leaves the pending
    descriptors of every other coordinator as they are, writes no host
    state, and has registered every sensor it has made. *)
Theorem add_sensors_frame acts now entropy er dr self :
  let h := perform_all acts (@module_init num HC now entropy er dr) in
  let h' := snd (_add_sensors self h) in
  coordinators h' = coordinators h
  /\ rt_sensors h ⊆ rt_sensors h'
  /\ writes h' = writes h
  /\ (forall c, c <> self -> pending h' c = pending h c)
  /\ (forall e, is_Some (rt_sensors h' !! e) ->
        is_Some (rt_sensors h !! e)
        \/ (e ∈ registered h' /\ e ∉ registered h)).
Proof.
  intros h h'. subst h'.
  pose proof (store_ok_reachable acts now entropy er dr) as Hok. fold h in Hok.
  clearbody h.
  assert (Hsame : forall h1, rt_sensors h1 = rt_sensors h ->
            lists h1 = lists h -> coordinators h1 = coordinators h ->
            writes h1 = writes h ->
            coordinators h1 = coordinators h
            /\ rt_sensors h ⊆ rt_sensors h1
            /\ writes h1 = writes h
            /\ (forall c, c <> self -> pending h1 c = pending h c)
            /\ (forall e, is_Some (rt_sensors h1 !! e) ->
                  is_Some (rt_sensors h !! e)
                  \/ (e ∈ registered h1 /\ e ∉ registered h))).
  { intros h1 Hrt Hl Hc Hw. split; [done|]. split; [by rewrite Hrt|].
    split; [done|]. split.
    - intros c _. unfold pending. by rewrite Hc, Hl.
    - intros e. rewrite Hrt. by left. }
  destruct (get_live_measurement self h) as [[lm|e] h1] eqn:Hlm;
    destruct (get_live_measurement_frame _ _ _ _ Hlm)
      as (Hrt & Hl & Hc & Hw & _).
  2:{ unfold _add_sensors. unfold_M. rewrite Hlm. simpl. by apply Hsame. }
  assert (Hcase : (exists d, lm = PDict d) \/ forall d, lm <> PDict d)
    by (destruct lm; eauto).
  destruct Hcase as [[d ->]|Hnd].
  - destruct (add_sensors_effect h self d h1 Hok Hlm)
      as (co & new & h' & Hco & E & Hl' & Hc' & Hsub & Honly & Hreg & Hwr
          & Hnew).
    rewrite E. simpl. split; [done|]. split; [done|]. split; [done|]. split.
    + intros c Hne. unfold pending. rewrite Hc', Hl'.
      destruct (coordinators h !! c) as [co'|] eqn:Hco'; [|done].
      rewrite lookup_insert_ne; [done|]. intros Heq.
      apply Hne. symmetry. by eapply (ok_no_alias _ Hok).
    + intros e He. destruct (Honly e He) as [?|Hin]; [by left|]. right.
      split; [rewrite Hreg, elem_of_app; by right|].
      intros Hreg0. apply (ok_registered_created _ Hok) in Hreg0 as [s Hs].
      rewrite Forall2_lookup in Hnew.
      apply list_elem_of_lookup in Hin as [i Hi].
      specialize (Hnew i). rewrite Hi in Hnew.
      inversion Hnew as [? ? [Hnone _]|]. congruence.
  - destruct (_add_sensors self h) as [r h'] eqn:E. simpl.
    assert (h' = h1) as ->.
    { eapply add_sensors_not_dict; [exact Hlm|exact Hnd|exact E]. }
    by apply Hsame.
Qed.

(** X8.  In any store the module can be in: let a coordinator be updated
    [n] times with one payload that holds a dict as live measurement, [n]
    being at least the number of its pending descriptors that have a
    reading there.  Then no pending descriptor has a reading any more, and
    every descriptor that was pending and has a reading has got a sensor
    of that coordinator: what one update passes over, a later one takes
    up. *)
Theorem updates_create_all acts now entropy er dr c top dd d n :
  let h := perform_all acts (@module_init num HC now entropy er dr) in
  is_Some (coordinators h !! c) ->
  Py.truthy (default PNone (top !! "errors")) = false ->
  top !! "data" = Some (PDict dd) ->
  dd !! "liveMeasurement" = Some (PDict d) ->
  length (filter (fun x => has_reading d x = true) (pending h c)) <= n ->
  let h' := perform_all
              (mjoin (replicate n (coordinator_update c (PDict top)))) h in
  Forall (fun x => has_reading d x = false) (pending h' c)
  /\ forall x, x ∈ pending h c -> has_reading d x = true ->
       exists e s, rt_sensors h' !! e = Some s /\ coordinator s = c
                   /\ _metadata s = x.
Proof.
  intros h [co Hco] He Hd Hlm Hn h'.
  pose proof (store_ok_reachable acts now entropy er dr) as Hok. fold h in Hok.
  destruct (updates_create h c co top dd d n Hok Hco He Hd Hlm Hn)
    as (H1 & _ & H2).
  by split.
Qed.

End AddSensorsTheorems.

(** ** The second invariant of the store *)

Section TableFacts.
Context {num : Type} {PN : PyNumber num} {HC : HostConst} {DU : DtUtil}.
Implicit Types (h : @hass num) (d : gmap string (pyval num))
  (l : list TibberSensorMetadata) (x : TibberSensorMetadata)
  (s : @TibberSensorRT num) (m : gmap loc (@TibberSensorRT num)).

Lemma steps_trans h1 h2 h3 : steps h1 h2 -> steps h2 h3 -> steps h1 h3.
Proof. induction 2; [done|]. by eapply steps_snoc. Qed.

Lemma steps_one h h' : store_ok h -> step h h' -> steps h h'.
Proof. intros. eapply steps_snoc; [apply steps_refl|done..]. Qed.

Lemma steps_host h h' :
  store_ok h -> lists h' = lists h -> coordinators h' = coordinators h ->
  rt_sensors h' = rt_sensors h -> steps h h'.
Proof. intros. apply steps_one; [done|]. by apply step_host. Qed.

(** The metadata of the sensors of a coordinator, as it changes with the
    sensors. *)
Lemma created_metadata_new h c e s f :
  rt_sensors h !! e = None ->
  created_metadata (with_lists f (with_rt_sensors <[e := s]> h)) c
  ≡ₚ (if decide (coordinator s = c) then [_metadata s] else [])
     ++ created_metadata h c.
Proof.
  intros He. unfold created_metadata, sensors_of. simpl.
  rewrite map_filter_insert. simpl. destruct (decide (coordinator s = c)).
  - rewrite map_to_list_insert; [done|].
    apply map_lookup_filter_None. by left.
  - by rewrite delete_id.
Qed.

Lemma created_metadata_update h c e s s' :
  rt_sensors h !! e = Some s ->
  coordinator s' = coordinator s -> _metadata s' = _metadata s ->
  created_metadata (with_rt_sensors <[e := s']> h) c ≡ₚ created_metadata h c.
Proof.
  intros He Hc Hm. unfold created_metadata, sensors_of. simpl.
  rewrite <- (insert_delete_id (rt_sensors h) e s He) at 2.
  rewrite <- (insert_delete_eq (rt_sensors h)).
  rewrite !map_filter_insert. simpl. rewrite Hc.
  destruct (decide (coordinator s = c)); [|done].
  rewrite !map_to_list_insert
    by (apply map_lookup_filter_None; left; apply lookup_delete_eq).
  rewrite !fmap_cons. simpl. by rewrite Hm.
Qed.

Lemma created_metadata_none h c :
  (forall e s, rt_sensors h !! e = Some s -> coordinator s <> c) ->
  created_metadata h c = [].
Proof.
  intros Hnone. unfold created_metadata, sensors_of.
  replace (filter _ (rt_sensors h)) with (∅ : gmap loc (@TibberSensorRT num));
    [by rewrite map_to_list_empty|].
  symmetry. apply map_empty_filter_2. intros e s Hs. simpl.
  by apply (Hnone e s).
Qed.

Lemma built_fixed home s s' :
  fixed_attributes s' = fixed_attributes s -> built home s -> built home s'.
Proof.
  unfold fixed_attributes, built. intros [= -> _ -> -> -> -> -> ->]. done.
Qed.

Lemma table_ok_module_init now entropy er dr :
  table_ok (@module_init num HC now entropy er dr).
Proof.
  split; simpl; intros ??; by rewrite lookup_empty.
Qed.

(** Each change keeps the second invariant. *)
Lemma table_ok_step h h' :
  store_ok h -> table_ok h -> step h h' -> table_ok h'.
Proof.
  intros Hok [Hp Hb Hs Hr] Hstep.
  destruct Hstep as [h' Hl Hc Hrt|c co data Hco|e s s' He Hfix Hst Hlr
                     |ref c co Hl Hc Hco|c co l x l' e s Hco Hl Hx Hrm He
                                          Hsc Hsm Hbuilt Hst Hlr].
  - split.
    + intros c co. unfold pending, created_metadata, sensors_of.
      rewrite Hl, Hc, Hrt. apply Hp.
    + intros e s. rewrite Hrt, Hc. apply Hb.
    + intros e s. rewrite Hrt. apply Hs.
    + intros e s. rewrite Hrt. apply Hr.
  - split; simpl.
    + intros c0 co0 Hc0.
      assert (Hpe : pending
                (with_coordinators
                   <[c := {| Coordinator._tibber_home :=
                               Coordinator._tibber_home co;
                             Coordinator._all_sensors :=
                               Coordinator._all_sensors co;
                             Coordinator.data := data;
                             Coordinator.name := Coordinator.name co |}]> h)
                c0 = pending h c0).
      { unfold pending. simpl. destruct (decide (c = c0)) as [<-|Hne].
        - by rewrite lookup_insert_eq, Hco.
        - by rewrite lookup_insert_ne. }
      rewrite Hpe.
      destruct (decide (c = c0)) as [<-|Hne]; [by eapply Hp|].
      rewrite lookup_insert_ne in Hc0 by done. by eapply Hp.
    + intros e s Hes. destruct (Hb e s Hes) as (co0 & Hc0 & Hb0).
      destruct (decide (c = coordinator s)) as [->|Hne].
      * rewrite lookup_insert_eq. eexists. split; [done|]. simpl.
        by simplify_eq.
      * rewrite lookup_insert_ne by done. eauto.
    + done.
    + done.
  - assert (Hcs : coordinator s' = coordinator s)
      by (unfold fixed_attributes in Hfix; congruence).
    assert (Hms : _metadata s' = _metadata s)
      by (unfold fixed_attributes in Hfix; congruence).
    split; simpl.
    + intros c co Hc.
      change (pending (with_rt_sensors <[e := s']> h) c) with (pending h c).
      rewrite (created_metadata_update h c e s s') by done. by eapply Hp.
    + intros e0 s0. destruct (decide (e = e0)) as [<-|Hne].
      * rewrite lookup_insert_eq. intros [= <-].
        destruct (Hb e s He) as (co0 & Hc0 & Hb0). exists co0.
        rewrite Hcs. split; [done|]. by eapply built_fixed.
      * rewrite lookup_insert_ne by done. apply Hb.
    + intros e0 s0. destruct (decide (e = e0)) as [<-|Hne].
      * rewrite lookup_insert_eq. intros [= <-]. apply Hst. by eapply Hs.
      * rewrite lookup_insert_ne by done. apply Hs.
    + intros e0 s0. destruct (decide (e = e0)) as [<-|Hne].
      * rewrite lookup_insert_eq. intros [= <-]. rewrite Hms.
        destruct Hlr as [->|[? ?]]; [by eapply Hr|done].
      * rewrite lookup_insert_ne by done. apply Hr.
  - assert (Hother : forall c0 co0, coordinators h !! c0 = Some co0 ->
                       Coordinator._all_sensors co0 <> ref).
    { intros c0 co0 Hc0 E. destruct (ok_own_list _ Hok _ _ Hc0)
        as (_ & l & Hl0 & _). rewrite E in Hl0. congruence. }
    split; simpl.
    + intros c0 co0. destruct (decide (c = c0)) as [<-|Hne].
      * rewrite lookup_insert_eq. intros [= <-].
        unfold pending. simpl. rewrite lookup_insert_eq, Hco, lookup_insert_eq.
        simpl. rewrite created_metadata_none; [by rewrite ?app_nil_r|].
        intros e s Hes Hcs. destruct (Hb e s Hes) as (co0 & Hc0 & _).
        simpl in Hes. congruence.
      * rewrite lookup_insert_ne by done. intros Hc0.
        unfold pending. simpl. rewrite lookup_insert_ne, Hc0 by done.
        rewrite lookup_insert_ne by (intros E; by eapply Hother).
        specialize (Hp c0 co0 Hc0). unfold pending in Hp.
        by rewrite Hc0 in Hp.
    + intros e s Hes. destruct (Hb e s Hes) as (co0 & Hc0 & Hb0).
      exists co0. split; [|done]. rewrite lookup_insert_ne; [done|].
      intros E. rewrite E in Hc. congruence.
    + done.
    + done.
  - split; simpl.
    + intros c0 co0 Hc0. rewrite created_metadata_new by done.
      unfold pending. simpl. rewrite Hc0.
      destruct (decide (c = c0)) as [<-|Hne].
      * simplify_eq. rewrite lookup_insert_eq. simpl.
        rewrite decide_True by done.
        specialize (Hp _ _ Hco). unfold pending in Hp. rewrite Hco, Hl in Hp.
        simpl in Hp. rewrite <- Hp.
        apply remove_first_split in Hrm as (l1 & l2 & -> & ->).
        rewrite <- !app_assoc. simpl.
        rewrite <- (Permutation_middle l2). by rewrite <- Permutation_middle.
      * rewrite decide_False by congruence. simpl.
        rewrite lookup_insert_ne.
        -- specialize (Hp _ _ Hc0). unfold pending in Hp.
           by rewrite Hc0 in Hp.
        -- intros E. apply Hne. by eapply (ok_no_alias _ Hok).
    + intros e0 s0. destruct (decide (e = e0)) as [<-|Hne].
      * rewrite lookup_insert_eq. intros [= <-]. exists co. by rewrite Hsc.
      * rewrite lookup_insert_ne by done. apply Hb.
    + intros e0 s0. destruct (decide (e = e0)) as [<-|Hne].
      * rewrite lookup_insert_eq. by intros [= <-].
      * rewrite lookup_insert_ne by done. apply Hs.
    + intros e0 s0. destruct (decide (e = e0)) as [<-|Hne].
      * rewrite lookup_insert_eq. intros [= <-]. by rewrite Hsm.
      * rewrite lookup_insert_ne by done. apply Hr.
Qed.

Lemma table_ok_steps h h' : steps h h' -> table_ok h -> table_ok h'.
Proof.
  induction 1 as [|h1 h2 _ IH Hok Hstep]; [done|].
  intros Ht. eapply table_ok_step; [exact Hok| |exact Hstep]. by apply IH.
Qed.

End TableFacts.

Section StepFacts.
Context {num : Type} {PN : PyNumber num} {HC : HostConst} {DU : DtUtil}.
Implicit Types (h : @hass num) (d : gmap string (pyval num))
  (l : list TibberSensorMetadata) (x : TibberSensorMetadata)
  (s : @TibberSensorRT num).

(** ** Every method of the module is a run of changes *)

Lemma get_live_measurement_steps h self r h' :
  store_ok h -> get_live_measurement self h = (r, h') -> steps h h'.
Proof.
  intros Hok E. destruct (get_live_measurement_frame _ _ _ _ E) as (?&?&?&_).
  by apply steps_host.
Qed.

Lemma handle_update_steps h self :
  store_ok h -> steps h (snd (_handle_coordinator_update self h)).
Proof.
  intros Hok. destruct (rt_sensors h !! self) as [s|] eqn:Hs.
  2:{ unfold _handle_coordinator_update. unfold_M. rewrite Hs. simpl.
      apply steps_refl. }
  destruct (_handle_coordinator_update self h) as [r h'] eqn:E. simpl.
  destruct (handle_update_shape _ _ _ _ _ Hs E) as (h1 & Hh1 & Hcase).
  assert (H1 : steps h h1 /\ store_ok h1 /\ rt_sensors h1 !! self = Some s).
  { destruct Hh1 as [->|[e ->]].
    - split; [apply steps_refl|done].
    - split; [by apply steps_host|]. split; [by apply store_ok_call|done]. }
  destruct H1 as (Hsteps & Hok1 & Hs1).
  destruct Hcase as [->|[(lr & e & _ & -> & Hlr & Hr)
                        |(lr & st & _ & Hst & -> & Hr)]].
  - done.
  - eapply steps_snoc; [exact Hsteps|exact Hok1|].
    eapply (step_sensor h1 self s); [exact Hs1|reflexivity|done|].
    right. split; [done|]. destruct Hr as [-> | ->]; by eexists.
  - eapply (steps_snoc _
              (with_rt_sensors
                 <[self := set_attr_state st (set_attr_last_reset lr s)]> h1));
      [eapply steps_snoc; [exact Hsteps|exact Hok1|]| |].
    + eapply (step_sensor h1 self s); [exact Hs1|reflexivity|done|].
      destruct Hr as [->|(Hlr & Hr)]; [by left|right].
      split; [done|]. destruct Hr as [-> | ->]; by eexists.
    + by eapply store_ok_update_sensor.
    + apply step_host; reflexivity.
Qed.

Lemma set_data_steps h c data :
  store_ok h -> steps h (snd (set_data c data h)).
Proof.
  intros Hok. unfold set_data. unfold_M.
  destruct (coordinators h !! c) as [co|] eqn:Hco; simpl;
    [|apply steps_refl].
  apply steps_one; [done|]. by apply step_data.
Qed.

Lemma add_sensors_loop_steps fuel self lm index new_entities h r h' :
  store_ok h ->
  _add_sensors_loop fuel self lm index new_entities h = (r, h') ->
  steps h h'.
Proof.
  revert index new_entities h.
  induction fuel as [|fuel IH]; intros index acc h Hok; simpl.
  { intros [= <- <-]. apply steps_refl. }
  unfold_M.
  destruct (coordinators h !! self) as [co|] eqn:Hco;
    [|intros [= <- <-]; apply steps_refl].
  destruct (lists h !! Coordinator._all_sensors co) as [l|] eqn:Hl;
    [|intros [= <- <-]; apply steps_refl].
  destruct (l !! index) as [x|] eqn:Hx;
    [|intros [= <- <-]; apply steps_refl].
  destruct (Py.get lm (key x) PNone) as [state|];
    [|intros [= <- <-]; apply steps_refl].
  destruct (Py.is_none state) eqn:Hnone.
  { by apply IH. }
  unfold TibberSensorRT__init__, list_remove. unfold_M. simpl. rewrite Hl.
  assert (Hin : x ∈ l) by (eapply list_elem_of_lookup_2; eauto).
  destruct (remove_first_elem _ _ Hin) as [l' Hrm]. rewrite Hrm.
  set (e := fresh (dom (rt_sensors h))).
  assert (He : rt_sensors h !! e = None) by apply not_elem_of_dom, is_fresh.
  intros E. eapply steps_trans; [|eapply IH; [|exact E]].
  - apply steps_one; [done|].
    eapply (step_create h self co l x l' e); try done.
    + simpl. by intros ->.
    + simpl. destruct (reset_type x) as [[]|]; split; intros [? ?];
        by eauto.
  - eapply store_ok_new_sensor; eauto.
Qed.

Lemma add_sensors_steps h self :
  store_ok h -> steps h (snd (_add_sensors self h)).
Proof.
  intros Hok. unfold _add_sensors. unfold_M.
  destruct (get_live_measurement self h) as [[lm|e] h1] eqn:Hlm;
    pose proof (store_ok_get_live_measurement _ _ _ _ Hok Hlm) as Hok1;
    pose proof (get_live_measurement_steps _ _ _ _ Hok Hlm) as Hsteps1;
    [|done].
  destruct (Py.truthy lm); cbn [negb]; [|done].
  destruct (coordinators h1 !! self) as [co|]; [|done].
  destruct (lists h1 !! Coordinator._all_sensors co) as [l|]; [|done].
  destruct (_add_sensors_loop (S (length l)) self lm 0 [] h1)
    as [[new|e] h2] eqn:Hloop;
    pose proof (add_sensors_loop_steps _ _ _ _ _ _ _ _ Hok1 Hloop) as Hsteps2;
    [|exact (steps_trans _ _ _ Hsteps1 Hsteps2)].
  assert (Hok2 : store_ok h2).
  { assert (Hinv : loop_ok h1 []).
    { split; [done|]. split; [rewrite app_nil_r;
                              apply (ok_registered_once _ Hok1)
                             |by intros ? ?%elem_of_nil]. }
    by destruct (add_sensors_loop_ok _ _ _ _ _ _ _ _ Hinv Hloop). }
  assert (Hfin : steps h
            (with_calls
               (fun cs => cs ++ [async_add_entities (RtEntity <$> new) false])
               h2)).
  { eapply steps_trans; [exact Hsteps1|]. eapply steps_trans; [exact Hsteps2|].
    by apply steps_host. }
  destruct new as [|e new];
    [exact (steps_trans _ _ _ Hsteps1 Hsteps2)|exact Hfin].
Qed.

Lemma coordinator_init_steps h tibber_home :
  store_ok h ->
  steps h (snd (TibberRtDataCoordinator__init__ tibber_home h)).
Proof.
  intros Hok. unfold TibberRtDataCoordinator__init__. unfold_M.
  rewrite (ok_module_list _ Hok). simpl.
  eapply steps_snoc; [apply steps_one; [exact Hok|]| |].
  - eapply (step_coordinator h (fresh (dom (lists h)))
              (fresh (dom (coordinators h)))
              {| Coordinator._tibber_home := tibber_home;
                 Coordinator._all_sensors := fresh (dom (lists h));
                 Coordinator.data := PNone;
                 Coordinator.name :=
                   default (Some "Tibber")
                     (info_address tibber_home !! "address1") |});
      [| |reflexivity]; apply not_elem_of_dom, is_fresh.
  - apply store_ok_new_coordinator; try done;
      [apply not_elem_of_dom, is_fresh..|apply RT_SENSORS_keys_NoDup].
  - by apply step_host.
Qed.

Lemma subscribe_steps (home : TibberHome) h :
  store_ok h ->
  steps h (snd ((if has_real_time_consumption home
                 then c ← TibberRtDataCoordinator__init__ home;
                      call (home_rt_subscribe (home_id home) c);;
                      lift (rt_subscribe home)
                 else mret tt) h)).
Proof.
  intros Hok. destruct (has_real_time_consumption home); [|apply steps_refl].
  pose proof (coordinator_init_steps h home Hok) as Hsteps.
  destruct (coordinator_init_ok h home Hok) as (c & h' & E & Hok' & _).
  unfold_M. rewrite E in *. simpl in *.
  eapply steps_trans; [exact Hsteps|]. by apply steps_host.
Qed.

Lemma setup_home_steps entry_id (entities : list (@entity num))
  (home : TibberHome) h :
  store_ok h -> steps h (snd (setup_home entry_id entities home h)).
Proof.
  intros Hok. unfold setup_home.
  destruct (update_info home) as [u|e] eqn:Hu.
  2:{ unfold_M.
      destruct e; simpl; first [apply steps_refl|by apply steps_host]. }
  set (h0 := if has_active_subscription home
             then with_draws (S (draws h)) h else h).
  assert (Hok0 : store_ok h0).
  { unfold h0. destruct (has_active_subscription home); [|done].
    by apply store_ok_with_draws. }
  assert (Hsteps0 : steps h h0).
  { unfold h0. destruct (has_active_subscription home);
      [by apply steps_host|apply steps_refl]. }
  pose proof (subscribe_steps home h0 Hok0) as Hsteps1.
  destruct (subscribe_ok home h0 Hok0) as (h1 & E1 & Hok1 & _).
  rewrite E1 in Hsteps1. simpl in Hsteps1.
  pose proof (steps_trans _ _ _ Hsteps0 Hsteps1) as Hsteps.
  unfold h0 in E1. clear Hok0 Hsteps0 Hsteps1. clearbody h0. unfold_M.
  destruct (has_active_subscription home); rewrite E1;
    (destruct (if has_real_time_consumption home
               then rt_subscribe home else Ok tt) as [[]|e];
     [|exact Hsteps]);
    (destruct (info_consumptionEan home) as [old_id|];
     [destruct (entity_registry h1 !! old_id);
      (destruct (device_registry _ !! old_id) as [dev|];
       [destruct (bool_decide (entry_id ∈ config_entries dev))|])|]);
    simpl; first [exact Hsteps
                 | eapply steps_trans; [exact Hsteps|]; by apply steps_host].
Qed.

Lemma setup_homes_steps entry_id homes (entities : list (@entity num)) h :
  store_ok h -> steps h (snd (setup_homes entry_id homes entities h)).
Proof.
  revert entities h. induction homes as [|home homes IH]; intros entities h Hok.
  - apply steps_refl.
  - simpl. unfold_M.
    pose proof (setup_home_steps entry_id entities home h Hok) as Hsteps.
    destruct (setup_home entry_id entities home h) as [[es|e] h1] eqn:E1;
      [|exact Hsteps].
    destruct (setup_home_ok _ _ _ _ _ _ Hok E1) as (Hok1 & _).
    eapply steps_trans; [exact Hsteps|]. by apply IH.
Qed.

Lemma async_setup_entry_steps entry_id homes h :
  store_ok h -> steps h (snd (async_setup_entry entry_id homes h)).
Proof.
  intros Hok. unfold async_setup_entry. unfold_M.
  pose proof (setup_homes_steps entry_id homes [] h Hok) as Hsteps.
  destruct (setup_homes entry_id homes [] h) as [[es|e] h1] eqn:E;
    [|exact Hsteps].
  destruct (setup_homes_ok _ _ _ _ _ _ Hok E) as (Hok1 & _).
  eapply steps_trans; [exact Hsteps|]. by apply steps_host.
Qed.

Lemma perform_steps a h : store_ok h -> steps h (perform a h).
Proof.
  intros Hok. destruct a as [entry_id homes|c data|c|e|c|t]; simpl.
  - by apply async_setup_entry_steps.
  - by apply set_data_steps.
  - by apply add_sensors_steps.
  - by apply handle_update_steps.
  - by apply steps_host.
  - by apply steps_host.
Qed.

Lemma perform_all_steps acts h : store_ok h -> steps h (perform_all acts h).
Proof.
  revert h. induction acts as [|a acts IH]; intros h Hok; [apply steps_refl|].
  simpl. eapply steps_trans; [by apply perform_steps|].
  by apply IH, store_ok_perform.
Qed.

Lemma table_ok_reachable acts now entropy er dr :
  table_ok (perform_all acts (@module_init num HC now entropy er dr)).
Proof.
  eapply table_ok_steps; [|apply table_ok_module_init].
  apply perform_all_steps, store_ok_module_init.
Qed.

End StepFacts.

Section TableTheorems.
Context {num : Type} {PN : PyNumber num} {HC : HostConst} {DU : DtUtil}.
Implicit Types (h : @hass num) (s : @TibberSensorRT num).

Lemma created_metadata_elem h e s :
  rt_sensors h !! e = Some s ->
  _metadata s ∈ created_metadata h (coordinator s).
Proof.
  intros Hs. unfold created_metadata, sensors_of.
  apply list_elem_of_fmap. exists (e, s). split; [done|].
  apply elem_of_map_to_list, map_lookup_filter_Some. by split.
Qed.

Lemma created_keys_metadata h c :
  created_keys h c = key <$> created_metadata h c.
Proof.
  unfold created_keys, created_metadata. by rewrite <- list_fmap_compose.
Qed.

Lemma string_app_inj_r (p a b : string) : p +:+ a = p +:+ b -> a = b.
Proof. induction p as [|c p IH]; simpl; [done|]. intros [= E]. auto. Qed.

Lemma NoDup_fmap_eq {A B} (f : A -> B) (k : list A) (a b : A) :
  NoDup (f <$> k) -> a ∈ k -> b ∈ k -> f a = f b -> a = b.
Proof.
  induction k as [|y k IH]; intros Hnd Ha Hb Hf; [by apply elem_of_nil in Ha|].
  rewrite fmap_cons in Hnd. apply NoDup_cons in Hnd as (Hy & Hnd).
  apply elem_of_cons in Ha as [->|Ha]; apply elem_of_cons in Hb as [->|Hb].
  - done.
  - exfalso. apply Hy. rewrite Hf. by apply list_elem_of_fmap_2.
  - exfalso. apply Hy. rewrite <- Hf. by apply list_elem_of_fmap_2.
  - by apply IH.
Qed.

(** X9.  In any store the module can be in, for every coordinator: its
    pending descriptors and the descriptors of the sensors it has made are
    together the records of [RT_SENSORS], each once.  So no descriptor is
    lost, none is served twice, and the pending descriptors and the
    sensors are 21 together. *)
Theorem descriptors_partition acts now entropy er dr c :
  let h := perform_all acts (@module_init num HC now entropy er dr) in
  is_Some (coordinators h !! c) ->
  pending h c ++ created_metadata h c ≡ₚ RT_SENSORS
  /\ length (pending h c) + length (created_keys h c) = 21.
Proof.
  intros h [co Hco].
  pose proof (table_ok_reachable acts now entropy er dr) as Htk. fold h in Htk.
  pose proof (tk_partition _ Htk _ _ Hco) as Hp. split; [exact Hp|].
  rewrite created_keys_metadata, length_fmap, <- length_app, Hp. reflexivity.
Qed.

(** X10.  In any store the module can be in, every real-time sensor
    shows a state that is not [None], has a [last_reset] exactly when its
    metadata has a reset type, has one of the records of [RT_SENSORS] as
    metadata, and has the home, the device name, the model, the device
    class, the name, the unique id, the unit and the state class that its
    constructor computes from the home of its coordinator and from that
    record: no update changes them. *)
Theorem sensors_as_constructed acts now entropy er dr e s :
  let h := perform_all acts (@module_init num HC now entropy er dr) in
  rt_sensors h !! e = Some s ->
  _attr_state s <> PNone
  /\ (is_Some (_attr_last_reset s) <-> is_Some (reset_type (_metadata s)))
  /\ _metadata s ∈ RT_SENSORS
  /\ exists co, coordinators h !! coordinator s = Some co
       /\ built (Coordinator._tibber_home co) s.
Proof.
  intros h Hs.
  pose proof (table_ok_reachable acts now entropy er dr) as Htk. fold h in Htk.
  split; [by eapply (tk_state _ Htk)|].
  split; [by eapply (tk_last_reset _ Htk)|].
  destruct (tk_built _ Htk _ _ Hs) as (co & Hco & Hb).
  split; [|by exists co].
  rewrite <- (tk_partition _ Htk _ _ Hco). apply elem_of_app. right.
  by eapply created_metadata_elem.
Qed.

(** X11.  In any store the module can be in, two sensors of one
    coordinator have different unique ids, and the same device info: its
    one identifier is the integration's domain with the id of the
    coordinator's home, and its model is "Tibber Pulse". *)
Theorem sensors_of_a_coordinator acts now entropy er dr e1 e2 s1 s2 :
  let h := perform_all acts (@module_init num HC now entropy er dr) in
  rt_sensors h !! e1 = Some s1 -> rt_sensors h !! e2 = Some s2 ->
  coordinator s1 = coordinator s2 ->
  (_attr_unique_id s1 = _attr_unique_id s2 -> e1 = e2)
  /\ device_info (rt_sensor s1) = device_info (rt_sensor s2)
  /\ exists co, coordinators h !! coordinator s1 = Some co
       /\ DeviceInfo.identifiers (device_info (rt_sensor s1))
          = {[ (TIBBER_DOMAIN, home_id (Coordinator._tibber_home co)) ]}
       /\ DeviceInfo.model (device_info (rt_sensor s1)) = Some "Tibber Pulse".
Proof.
  intros h Hs1 Hs2 Hc.
  pose proof (table_ok_reachable acts now entropy er dr) as Htk. fold h in Htk.
  pose proof (store_ok_reachable acts now entropy er dr) as Hok. fold h in Hok.
  destruct (tk_built _ Htk _ _ Hs1) as (co1 & Hco1 & Hb1).
  destruct (tk_built _ Htk _ _ Hs2) as (co2 & Hco2 & Hb2).
  rewrite <- Hc, Hco1 in Hco2. injection Hco2 as <-.
  destruct Hb1 as (Hrt1 & _ & _ & Hid1 & _).
  destruct Hb2 as (Hrt2 & _ & _ & Hid2 & _).
  split; [|split].
  - intros Hid. rewrite Hid1, Hid2 in Hid.
    do 2 apply string_app_inj_r in Hid.
    assert (Hm : _metadata s1 = _metadata s2).
    { eapply (NoDup_fmap_eq name RT_SENSORS);
        [apply RT_SENSORS_names_NoDup| | |done].
      - rewrite <- (tk_partition _ Htk _ _ Hco1). apply elem_of_app. right.
        by eapply created_metadata_elem.
      - rewrite <- (tk_partition _ Htk _ _ Hco1). apply elem_of_app. right.
        rewrite Hc. by eapply created_metadata_elem. }
    eapply (ok_one_per_key _ Hok); eauto. by rewrite Hm.
  - by rewrite Hrt1, Hrt2.
  - exists co1. rewrite Hrt1. by split.
Qed.

End TableTheorems.

(** ** The price sensor under a run of updates *)

Section PriceSensorFacts.
Context {num : Type} {PN : PyNumber num} {HC : HostConst}.
Implicit Types (w : @ElPrice.world num) (env : @ElPrice.environment num)
  (s : @ElPrice.t num).

Lemma price_sensor_ok_refl s : price_sensor_ok s s.
Proof. repeat split; try done. by left. Qed.

Lemma price_sensor_ok_trans s0 s1 s2 :
  price_sensor_ok s0 s1 -> price_sensor_ok s1 s2 -> price_sensor_ok s0 s2.
Proof.
  intros (?&?&?&?&?&Hd1&Hl) (?&?&?&?&?&Hd2&Hr).
  do 5 (split; [congruence|]). split; [by etrans|].
  destruct Hr as [(Ha & Hst)|Hr]; [|by right].
  destruct Hl as [(Ha1 & Hst1)|Hl]; [left; split; congruence|].
  right. congruence.
Qed.

Lemma read_price_ok w :
  price_sensor_ok (ElPrice.self w) (ElPrice.self (ElPrice.read_price w)).
Proof.
  unfold ElPrice.read_price.
  destruct (ElPrice.current_price_data (ElPrice.home w)) as [[st lv] lu].
  repeat split; simpl; [|by right]. rewrite dom_union, dom_insert. set_solver.
Qed.

Lemma fetch_data_ok env w :
  price_sensor_ok (ElPrice.self w)
    (ElPrice.self (snd (ElPrice._fetch_data env w))).
Proof.
  unfold ElPrice._fetch_data, ElPrice._fetch_data_body.
  destruct (ElPrice.Throttle _ _ _ _) as [[] last]; simpl;
    [|apply price_sensor_ok_refl].
  destruct (ElPrice.update_info_and_price_info env) as [|[]]; simpl;
    repeat split; try done; try (by left).
  simpl. rewrite !dom_insert. set_solver.
Qed.

Lemma async_update_ok env w :
  price_sensor_ok (ElPrice.self w)
    (ElPrice.self (snd (ElPrice.async_update env w))).
Proof.
  unfold ElPrice.async_update.
  destruct (_ || _).
  - pose proof (fetch_data_ok env w) as Hf.
    destruct (ElPrice._fetch_data env w) as [[u|e] w1]; simpl in *; [|done].
    eapply price_sensor_ok_trans; [exact Hf|apply read_price_ok].
  - destruct (_ && _); simpl; [apply price_sensor_ok_refl|apply read_price_ok].
Qed.

Lemma async_updates_ok envs w :
  price_sensor_ok (ElPrice.self w)
    (ElPrice.self (ElPrice.async_updates envs w)).
Proof.
  revert w. induction envs as [|env envs IH]; intros w;
    [apply price_sensor_ok_refl|].
  simpl. eapply price_sensor_ok_trans; [apply async_update_ok|apply IH].
Qed.

(** X12.  A price sensor after any run of [async_update] calls from its
    construction: either it is unavailable and shows the state that the
    host gives a sensor whose state was never assigned, [STATE_UNKNOWN],
    or it is available exactly when its state is not [None].  After one
    more call that returns, it is available exactly when its state is not
    [None]. *)
Theorem price_sensor_available tibber_home randrange home envs env :
  let w := ElPrice.async_updates envs
             {| ElPrice.self := ElPrice.__init__ tibber_home randrange;
                ElPrice.home := home; ElPrice.fetches := [] |} in
  let s := ElPrice.self w in
  let s' := ElPrice.self (snd (ElPrice.async_update env w)) in
  (ElPrice._attr_available s = false
   /\ ElPrice._attr_state s = PStr STATE_UNKNOWN
   \/ ElPrice._attr_available s = negb (Py.is_none (ElPrice._attr_state s)))
  /\ (fst (ElPrice.async_update env w) = Ok tt ->
      ElPrice._attr_available s'
      = negb (Py.is_none (ElPrice._attr_state s'))).
Proof.
  intros w s s'.
  assert (Hs : ElPrice._attr_available s = false
               /\ ElPrice._attr_state s = PStr STATE_UNKNOWN
               \/ ElPrice._attr_available s
                  = negb (Py.is_none (ElPrice._attr_state s))).
  { subst s w.
    match goal with
    | |- context [ElPrice.async_updates envs ?w0] =>
        destruct (async_updates_ok envs w0) as (_&_&_&_&_&_&[(Ha & Hst)|H])
    end; [left; by rewrite Ha, Hst|by right]. }
  split; [exact Hs|].
  subst s'. unfold ElPrice.async_update. fold s.
  destruct (_ || negb (ElPrice._attr_available s)) eqn:Hdue.
  - destruct (ElPrice._fetch_data env w) as [[u|e] w1]; simpl; [|done].
    intros _. unfold ElPrice.read_price.
    by destruct (ElPrice.current_price_data (ElPrice.home w1)) as [[st lv] lu].
  - apply orb_false_iff in Hdue as (_ & Ha). apply negb_false_iff in Ha.
    destruct (_ && _); simpl; intros _.
    + destruct Hs as [(Hna & _)|Hs]; [congruence|exact Hs].
    + unfold ElPrice.read_price.
      by destruct (ElPrice.current_price_data (ElPrice.home w)) as [[st lv] lu].
Qed.

(** X13.  A price sensor, from its construction on, under any run of
    [async_update] calls: its extra state attributes keep the ten keys
    that the constructor gives them. *)
Theorem price_sensor_attribute_keys tibber_home randrange home envs :
  let s := ElPrice.self
             (ElPrice.async_updates envs
                {| ElPrice.self := ElPrice.__init__ tibber_home randrange;
                   ElPrice.home := home; ElPrice.fetches := [] |}) in
  Forall (fun k => is_Some (ElPrice._attr_extra_state_attributes s !! k))
    ["app_nickname"; "grid_company"; "estimated_annual_consumption";
     "price_level"; "max_price"; "avg_price"; "min_price"; "off_peak_1";
     "peak"; "off_peak_2"].
Proof.
  intros s. subst s.
  match goal with
  | |- context [ElPrice.async_updates envs ?w0] =>
      destruct (async_updates_ok envs w0) as (_&_&_&_&_&H&_)
  end.
  apply Forall_forall. intros k Hk. apply elem_of_dom, H, elem_of_dom.
  simpl in *. set_unfold in Hk.
  destruct Hk as [->|[->|[->|[->|[->|[->|[->|[->|[->|[->|[]]]]]]]]]]];
    by eexists.
Qed.

(** X14.  A price sensor, from its construction on, under any run of
    [async_update] calls: its icon, its unique id (the id of the home) and
    its name ("Electricity price " and the home's nickname, or else the
    first line of its address, or else nothing) stay as constructed, and
    so does its device info, which has the integration's domain with the
    home's id as its one identifier, the sensor's name as name and "Price
    Sensor" as model. *)
Theorem price_sensor_identity tibber_home randrange home envs :
  let s := ElPrice.self
             (ElPrice.async_updates envs
                {| ElPrice.self := ElPrice.__init__ tibber_home randrange;
                   ElPrice.home := home; ElPrice.fetches := [] |}) in
  ElPrice._attr_icon s = "mdi:currency-usd"
  /\ ElPrice._attr_unique_id s = home_id tibber_home
  /\ ElPrice._attr_name s
     = "Electricity price "
       +:+ match info_appNickname tibber_home with
           | Some nickname => nickname
           | None =>
               match info_address tibber_home !! "address1" with
               | Some address1 => py_str address1
               | None => ""
               end
           end
  /\ device_info (ElPrice.sensor s)
     = {| DeviceInfo.identifiers :=
            {[ (TIBBER_DOMAIN, home_id tibber_home) ]};
          DeviceInfo.name := Some (ElPrice._attr_name s);
          DeviceInfo.manufacturer := MANUFACTURER;
          DeviceInfo.model := Some "Price Sensor" |}.
Proof.
  intros s. subst s.
  match goal with
  | |- context [ElPrice.async_updates envs ?w0] =>
      destruct (async_updates_ok envs w0) as (H1&_&H3&H4&H5&_&_)
  end.
  rewrite H1, H3, H4, H5. clear H1 H3 H4 H5.
  assert (Hname : py_str (_home_name (TibberSensor__init__ tibber_home))
          = match info_appNickname tibber_home with
            | Some nickname => nickname
            | None =>
                match info_address tibber_home !! "address1" with
                | Some address1 => py_str address1
                | None => ""
                end
            end).
  { unfold TibberSensor__init__. simpl.
    destruct (info_appNickname tibber_home); [done|].
    by destruct (info_address tibber_home !! "address1"). }
  unfold device_info, ElPrice.__init__.
  cbn [ElPrice.self ElPrice._attr_icon ElPrice._attr_unique_id
       ElPrice._attr_name ElPrice.sensor _tibber_home _device_name _model].
  by rewrite Hname.
Qed.

(** X15.  [async_update] returns when the vendor's
    [update_info_and_price_info] returns, times out or fails with a client
    error.  It raises only when the fetch was due and that call raised
    something else; the exception is then that one, and the state, the
    availability and the extra state attributes are as before. *)
Theorem async_update_raises env w :
  let r := fst (ElPrice.async_update env w) in
  let w' := snd (ElPrice.async_update env w) in
  (ElPrice.update_info_and_price_info env = Ok tt
   \/ ElPrice.update_info_and_price_info env = Raise asyncio_TimeoutError
   \/ ElPrice.update_info_and_price_info env = Raise aiohttp_ClientError ->
   r = Ok tt)
  /\ (forall e, r = Raise e ->
        ElPrice.update_info_and_price_info env = Raise e
        /\ ElPrice.fetches w' = ElPrice.fetches w ++ [ElPrice.utcnow_check env]
        /\ ElPrice._attr_state (ElPrice.self w')
           = ElPrice._attr_state (ElPrice.self w)
        /\ ElPrice._attr_available (ElPrice.self w')
           = ElPrice._attr_available (ElPrice.self w)
        /\ ElPrice._attr_extra_state_attributes (ElPrice.self w')
           = ElPrice._attr_extra_state_attributes (ElPrice.self w)).
Proof.
  intros r w'. subst r w'.
  unfold ElPrice.async_update, ElPrice._fetch_data, ElPrice._fetch_data_body.
  destruct (_ || _).
  - destruct (ElPrice.Throttle _ _ _ _) as [[] last]; simpl.
    + destruct (ElPrice.update_info_and_price_info env) as [[]|[]]; simpl;
        (split; [intros [?|[?|?]]; congruence|]);
        intros e0 [= <-]; done.
    + split; [done|]. intros e0 [=].
  - destruct (_ && _); simpl; (split; [done|]); intros e0 [=].
Qed.

(** X16.  The first [async_update] of a price sensor always runs the body
    of [_fetch_data], whatever the clock and the vendor's data are: a new
    sensor is not available, and the throttle has no run on record. *)
Theorem first_update_fetches tibber_home randrange home env :
  ElPrice.fetches
    (snd (ElPrice.async_update env
            {| ElPrice.self := ElPrice.__init__ tibber_home randrange;
               ElPrice.home := home; ElPrice.fetches := [] |}))
  = [ElPrice.utcnow_check env].
Proof.
  unfold ElPrice.async_update. simpl. rewrite orb_true_r.
  unfold ElPrice._fetch_data, ElPrice._fetch_data_body. simpl.
  destruct (ElPrice.update_info_and_price_info env) as [[]|[]]; simpl;
    try done;
    match goal with
    | |- context [ElPrice.read_price ?w] =>
        by destruct (read_price_throttle w) as (-> & _)
    end.
Qed.

End PriceSensorFacts.

(** ** Objects stay *)

Section LaterFacts.
Context {num : Type} {PN : PyNumber num} {HC : HostConst} {DU : DtUtil}.
Implicit Types (h : @hass num) (s : @TibberSensorRT num).

Lemma later_refl h : later h h.
Proof. split; [intros c co Hco; exists co|intros e s Hs; exists s]; done. Qed.

Lemma later_trans h1 h2 h3 : later h1 h2 -> later h2 h3 -> later h1 h3.
Proof.
  intros [Hc12 Hs12] [Hc23 Hs23]. split.
  - intros c co Hco.
    destruct (Hc12 c co Hco) as (co2 & Hco2 & ? & ? & ? & ?).
    destruct (Hc23 c co2 Hco2) as (co3 & Hco3 & ? & ? & ? & ?).
    exists co3. repeat split; try congruence. by etrans.
  - intros e s Hs. destruct (Hs12 e s Hs) as (s2 & Hs2 & ?).
    destruct (Hs23 e s2 Hs2) as (s3 & Hs3 & ?). exists s3.
    split; [done|congruence].
Qed.

Lemma later_step h h' : store_ok h -> step h h' -> later h h'.
Proof.
  intros Hok Hstep.
  destruct Hstep as [h' Hl Hc Hrt|c co data Hco|e s s' He Hfix Hst
                     |ref c co Hl Hc Hco|c co l x l' e s Hco Hl Hx Hrm He
                                          Hsc Hsm Hbuilt Hst].
  - split.
    + intros c co Hco. exists co. rewrite Hc. unfold pending.
      by rewrite Hc, Hl.
    + intros e s Hs. exists s. by rewrite Hrt.
  - split; [|intros e s Hs; by exists s].
    intros c0 co0 Hc0. unfold pending. simpl.
    destruct (decide (c = c0)) as [<-|Hne].
    + rewrite lookup_insert_eq. eexists. split; [done|]. simplify_eq.
      simpl. by rewrite Hco.
    + rewrite lookup_insert_ne by done. exists co0. by rewrite Hc0.
  - split; [intros c co Hco; by exists co|].
    intros e0 s0 Hs0. simpl. destruct (decide (e = e0)) as [<-|Hne].
    + rewrite lookup_insert_eq. exists s'. split; [done|]. congruence.
    + rewrite lookup_insert_ne by done. by exists s0.
  - split; [|intros e s Hs; by exists s].
    intros c0 co0 Hc0. exists co0. unfold pending. simpl.
    assert (Hne : c <> c0) by (intros E; rewrite E in Hc; congruence).
    assert (Hnr : ref <> Coordinator._all_sensors co0).
    { intros E. destruct (ok_own_list _ Hok _ _ Hc0) as (_ & l & Hl0 & _).
      rewrite E in Hl. congruence. }
    rewrite lookup_insert_ne by done.
    rewrite Hc0. split; [done|]. split; [done|]. split; [done|]. split; [done|].
    by rewrite lookup_insert_ne.
  - split.
    + intros c0 co0 Hc0. exists co0. unfold pending. simpl. rewrite Hc0.
      split; [done|]. split; [done|]. split; [done|]. split; [done|].
      destruct (decide (Coordinator._all_sensors co
                        = Coordinator._all_sensors co0)) as [E|E].
      * rewrite E, lookup_insert_eq. rewrite E in Hl. rewrite Hl. simpl.
        apply remove_first_split in Hrm as (l1 & l2 & -> & ->).
        apply sublist_app; [done|]. by apply sublist_cons.
      * by rewrite lookup_insert_ne.
    + intros e0 s0 Hs0. exists s0. simpl.
      rewrite lookup_insert_ne; [done|]. intros E. rewrite E in He.
      congruence.
Qed.

Lemma later_steps h h' : steps h h' -> later h h'.
Proof.
  induction 1 as [|h1 h2 _ IH Hok Hstep]; [apply later_refl|].
  eapply later_trans; [exact IH|]. by apply later_step.
Qed.

(** X17.  In any store the module can be in, whatever the host does
    next: a coordinator stays, with its home and its name, and gets no
    pending descriptor that it did not have, the ones it has being in the
    order they had; a sensor stays, with the home, the coordinator, the
    metadata, the device class, the name, the unique id, the unit and the
    state class it had. *)
Theorem objects_stay acts now entropy er dr more :
  let h := perform_all acts (@module_init num HC now entropy er dr) in
  let h' := perform_all more h in
  (forall c co, coordinators h !! c = Some co ->
     exists co', coordinators h' !! c = Some co'
       /\ Coordinator._tibber_home co' = Coordinator._tibber_home co
       /\ Coordinator.name co' = Coordinator.name co
       /\ pending h' c `sublist_of` pending h c)
  /\ (forall e s, rt_sensors h !! e = Some s ->
        exists s', rt_sensors h' !! e = Some s'
                   /\ fixed_attributes s' = fixed_attributes s).
Proof.
  intros h h'.
  pose proof (store_ok_reachable acts now entropy er dr) as Hok. fold h in Hok.
  destruct (later_steps h h' (perform_all_steps more h Hok)) as [Hc Hs].
  split; [|done]. intros c co Hco.
  destruct (Hc c co Hco) as (co' & ? & ? & ? & ? & ?). by exists co'.
Qed.

(** X18.  In any store the module can be in, the constructor of a
    coordinator returns a coordinator that was not there, for the given
    home, without data, named after the first line of the home's address
    ("Tibber" when the address has none), with every record of
    [RT_SENSORS] pending in a list object of its own; it adds the
    coordinator's listener and its stop handler at the host; and it leaves
    every other coordinator, every pending list and every sensor as they
    are. *)
Theorem coordinator_constructor acts now entropy er dr tibber_home :
  let h := perform_all acts (@module_init num HC now entropy er dr) in
  exists c co h',
    TibberRtDataCoordinator__init__ tibber_home h = (Ok c, h')
    /\ coordinators h !! c = None
    /\ coordinators h' = <[c := co]> (coordinators h)
    /\ Coordinator._tibber_home co = tibber_home
    /\ Coordinator.data co = PNone
    /\ Coordinator.name co
       = default (Some "Tibber") (info_address tibber_home !! "address1")
    /\ Coordinator._all_sensors co <> RT_SENSORS_ref
    /\ lists h !! Coordinator._all_sensors co = None
    /\ pending h' c = RT_SENSORS
    /\ (forall c', c' <> c -> pending h' c' = pending h c')
    /\ rt_sensors h' = rt_sensors h
    /\ calls h'
       = calls h ++ [async_add_listener c;
                     async_listen_once EVENT_HOMEASSISTANT_STOP c].
Proof.
  intros h.
  pose proof (store_ok_reachable acts now entropy er dr) as Hok. fold h in Hok.
  clearbody h. unfold TibberRtDataCoordinator__init__. unfold_M.
  rewrite (ok_module_list _ Hok). simpl.
  assert (Hc : coordinators h !! fresh (dom (coordinators h)) = None)
    by apply not_elem_of_dom, is_fresh.
  assert (Hl : lists h !! fresh (dom (lists h)) = None)
    by apply not_elem_of_dom, is_fresh.
  do 3 eexists. split; [reflexivity|]. simpl.
  split; [done|]. split; [reflexivity|]. split; [done|]. split; [done|].
  split; [done|]. split.
  { simpl. intros E. rewrite E, (ok_module_list _ Hok) in Hl. done. }
  split; [done|]. split.
  { unfold pending. simpl. by rewrite !lookup_insert_eq. }
  split; [|split; [done|by rewrite <- app_assoc]].
  intros c' Hne. unfold pending. simpl. rewrite lookup_insert_ne by done.
  destruct (coordinators h !! c') as [co'|] eqn:Hco'; [|done].
  rewrite lookup_insert_ne; [done|]. intros E.
  destruct (ok_own_list _ Hok _ _ Hco') as (_ & l & Hl' & _).
  rewrite E in Hl. congruence.
Qed.

End LaterFacts.

(** ** More on the set-up *)

Section SetupTheorems.
Context {num : Type} {PN : PyNumber num} {HC : HostConst} {DU : DtUtil}.
Implicit Types (h : @hass num) (home : TibberHome)
  (entities : list (@entity num)).

Lemma setup_homes_raises entry_id pre home post entities h e :
  store_ok h -> Forall answers pre ->
  (forall entities h0, store_ok h0 ->
     exists h', setup_home entry_id entities home h0 = (Raise e, h')
                /\ same_entities h0 h') ->
  exists h',
    setup_homes entry_id (pre ++ home :: post) entities h = (Raise e, h')
    /\ same_entities h h'.
Proof.
  revert entities h.
  induction pre as [|home0 pre IH]; intros entities h Hok Hpre Hraise.
  - simpl. unfold_M.
    destruct (Hraise entities h Hok) as (h1 & E1 & Hsame1). rewrite E1.
    by exists h1.
  - apply Forall_cons in Hpre as (Hu & Hpre). simpl. unfold_M.
    destruct (setup_home_returns entry_id entities home0 h Hok Hu)
      as (h1 & E1 & Hok1 & Hsame1). rewrite E1.
    destruct (IH (if has_active_subscription home0
                  then entities
                       ++ [ElPriceEntity
                             (ElPrice.__init__ home0 (entropy h (draws h)))]
                  else entities) h1 Hok1 Hpre Hraise)
      as (h' & E & Hsame').
    rewrite E. exists h'. split; [done|]. by eapply same_entities_trans.
Qed.

(** X19.  In any store the module can be in, the homes before it having
    been set up: an exception of a home's [update_info] that is neither a
    time-out nor a client error leaves [async_setup_entry] as it is, and
    so does any exception of [rt_subscribe], a time-out or a client error
    included, which is awaited outside the [try]; in both cases no
    [async_add_entities] call is made. *)
Theorem async_setup_entry_raises acts now entropy er dr entry_id pre home
  post e :
  let h := perform_all acts (@module_init num HC now entropy er dr) in
  Forall answers pre ->
  (update_info home = Raise e /\ e <> asyncio_TimeoutError
   /\ e <> aiohttp_ClientError)
  \/ (update_info home = Ok tt /\ has_real_time_consumption home = true
      /\ rt_subscribe home = Raise e) ->
  exists h',
    async_setup_entry entry_id (pre ++ home :: post) h = (Raise e, h')
    /\ registrations h' = registrations h.
Proof.
  intros h Hpre Hcase.
  pose proof (store_ok_reachable acts now entropy er dr) as Hok. fold h in Hok.
  destruct (setup_homes_raises entry_id pre home post [] h e Hok Hpre)
    as (h' & E & _ & Hreg & _).
  { intros entities h0 Hok0. destruct Hcase as [(Hu & H1 & H2)|(Hu & Hrt & Hs)].
    - destruct (setup_home_raises entry_id entities home h0 e Hok0 Hu)
        as (h' & E & _ & Hsame).
      exists h'. split; [|done]. rewrite E. by destruct e.
    - destruct (setup_home_after_update_info entry_id entities home h0 tt
                  Hok0 Hu) as (h' & E & _ & Hsame).
      exists h'. split; [|done]. by rewrite E, Hrt, Hs. }
  exists h'. unfold async_setup_entry. unfold_M. by rewrite E.
Qed.

End SetupTheorems.

Section SubscriptionFacts.
Context {num : Type} {PN : PyNumber num} {HC : HostConst} {DU : DtUtil}.
Implicit Types (h : @hass num) (home : TibberHome)
  (entities : list (@entity num)).

Lemma subscriptions_call h (c : @host_call num) :
  subscriptions (with_calls (fun cs => cs ++ [c]) h)
  = subscriptions h ++ match c with
                       | home_rt_subscribe home callback_of =>
                           [(home, callback_of)]
                       | _ => []
                       end.
Proof.
  unfold subscriptions. simpl. rewrite bind_app. simpl.
  by rewrite app_nil_r.
Qed.

Lemma grew_refl h : grew h h [] [].
Proof.
  split; [done|]. split; [done|]. split; constructor.
Qed.

Lemma grew_trans h h1 h2 homes1 homes2 cs1 cs2 :
  grew h h1 homes1 cs1 -> grew h1 h2 homes2 cs2 ->
  grew h h2 (homes1 ++ homes2) (cs1 ++ cs2).
Proof.
  intros (Hsub1 & Hp1 & Hnd1 & Hnew1) (Hsub2 & Hp2 & Hnd2 & Hnew2).
  split; [by etrans|]. split; [|split].
  - intros c [co Hco]. rewrite Hp2, Hp1; [done|by eexists|].
    exists co. by eapply lookup_weaken.
  - apply NoDup_app. split; [done|]. split; [|done].
    intros c Hc1 Hc2.
    apply list_elem_of_lookup in Hc1 as [i Hi].
    apply list_elem_of_lookup in Hc2 as [j Hj].
    destruct (Forall2_lookup_r _ _ _ _ _ Hnew1 Hi)
      as (home1 & _ & _ & co & Hco & _).
    destruct (Forall2_lookup_r _ _ _ _ _ Hnew2 Hj) as (home2 & _ & Hn & _).
    congruence.
  - apply Forall2_app.
    + eapply Forall2_impl; [exact Hnew1|]. simpl.
      intros home c (Hn & co & Hco & Hh & Hd & Hp). split; [done|].
      exists co. split; [by eapply lookup_weaken|].
      split; [done|]. split; [done|]. rewrite Hp2; [done|by eexists].
    + eapply Forall2_impl; [exact Hnew2|]. simpl.
      intros home c (Hn & Hrest). split; [|done].
      by eapply lookup_weaken_None.
Qed.

(** The constructor of a coordinator, in an invariant store. *)
Lemma coordinator_init_effect h home :
  store_ok h ->
  exists c h',
    TibberRtDataCoordinator__init__ home h = (Ok c, h')
    /\ store_ok h' /\ subscriptions h' = subscriptions h
    /\ rt_sensors h' = rt_sensors h /\ grew h h' [home] [c].
Proof.
  intros Hok.
  destruct (coordinator_init_ok h home Hok) as (c & h' & E & Hok' & _).
  exists c, h'. split; [exact E|]. split; [exact Hok'|].
  revert E. unfold TibberRtDataCoordinator__init__. unfold_M.
  rewrite (ok_module_list _ Hok). simpl. intros [= <- <-].
  assert (Hc : coordinators h !! fresh (dom (coordinators h)) = None)
    by apply not_elem_of_dom, is_fresh.
  assert (Hl : lists h !! fresh (dom (lists h)) = None)
    by apply not_elem_of_dom, is_fresh.
  split; [by rewrite !subscriptions_call, !app_nil_r|]. split; [done|].
  split; [by apply insert_subseteq|]. split; [|split].
  - intros c' [co' Hco']. unfold pending. simpl.
    rewrite lookup_insert_ne by (intros E; rewrite <- E in Hco'; congruence).
    rewrite Hco'. rewrite lookup_insert_ne; [done|]. intros E.
    destruct (ok_own_list _ Hok _ _ Hco') as (_ & l & Hl' & _).
    rewrite E in Hl. congruence.
  - apply NoDup_singleton.
  - constructor; [|constructor]. split; [done|]. eexists.
    split; [simpl; apply lookup_insert_eq|]. split; [done|]. split; [done|].
    unfold pending. simpl. by rewrite !lookup_insert_eq.
Qed.

Lemma subscribe_coordinators home h :
  store_ok h ->
  (has_real_time_consumption home = true -> rt_subscribe home = Ok tt) ->
  let homes := if has_real_time_consumption home then [home] else [] in
  exists h1 cs,
    (if has_real_time_consumption home
     then c ← TibberRtDataCoordinator__init__ home;
          call (home_rt_subscribe (home_id home) c);;
          lift (rt_subscribe home)
     else mret tt) h
    = (Ok tt, h1)
    /\ subscriptions h1 = subscriptions h ++ zip (home_id <$> homes) cs
    /\ rt_sensors h1 = rt_sensors h
    /\ grew h h1 homes cs.
Proof.
  intros Hok Hrt homes. subst homes.
  destruct (has_real_time_consumption home).
  2:{ exists h, []. rewrite app_nil_r. split; [done|]. split; [done|].
      split; [done|apply grew_refl]. }
  destruct (coordinator_init_effect h home Hok)
    as (c & h' & E & Hok' & Hsubs & Hrts & Hgrew).
  unfold_M. rewrite E, Hrt by done. eexists _, [c].
  split; [reflexivity|]. split; [|split; [exact Hrts|exact Hgrew]].
  by rewrite subscriptions_call, Hsubs.
Qed.

Lemma setup_home_coordinators entry_id entities home h :
  store_ok h -> answers home ->
  let homes := if has_real_time_consumption home then [home] else [] in
  exists es h' cs,
    setup_home entry_id entities home h = (Ok es, h')
    /\ subscriptions h' = subscriptions h ++ zip (home_id <$> homes) cs
    /\ rt_sensors h' = rt_sensors h
    /\ grew h h' homes cs.
Proof.
  intros Hok (Hu & Hrt) homes. unfold setup_home. rewrite Hu.
  set (h0 := if has_active_subscription home
             then with_draws (S (draws h)) h else h).
  assert (Hok0 : store_ok h0).
  { unfold h0. destruct (has_active_subscription home); [|done].
    by apply store_ok_with_draws. }
  destruct (subscribe_coordinators home h0 Hok0 Hrt)
    as (h1 & cs & E1 & Hsubs & Hrts & Hgrew).
  fold homes in Hsubs, Hgrew.
  assert (Hsubs' : subscriptions h1
                   = subscriptions h ++ zip (home_id <$> homes) cs).
  { rewrite Hsubs. unfold h0. by destruct (has_active_subscription home). }
  assert (Hrts' : rt_sensors h1 = rt_sensors h).
  { rewrite Hrts. unfold h0. by destruct (has_active_subscription home). }
  assert (Hgrew' : grew h h1 homes cs).
  { unfold h0 in Hgrew. by destruct (has_active_subscription home). }
  unfold h0 in E1. clear Hok0 Hsubs Hrts Hgrew. clearbody h0 homes. unfold_M.
  destruct (has_active_subscription home); rewrite E1;
    (destruct (info_consumptionEan home) as [old_id|];
     [destruct (entity_registry h1 !! old_id);
      (destruct (device_registry _ !! old_id) as [dev|];
       [destruct (bool_decide (entry_id ∈ config_entries dev))|])|]);
    (eexists _, _, cs; split; [reflexivity|]; split;
     [by rewrite ?subscriptions_call, ?app_nil_r
     |split; [exact Hrts'|exact Hgrew']]).
Qed.

Lemma setup_homes_coordinators entry_id homes entities h :
  store_ok h -> Forall answers homes ->
  let rt_homes :=
    filter (fun home => has_real_time_consumption home = true) homes in
  exists es h' cs,
    setup_homes entry_id homes entities h = (Ok es, h')
    /\ subscriptions h' = subscriptions h ++ zip (home_id <$> rt_homes) cs
    /\ rt_sensors h' = rt_sensors h
    /\ grew h h' rt_homes cs.
Proof.
  revert entities h.
  induction homes as [|home homes IH]; intros entities h Hok Hall rt_homes;
    subst rt_homes.
  - exists entities, h, []. rewrite app_nil_r. split; [done|].
    split; [done|]. split; [done|apply grew_refl].
  - apply Forall_cons in Hall as (Hu & Hall). simpl. unfold_M.
    destruct (setup_home_coordinators entry_id entities home h Hok Hu)
      as (es1 & h1 & cs1 & E1 & Hsubs1 & Hrts1 & Hgrew1).
    rewrite E1.
    assert (Hok1 : store_ok h1) by (by eapply setup_home_ok).
    destruct (IH es1 h1 Hok1 Hall) as (es & h' & cs & E & Hsubs & Hrts & Hgrew).
    rewrite E. exists es, h', (cs1 ++ cs). split; [done|].
    assert (Hfilter :
      filter (fun home => has_real_time_consumption home = true)
        (home :: homes)
      = (if has_real_time_consumption home then [home] else [])
        ++ filter (fun home => has_real_time_consumption home = true) homes).
    { destruct (has_real_time_consumption home) eqn:Hrt.
      - by rewrite filter_cons_True.
      - rewrite filter_cons_False; [done|]. by rewrite Hrt. }
    rewrite Hfilter. split; [|split; [congruence|by eapply grew_trans]].
    rewrite Hsubs, Hsubs1, <- app_assoc. f_equal.
    rewrite fmap_app. symmetry. apply zip_with_app.
    destruct Hgrew1 as (_ & _ & _ & Hlen%Forall2_length).
    by rewrite length_fmap.
Qed.

(** X20.  In any store the module can be in, a set-up in which no home
    raises makes one coordinator for each home with real-time consumption,
    and calls that home's [rt_subscribe] with it: the [rt_subscribe] calls
    of the set-up are, in the order of the homes, one per such home; the
    coordinators passed are new and pairwise different, each is the
    coordinator of its home, has no data yet and has every record of
    [RT_SENSORS] pending.  The coordinators that were there keep their
    pending descriptors, and no real-time sensor is made or changed. *)
Theorem setup_makes_coordinators acts now entropy er dr entry_id homes :
  let h := perform_all acts (@module_init num HC now entropy er dr) in
  let rt_homes :=
    filter (fun home => has_real_time_consumption home = true) homes in
  Forall answers homes ->
  exists h' cs,
    async_setup_entry entry_id homes h = (Ok tt, h')
    /\ subscriptions h' = subscriptions h ++ zip (home_id <$> rt_homes) cs
    /\ NoDup cs
    /\ Forall2 (fun home c =>
                  coordinators h !! c = None
                  /\ exists co, coordinators h' !! c = Some co
                       /\ Coordinator._tibber_home co = home
                       /\ Coordinator.data co = PNone
                       /\ pending h' c = RT_SENSORS) rt_homes cs
    /\ (forall c, is_Some (coordinators h !! c) -> pending h' c = pending h c)
    /\ rt_sensors h' = rt_sensors h.
Proof.
  intros h rt_homes Hall.
  pose proof (store_ok_reachable acts now entropy er dr) as Hok. fold h in Hok.
  destruct (setup_homes_coordinators entry_id homes [] h Hok Hall)
    as (es & h1 & cs & E & Hsubs & Hrts & Hsub & Hp & Hnd & Hnew).
  unfold async_setup_entry. unfold_M. rewrite E. eexists _, cs.
  split; [reflexivity|]. split; [by rewrite subscriptions_call, app_nil_r|].
  split; [done|]. split; [exact Hnew|]. split; [exact Hp|exact Hrts].
Qed.

End SubscriptionFacts.

(** ** A payload with errors *)

Section ErrorPayload.
Context {num : Type} {PN : PyNumber num} {HC : HostConst} {DU : DtUtil}.
Implicit Types (h : @hass num) (d : gmap string (pyval num))
  (s : @TibberSensorRT num).

(** X21.  A payload with errors: when the coordinator's data is a dict
    whose "errors" entry is non-empty and has a first item, [_add_sensors]
    and the [_handle_coordinator_update] of each of the coordinator's
    sensors return, and each of them logs that item and does nothing else:
    no sensor is made, registered or changed, and no host state is
    written, whatever the payload holds under "data". *)
Theorem error_payload_is_only_logged h c co d errors e :
  coordinators h !! c = Some co ->
  Coordinator.data co = PDict d ->
  d !! "errors" = Some errors -> Py.truthy errors = true ->
  Py.getitem_0 errors = Ok e ->
  _add_sensors c h
  = (Ok tt, with_calls (fun cs => cs ++ [LOGGER_error e]) h)
  /\ forall self s,
       rt_sensors h !! self = Some s -> coordinator s = c ->
       _handle_coordinator_update self h
       = (Ok tt, with_calls (fun cs => cs ++ [LOGGER_error e]) h).
Proof.
  intros Hco Hd He Ht H0.
  pose proof (get_live_measurement_errors h c co d errors e Hco Hd He Ht H0)
    as Hlm.
  split.
  - unfold _add_sensors. unfold_M. by rewrite Hlm.
  - intros self s Hs Hc. unfold _handle_coordinator_update. unfold_M.
    by rewrite Hs, Hc, Hlm.
Qed.

End ErrorPayload.

(** ** The theorems at sample inputs *)

Section Samples.
Import Sample.

(** Sensor 0 ("accumulatedConsumption", DAILY, state 12.5, last reset at
    22:00 UTC on 30 June) and sensor 2 ("accumulatedConsumptionLastHour",
    HOURLY, state 0.75).  Just after midnight sensor 0 reads 0.01: its
    [last_reset] becomes the start of 2 July in the +02:00 zone, which is
    22:00 UTC on 1 July.  At 14:00:03 sensor 2 reads 0.01: its [last_reset]
    becomes 14:00 in the +02:00 zone, which is 12:00 UTC; sensor 0 reads
    12.9 then, and its [last_reset] stays. *)
Lemma handle_update_last_reset_witness :
  (exists s',
     rt_sensors
       (snd (_handle_coordinator_update 0%nat
               (delivered (payload midnight_fields) running))) !! 0%nat
     = Some s'
     /\ _attr_last_reset s'
        = Some {| year := 2021; month := 7; day := 1; hour := 22; minute := 0;
                  second := 0; microsecond := 0; tzinfo := Some 0%Z |})
  /\ (exists s',
        rt_sensors
          (snd (_handle_coordinator_update 2%nat
                  (delivered (payload next_hour_fields) running))) !! 2%nat
        = Some s'
        /\ _attr_last_reset s'
           = Some {| year := 2021; month := 7; day := 1; hour := 12;
                     minute := 0; second := 0; microsecond := 0;
                     tzinfo := Some 0%Z |})
  /\ (exists s',
        rt_sensors
          (snd (_handle_coordinator_update 0%nat
                  (delivered (payload next_hour_fields) running))) !! 0%nat
        = Some s'
        /\ _attr_last_reset s'
           = Some {| year := 2021; month := 6; day := 30; hour := 22;
                     minute := 0; second := 0; microsecond := 0;
                     tzinfo := Some 0%Z |}).
Proof.
  split; [|split].
  - edestruct (handle_update_last_reset
                 (delivered (payload midnight_fields) running) 0%nat)
      as (s' & Hs' & Hdaily & _);
      [vm_compute; reflexivity .. | discriminate
       | vm_compute; reflexivity | vm_compute; reflexivity |].
    exists s'. split; [exact Hs'|]. apply Hdaily; vm_compute; reflexivity.
  - edestruct (handle_update_last_reset
                 (delivered (payload next_hour_fields) running) 2%nat)
      as (s' & Hs' & _ & Hhourly & _);
      [vm_compute; reflexivity .. | discriminate
       | vm_compute; reflexivity | vm_compute; reflexivity |].
    exists s'. split; [exact Hs'|]. apply Hhourly; vm_compute; reflexivity.
  - edestruct (handle_update_last_reset
                 (delivered (payload next_hour_fields) running) 0%nat)
      as (s' & Hs' & _ & _ & Hsame);
      [vm_compute; reflexivity .. | discriminate
       | vm_compute; reflexivity | vm_compute; reflexivity |].
    exists s'. split; [exact Hs'|]. rewrite Hsame by (vm_compute; reflexivity).
    vm_compute. reflexivity.
Defined.



(** The measurement holds only the power: the update of sensor 0 returns
    at once, the store being as it was. *)
Lemma handle_update_without_reading_witness :
  _handle_coordinator_update 0%nat (delivered (payload power_fields) running)
  = (Ok tt, delivered (payload power_fields) running).
Proof.
  refine (proj1 (handle_update_without_reading
                   (delivered (payload power_fields) running) 0%nat _ _
                   (delivered (payload power_fields) running) _ _ _)).
  - vm_compute. reflexivity.
  - vm_compute. reflexivity.
  - right. eexists. split; [reflexivity|]. left. vm_compute. reflexivity.
Defined.

(** A payload with an error, and a payload with a live measurement. *)
Lemma get_live_measurement_spec_witness :
  fst (get_live_measurement 0%nat
         (delivered (PDict {[ "errors" := PList [PStr "unauthenticated"] ]})
            subscribed))
  = Ok PNone
  /\ fst (get_live_measurement 0%nat
            (delivered (payload power_fields) subscribed))
     = Ok (PDict (measurement power_fields)).
Proof.
  split.
  - edestruct (get_live_measurement_spec
                 (delivered
                    (PDict {[ "errors" := PList [PStr "unauthenticated"] ]})
                    subscribed) 0%nat) as (Herrors & _);
      [vm_compute; reflexivity | reflexivity |].
    erewrite Herrors; [reflexivity|vm_compute; reflexivity|reflexivity..].
  - edestruct (get_live_measurement_spec
                 (delivered (payload power_fields) subscribed) 0%nat)
      as (_ & Hdata & _); [vm_compute; reflexivity | reflexivity |].
    destruct Hdata as (_ & Hdata); [vm_compute; reflexivity|].
    erewrite Hdata by (vm_compute; reflexivity). vm_compute. reflexivity.
Defined.

(** A "data" entry that is [None], and an "errors" entry that is a dict:
    [get_live_measurement] raises. *)
Lemma get_live_measurement_counterexample :
  get_live_measurement 0%nat
    (delivered (PDict {[ "data" := PNone ]}) subscribed)
  = (Raise AttributeError, delivered (PDict {[ "data" := PNone ]}) subscribed)
  /\ fst (get_live_measurement 0%nat
            (delivered
               (PDict {[ "errors" := PDict {[ "message" := PStr "no" ]} ]})
               subscribed))
     = Raise KeyError.
Proof. split; vm_compute; reflexivity. Qed.

(** Calls at 0 s, 100 s and 400 s: the body runs at 0 s and at 400 s. *)
Lemma fetch_data_throttled_witness :
  StronglySorted Z.le (ElPrice.clock_readings three_calls)
  /\ ElPrice.fetches
       (ElPrice.async_updates three_calls
          {| ElPrice.self := ElPrice.__init__ home 1234;
             ElPrice.home := vendor; ElPrice.fetches := [] |})
     = [0%Z; 400000000%Z]
  /\ length
       (filter (fun x => (0 <= x <= 0 + timedelta_minutes 5)%Z)
          (ElPrice.fetches
             (ElPrice.async_updates three_calls
                {| ElPrice.self := ElPrice.__init__ home 1234;
                   ElPrice.home := vendor; ElPrice.fetches := [] |})))
     <= 1.
Proof.
  assert (Hclock : StronglySorted Z.le (ElPrice.clock_readings three_calls)).
  { vm_compute. repeat constructor; discriminate. }
  split; [exact Hclock|]. split; [vm_compute; reflexivity|].
  apply (fetch_data_throttled home 1234%Z vendor three_calls 0%Z Hclock).
Defined.

(** C2 (the code at a failing input).  A new coordinator gets a live
    measurement with a reading for every one of the 21 descriptors of its
    list.  [_add_sensors] returns, having made and registered sensors for
    11 of them, every other one, and left the 10 between them in the
    list. *)
Theorem add_sensors_skips_every_other :
  let h := delivered (payload full_fields) subscribed in
  let h' := snd (_add_sensors 0%nat h) in
  pending h 0%nat = RT_SENSORS
  /\ fst (get_live_measurement 0%nat h) = Ok (PDict (measurement full_fields))
  /\ forallb (fun m => negb (Py.is_none
                              (default PNone
                                 (measurement full_fields !! key m))))
       (pending h 0%nat) = true
  /\ fst (_add_sensors 0%nat h) = Ok tt
  /\ (fun e => key <$> (_metadata <$> rt_sensors h' !! e)) <$> registered h'
     = Some <$> ["averagePower"; "powerProduction"; "maxPower";
                 "accumulatedConsumptionLastHour";
                 "accumulatedProductionLastHour"; "lastMeterProduction";
                 "voltagePhase2"; "currentL1"; "currentL3";
                 "accumulatedReward"; "powerFactor"]
  /\ key <$> pending h' 0%nat
     = ["power"; "minPower"; "accumulatedConsumption";
        "accumulatedProduction"; "lastMeterConsumption"; "voltagePhase1";
        "voltagePhase3"; "currentL2"; "signalStrength"; "accumulatedCost"].
Proof. repeat split; vm_compute; reflexivity. Qed.

(** The descriptors that one update skips are taken up by the next ones:
    five updates with the same full measurement make all 21 sensors. *)
Example five_updates_create_all :
  let update := coordinator_update 0%nat (payload full_fields) in
  let h := perform_all (update ++ update ++ update ++ update ++ update)
             subscribed in
  length (registered h) = 21 /\ pending h 0%nat = [].
Proof. split; vm_compute; reflexivity. Qed.

(** Set-up of two homes that answer, then of three, the last timing out. *)
Example async_setup_entry_sample :
  fst (async_setup_entry "entry" [home; cabin] imported) = Ok tt
  /\ registrations (snd (async_setup_entry "entry" [home; cabin] imported))
     = [async_add_entities [ElPriceEntity (ElPrice.__init__ home 1234)] true]
  /\ fst (async_setup_entry "entry" [home; cabin; unreachable] imported)
     = Raise PlatformNotReady
  /\ registrations
       (snd (async_setup_entry "entry" [home; cabin; unreachable] imported))
     = [].
Proof. repeat split; vm_compute; reflexivity. Qed.

(** [errors[0]] of a string is its first character, of one byte or of
    two. *)
Example getitem_0_first_character :
  @Py.getitem_0 Q (PStr "unauthenticated") = Ok (PStr "u")
  /\ @Py.getitem_0 Q (PStr "økonomi") = Ok (PStr "ø").
Proof. split; reflexivity. Qed.

End Samples.

(** ** The further theorems at sample inputs *)

Section FurtherSamples.
Import Sample.

(** Sensor 1 ("powerFactor", no reset type, state 50) meets a power
    factor of 0.1: its [last_reset] stays [None]. *)
Lemma handle_update_keeps_last_reset_witness :
  _attr_last_reset
    <$> rt_sensors
          (snd (_handle_coordinator_update 1%nat
                  (delivered (payload low_power_factor_fields)
                     (snd (_handle_coordinator_update 1%nat
                             (delivered (payload midnight_fields) running))))))
          !! 1%nat
  = Some None.
Proof.
  eapply eq_trans;
    [eapply (handle_update_keeps_last_reset _ 1%nat);
     [vm_compute; reflexivity|vm_compute; discriminate..]
    |vm_compute; reflexivity].
Defined.


(** The measurement of just after midnight, delivered to sensor 0
    twice. *)
Lemma handle_update_twice_witness :
  let h' := snd (_handle_coordinator_update 0%nat
                   (delivered (payload midnight_fields) running)) in
  exists h'', _handle_coordinator_update 0%nat h' = (Ok tt, h'')
    /\ rt_sensors h'' = rt_sensors h'.
Proof.
  eapply (handle_update_twice
            (delivered (payload midnight_fields) running) 0%nat);
    [vm_compute; reflexivity | vm_compute; reflexivity
     | vm_compute; reflexivity | vm_compute; reflexivity
     | vm_compute; reflexivity | vm_compute; reflexivity
     | vm_compute; discriminate | vm_compute; reflexivity].
Defined.

(** The price sensor of [home] as constructed, and after a first call
    that returns. *)
Lemma price_sensor_available_witness :
  let w := {| ElPrice.self := ElPrice.__init__ home 1234;
              ElPrice.home := vendor; ElPrice.fetches := [] |} in
  let s := ElPrice.self w in
  let s' := ElPrice.self (snd (ElPrice.async_update (at_instant 0) w)) in
  (ElPrice._attr_available s = false
   /\ ElPrice._attr_state s = PStr STATE_UNKNOWN
   \/ ElPrice._attr_available s = negb (Py.is_none (ElPrice._attr_state s)))
  /\ ElPrice._attr_available s' = negb (Py.is_none (ElPrice._attr_state s')).
Proof.
  intros w s s'.
  destruct (price_sensor_available home 1234%Z vendor [] (at_instant 0))
    as [Hnew Hnext].
  split; [exact Hnew|]. apply Hnext. vm_compute. reflexivity.
Defined.

(** A new coordinator and a live measurement with a reading for every
    descriptor. *)
Lemma add_sensors_scan_witness :
  let h := perform_all (set_up ++ [SetData 0%nat (payload full_fields)])
             imported in
  exists co new h',
    coordinators h !! 0%nat = Some co
    /\ _add_sensors 0%nat h = (Ok tt, h')
    /\ pending h' 0%nat = left_over (measurement full_fields) (pending h 0%nat)
    /\ registered h' = registered h ++ new
    /\ Forall2 (fun e x =>
                  rt_sensors h !! e = None
                  /\ exists s, rt_sensors h' !! e = Some s
                       /\ made_for (measurement full_fields) 0%nat
                            (Coordinator._tibber_home co) s x)
         new (taken (measurement full_fields) (pending h 0%nat)).
Proof.
  eapply (add_sensors_scan
            (set_up ++ [SetData 0%nat (payload full_fields)])
            clock (fun _ => 1234%Z) ∅ ∅ 0%nat (measurement full_fields)).
  vm_compute. reflexivity.
Defined.

(** The same coordinator, updated 21 times with that measurement. *)
Lemma updates_create_all_witness :
  let h := perform_all set_up imported in
  let h' := perform_all
              (mjoin (replicate 21 (coordinator_update 0%nat
                                      (payload full_fields)))) h in
  Forall (fun x => has_reading (measurement full_fields) x = false)
    (pending h' 0%nat)
  /\ forall x, x ∈ pending h 0%nat ->
       has_reading (measurement full_fields) x = true ->
       exists e s, rt_sensors h' !! e = Some s /\ coordinator s = 0%nat
                   /\ _metadata s = x.
Proof.
  eapply (updates_create_all set_up clock (fun _ => 1234%Z) ∅ ∅ 0%nat
            {[ "data" := PDict {[ "liveMeasurement"
                                  := PDict (measurement full_fields) ]} ]}
            {[ "liveMeasurement" := PDict (measurement full_fields) ]}
            (measurement full_fields) 21).
  - vm_compute. eexists. reflexivity.
  - reflexivity.
  - reflexivity.
  - reflexivity.
  - vm_compute. lia.
Defined.

(** The coordinator of [home] after two updates: 18 descriptors pending,
    3 sensors. *)
Lemma descriptors_partition_witness :
  let h := perform_all two_updates imported in
  pending h 0%nat ++ created_metadata h 0%nat ≡ₚ RT_SENSORS
  /\ length (pending h 0%nat) + length (created_keys h 0%nat) = 21.
Proof.
  eapply (descriptors_partition two_updates clock (fun _ => 1234%Z) ∅ ∅ 0%nat).
  vm_compute. eexists. reflexivity.
Defined.

(** Sensor 0 of that store. *)
Lemma sensors_as_constructed_witness :
  let h := perform_all two_updates imported in
  exists s, rt_sensors h !! 0%nat = Some s
    /\ _attr_state s <> PNone
    /\ (is_Some (_attr_last_reset s) <-> is_Some (reset_type (_metadata s)))
    /\ _metadata s ∈ RT_SENSORS
    /\ exists co, coordinators h !! coordinator s = Some co
         /\ built (Coordinator._tibber_home co) s.
Proof.
  intros h. eexists. split; [vm_compute; reflexivity|].
  eapply (sensors_as_constructed two_updates clock (fun _ => 1234%Z) ∅ ∅ 0%nat).
  vm_compute. reflexivity.
Defined.

(** Sensors 0 and 1 of that store. *)
Lemma sensors_of_a_coordinator_witness :
  let h := perform_all two_updates imported in
  exists s1 s2,
    rt_sensors h !! 0%nat = Some s1 /\ rt_sensors h !! 1%nat = Some s2
    /\ (_attr_unique_id s1 = _attr_unique_id s2 -> 0%nat = 1%nat)
    /\ device_info (rt_sensor s1) = device_info (rt_sensor s2)
    /\ exists co, coordinators h !! coordinator s1 = Some co
         /\ DeviceInfo.identifiers (device_info (rt_sensor s1))
            = {[ (TIBBER_DOMAIN, home_id (Coordinator._tibber_home co)) ]}
         /\ DeviceInfo.model (device_info (rt_sensor s1))
            = Some "Tibber Pulse".
Proof.
  intros h. do 2 eexists. split; [vm_compute; reflexivity|].
  split; [vm_compute; reflexivity|].
  eapply (sensors_of_a_coordinator two_updates clock (fun _ => 1234%Z) ∅ ∅
            0%nat 1%nat);
    vm_compute; reflexivity.
Defined.

(** A home whose [update_info] raises an error of the vendor client, and
    a home whose [rt_subscribe] times out, each after a home that
    answers. *)
Lemma async_setup_entry_raises_witness :
  (exists h',
     async_setup_entry "entry" [home; locked; cabin] imported
     = (Raise (OtherError "InvalidLogin"), h')
     /\ registrations h' = registrations imported)
  /\ (exists h',
        async_setup_entry "entry" [home; flaky; cabin] imported
        = (Raise asyncio_TimeoutError, h')
        /\ registrations h' = registrations imported).
Proof.
  assert (Hpre : Forall answers [home]).
  { constructor; [|constructor]. split; [reflexivity|]. intros _. reflexivity. }
  split.
  - apply (async_setup_entry_raises [] clock (fun _ => 1234%Z) ∅ ∅ "entry"
             [home] locked [cabin] (OtherError "InvalidLogin") Hpre).
    left. split; [reflexivity|]. split; discriminate.
  - apply (async_setup_entry_raises [] clock (fun _ => 1234%Z) ∅ ∅ "entry"
             [home] flaky [cabin] asyncio_TimeoutError Hpre).
    right. split; [reflexivity|]. split; reflexivity.
Defined.

(** Two homes, the first with real-time consumption. *)
Lemma setup_makes_coordinators_witness :
  exists h' cs,
    async_setup_entry "entry" [home; cabin] imported = (Ok tt, h')
    /\ subscriptions h'
       = subscriptions imported ++ zip [home_id home] cs
    /\ NoDup cs
    /\ Forall2 (fun home c =>
                  coordinators imported !! c = None
                  /\ exists co, coordinators h' !! c = Some co
                       /\ Coordinator._tibber_home co = home
                       /\ Coordinator.data co = PNone
                       /\ pending h' c = RT_SENSORS) [home] cs
    /\ (forall c, is_Some (coordinators imported !! c) ->
                  pending h' c = pending imported c)
    /\ rt_sensors h' = rt_sensors imported.
Proof.
  apply (setup_makes_coordinators [] clock (fun _ => 1234%Z) ∅ ∅ "entry"
           [home; cabin]).
  repeat constructor; intros _; reflexivity.
Defined.

(** A payload with an error, met by the coordinator's own listener and
    by sensor 0. *)
Lemma error_payload_is_only_logged_witness :
  let h := delivered (PDict {[ "errors" := PList [PStr "unauthenticated"] ]})
             running in
  _add_sensors 0%nat h
  = (Ok tt, with_calls (fun cs => cs ++ [LOGGER_error (PStr "unauthenticated")])
              h)
  /\ _handle_coordinator_update 0%nat h
     = (Ok tt,
        with_calls (fun cs => cs ++ [LOGGER_error (PStr "unauthenticated")]) h).
Proof.
  intros h.
  edestruct (error_payload_is_only_logged h 0%nat) as (Hadd & Hupd);
    [vm_compute; reflexivity | reflexivity | reflexivity | reflexivity
     | reflexivity |].
  split; [exact Hadd|]. eapply Hupd; vm_compute; reflexivity.
Defined.

End FurtherSamples.
